(** * vmess_vless_full_pipeline: a shallow embedding and its properties

    The development follows [src/vmess_vless_full_pipeline.py].

    Modelling conventions.
    - Python text ([str]) is a [string] of bytes holding its UTF-8 encoding;
      [str.encode('utf-8')] is the identity and [bytes.decode('utf-8')] is a
      well-formedness check.  Searching, splitting and replacing act on bytes,
      which agrees with the code-point operations on well-formed text.
      Case mapping ([str.lower]) is the ASCII one; [str.strip] removes the
      whole Unicode white-space set; non-ASCII characters count as printable.
    - Python values are the inductive [value]; a [dict] is an association
      list in insertion order with distinct keys.
    - Exceptions are values of [exn]; code that may raise returns a [result].
    - Library functions (str, json, base64, urllib.parse) are transcribed
      from CPython 3.11.  What is not transcribed is a field of [Runtime]:
      the text of a float, the float of a number literal, and two checks of
      urlsplit on exotic network locations.
    - Interpreter resource limits (recursion depth, the digit limit of
      integer conversion, memory) are outside the model. *)

From Stdlib Require Import String Ascii List ZArith NArith Lia Bool.
From Stdlib Require Import DecimalString DecimalZ.
From Stdlib Require Import Floats.PrimFloat.
Import ListNotations.
Open Scope string_scope.
Open Scope Z_scope.

(** ** Characters and text *)

Definition code (c : ascii) : N := N_of_ascii c.
Definition chr (n : N) : ascii := ascii_of_N n.
Definition quote_char : ascii := chr 34.
Definition str1 (c : ascii) : string := String c EmptyString.

Definition in_range (lo hi : N) (c : ascii) : bool :=
  (N.leb lo (code c) && N.leb (code c) hi)%bool.

Definition is_digit (c : ascii) : bool := in_range 48 57 c.
Definition is_upper (c : ascii) : bool := in_range 65 90 c.
Definition is_lower (c : ascii) : bool := in_range 97 122 c.
Definition is_alpha (c : ascii) : bool := (is_upper c || is_lower c)%bool.
Definition is_ascii (c : ascii) : bool := N.ltb (code c) 128.

Definition lower_char (c : ascii) : ascii :=
  if is_upper c then chr (code c + 32) else c.

Fixpoint smap (f : ascii -> ascii) (s : string) : string :=
  match s with
  | EmptyString => EmptyString
  | String c r => String (f c) (smap f r)
  end.

Fixpoint sforall (p : ascii -> bool) (s : string) : bool :=
  match s with
  | EmptyString => true
  | String c r => (p c && sforall p r)%bool
  end.

Fixpoint smem (c : ascii) (s : string) : bool :=
  match s with
  | EmptyString => false
  | String a r => (Ascii.eqb a c || smem c r)%bool
  end.

Fixpoint srev_app (s acc : string) : string :=
  match s with
  | EmptyString => acc
  | String c r => srev_app r (String c acc)
  end.

Definition srev (s : string) : string := srev_app s EmptyString.

(** [str.lower], [str.isascii], [str.isdigit] (on ASCII text). *)
Definition lower (s : string) : string := smap lower_char s.
Definition isascii (s : string) : bool := sforall is_ascii s.
Definition isdigit (s : string) : bool :=
  match s with
  | EmptyString => false
  | _ => sforall is_digit s
  end.

(** [s.startswith(p)]. *)
Fixpoint startswith (s p : string) : bool :=
  match p, s with
  | EmptyString, _ => true
  | String a p', String b s' => (Ascii.eqb a b && startswith s' p')%bool
  | String _ _, EmptyString => false
  end.

(** [s.endswith(p)]. *)
Definition endswith (s p : string) : bool := startswith (srev s) (srev p).

(** [s[n:]]. *)
Fixpoint drop (n : nat) (s : string) : string :=
  match n, s with
  | O, _ => s
  | S k, String _ r => drop k r
  | S _, EmptyString => EmptyString
  end.

(** [old in s] for text. *)
Fixpoint contains (s old : string) : bool :=
  match s with
  | EmptyString => startswith s old
  | String _ r => (startswith s old || contains r old)%bool
  end.

(** [s.replace(old, new)] for a non-empty [old]: occurrences are replaced
    from the left and do not overlap; [skip] counts the bytes of the
    occurrence being replaced that are still to be passed over. *)
Fixpoint replace_from (old new : string) (skip : nat) (s : string) : string :=
  match s with
  | EmptyString => EmptyString
  | String c r =>
      match skip with
      | S k => replace_from old new k r
      | O =>
          if startswith s old
          then new ++ replace_from old new (Nat.pred (String.length old)) r
          else String c (replace_from old new O r)
      end
  end.

Definition replace (old new s : string) : string := replace_from old new O s.

(** [sep.join(parts)]. *)
Fixpoint join (sep : string) (parts : list string) : string :=
  match parts with
  | [] => EmptyString
  | [p] => p
  | p :: rest => p ++ sep ++ join sep rest
  end.

(** [s.partition(c)] and [s.rpartition(c)] for a one-character separator:
    [None] when the separator does not occur. *)
Fixpoint partition (c : ascii) (s : string) : option (string * string) :=
  match s with
  | EmptyString => None
  | String a r =>
      if Ascii.eqb a c then Some (EmptyString, r)
      else match partition c r with
           | Some (h, t) => Some (String a h, t)
           | None => None
           end
  end.

Fixpoint rpartition (c : ascii) (s : string) : option (string * string) :=
  match s with
  | EmptyString => None
  | String a r =>
      match rpartition c r with
      | Some (h, t) => Some (String a h, t)
      | None => if Ascii.eqb a c then Some (EmptyString, r) else None
      end
  end.

(** [s.split(c)]: every piece between separators, at least one piece. *)
Fixpoint split_on (c : ascii) (s : string) : list string :=
  match s with
  | EmptyString => [EmptyString]
  | String a r =>
      if Ascii.eqb a c then EmptyString :: split_on c r
      else match split_on c r with
           | p :: ps => String a p :: ps
           | [] => [str1 a]
           end
  end.

(** White space as [str.strip] sees it.  One byte: U+0009..000D,
    U+001C..0020.  Two bytes: U+0085, U+00A0.  Three bytes: U+1680,
    U+2000..200A, U+2028, U+2029, U+202F, U+205F, U+3000. *)
Definition is_space (c : ascii) : bool :=
  (in_range 9 13 c || in_range 28 32 c)%bool.

Definition is_space2 (a b : ascii) : bool :=
  (N.eqb (code a) 194 && (N.eqb (code b) 133 || N.eqb (code b) 160))%bool.

Definition is_space3 (a b c : ascii) : bool :=
  let x := code a in let y := code b in let z := code c in
  ((N.eqb x 225 && N.eqb y 154 && N.eqb z 128)
   || (N.eqb x 226 && N.eqb y 128
       && (N.leb 128 z && N.leb z 138 || N.eqb z 168 || N.eqb z 169 || N.eqb z 175))
   || (N.eqb x 226 && N.eqb y 129 && N.eqb z 159)
   || (N.eqb x 227 && N.eqb y 128 && N.eqb z 128))%bool.

Fixpoint lstrip (s : string) : string :=
  match s with
  | EmptyString => s
  | String a r1 =>
      if is_space a then lstrip r1
      else match r1 with
           | EmptyString => s
           | String b r2 =>
               if is_space2 a b then lstrip r2
               else match r2 with
                    | EmptyString => s
                    | String c r3 => if is_space3 a b c then lstrip r3 else s
                    end
           end
  end.

(** The same scan on the reversed text, where the bytes of a character
    come last byte first. *)
Fixpoint lstrip_rev (s : string) : string :=
  match s with
  | EmptyString => s
  | String a r1 =>
      if is_space a then lstrip_rev r1
      else match r1 with
           | EmptyString => s
           | String b r2 =>
               if is_space2 b a then lstrip_rev r2
               else match r2 with
                    | EmptyString => s
                    | String c r3 => if is_space3 c b a then lstrip_rev r3 else s
                    end
           end
  end.

Definition rstrip (s : string) : string := srev (lstrip_rev (srev s)).
Definition strip (s : string) : string := rstrip (lstrip s).

(** [s.lstrip(chars)] for a set of one-byte characters. *)
Fixpoint lstrip_chars (p : ascii -> bool) (s : string) : string :=
  match s with
  | EmptyString => s
  | String a r => if p a then lstrip_chars p r else s
  end.

(** ** Integers and their decimal text *)

(** [str(n)] for an integer. *)
Definition string_of_Z (n : Z) : string := NilZero.string_of_int (Z.to_int n).

Definition digit_val (c : ascii) : Z := Z.of_N (code c) - 48.

(** [int(s)] for a text of ASCII digits, most significant first. *)
Fixpoint Z_of_digits_from (acc : Z) (s : string) : Z :=
  match s with
  | EmptyString => acc
  | String c r => Z_of_digits_from (10 * acc + digit_val c) r
  end.

Definition Z_of_digits (s : string) : Z := Z_of_digits_from 0 s.

Definition hex_digit (n : N) : ascii :=
  if N.ltb n 10 then chr (48 + n) else chr (87 + n).

Definition hex_digit_upper (n : N) : ascii :=
  if N.ltb n 10 then chr (48 + n) else chr (55 + n).

Definition hex_val (c : ascii) : option N :=
  if is_digit c then Some (code c - 48)%N
  else if in_range 97 102 c then Some (code c - 87)%N
  else if in_range 65 70 c then Some (code c - 55)%N
  else None.

(** ** Values, exceptions, results *)

#[local] Unset Elimination Schemes.

Inductive value : Type :=
| VNone
| VBool (b : bool)
| VInt (n : Z)
| VFloat (f : float)
| VStr (s : string)
| VList (l : list value)
| VDict (d : list (string * value)).

#[local] Set Elimination Schemes.

Definition dict : Type := list (string * value).

Inductive exn : Type :=
| KeyError (key : string)
| TypeError
| ValueError
| AttributeError
| JSONDecodeError
| UnicodeDecodeError
| UnicodeEncodeError
| Base64Error.

Inductive result (A : Type) : Type :=
| Ok (a : A)
| Raise (e : exn).

Arguments Ok {A} a.
Arguments Raise {A} e.

Definition bind {A B : Type} (m : result A) (k : A -> result B) : result B :=
  match m with
  | Ok a => k a
  | Raise e => Raise e
  end.

Notation "x <- m ;; k" := (bind m (fun x => k))
  (at level 61, m at next level, right associativity).
Notation "m ;;; k" := (bind m (fun _ => k))
  (at level 61, right associativity).


(** ** Dictionaries: insertion-ordered, one entry per key *)

Fixpoint dict_get (k : string) (d : dict) : option value :=
  match d with
  | [] => None
  | (k', v) :: r => if String.eqb k' k then Some v else dict_get k r
  end.

(** [k in d]. *)
Definition dict_has (k : string) (d : dict) : bool :=
  match dict_get k d with
  | Some _ => true
  | None => false
  end.

(** [d[k] = v]: an existing key keeps its place, a new key goes last. *)
Fixpoint dict_set (k : string) (v : value) (d : dict) : dict :=
  match d with
  | [] => [(k, v)]
  | (k', v') :: r =>
      if String.eqb k' k then (k', v) :: r else (k', v') :: dict_set k v r
  end.

(** [d.get(k, dflt)]. *)
Definition dict_get_default (k : string) (dflt : value) (d : dict) : value :=
  match dict_get k d with
  | Some v => v
  | None => dflt
  end.

(** [d[k]]. *)
Definition dict_item (k : string) (d : dict) : result value :=
  match dict_get k d with
  | Some v => Ok v
  | None => Raise (KeyError k)
  end.

Definition keys (d : dict) : list string := map fst d.

(** [dict(pairs)]: later pairs overwrite earlier ones. *)
Definition dict_of_pairs (pairs : list (string * value)) : dict :=
  fold_left (fun d kv => dict_set (fst kv) (snd kv) d) pairs [].

(** ** Python operators on values *)

Definition float_is_zero (f : float) : bool := PrimFloat.eqb f 0%float.
Definition float_is_nan (f : float) : bool := negb (PrimFloat.eqb f f).

(** [bool(v)]. *)
Definition truthy (v : value) : bool :=
  match v with
  | VNone => false
  | VBool b => b
  | VInt n => negb (Z.eqb n 0)
  | VFloat f => negb (float_is_zero f)
  | VStr s => negb (String.eqb s EmptyString)
  | VList l => match l with [] => false | _ => true end
  | VDict d => match d with [] => false | _ => true end
  end.

(** [v == s] for a text constant [s]. *)
Definition eq_str (v : value) (s : string) : bool :=
  match v with
  | VStr t => String.eqb t s
  | _ => false
  end.

(** [repr(s)] for text. *)
Definition repr_quote (s : string) : ascii :=
  if (smem "'"%char s && negb (smem quote_char s))%bool then quote_char else "'"%char.

Definition repr_char (q c : ascii) : string :=
  if Ascii.eqb c "\"%char then "\\"
  else if Ascii.eqb c q then String "\"%char (str1 c)
  else if N.eqb (code c) 10 then "\n"
  else if N.eqb (code c) 13 then "\r"
  else if N.eqb (code c) 9 then "\t"
  else if (N.ltb (code c) 32 || N.eqb (code c) 127)%bool
       then "\x" ++ String (hex_digit (code c / 16)) (str1 (hex_digit (code c mod 16)))
  else str1 c.

Fixpoint repr_body (q : ascii) (s : string) : string :=
  match s with
  | EmptyString => EmptyString
  | String c r => repr_char q c ++ repr_body q r
  end.

Definition str_repr (s : string) : string :=
  let q := repr_quote s in String q (repr_body q s ++ str1 q).

(** What the interpreter provides and the model does not transcribe. *)
Class Runtime : Type := {
  (** [repr(x)] of a float, also its [str(x)]. *)
  float_repr : float -> string;
  (** [float(text)] of a JSON number literal with a fraction or exponent. *)
  float_of_literal : string -> float;
  (** [_check_bracketed_host] of urllib.parse accepts the host. *)
  bracketed_host_ok : string -> bool;
  (** [_checknetloc] of urllib.parse accepts a non-ASCII network location. *)
  nfkc_netloc_ok : string -> bool
}.

Section Pipeline.

Context {rt : Runtime}.

(** [repr(v)] and [str(v)]. *)
Fixpoint py_repr (v : value) : string :=
  match v with
  | VNone => "None"
  | VBool true => "True"
  | VBool false => "False"
  | VInt n => string_of_Z n
  | VFloat f => float_repr f
  | VStr s => str_repr s
  | VList l => "[" ++ join ", " (map py_repr l) ++ "]"
  | VDict d =>
      "{" ++ join ", " (map (fun kv => match kv with
                                       | (k, x) => str_repr k ++ ": " ++ py_repr x
                                       end) d) ++ "}"
  end.

Definition py_str (v : value) : string :=
  match v with
  | VStr s => s
  | _ => py_repr v
  end.

(** ** json: the encoder with [ensure_ascii=False] and compact separators *)

Definition json_escape_char (c : ascii) : string :=
  if Ascii.eqb c quote_char then String "\"%char (str1 quote_char)
  else if Ascii.eqb c "\"%char then "\\"
  else if N.eqb (code c) 8 then "\b"
  else if N.eqb (code c) 12 then "\f"
  else if N.eqb (code c) 10 then "\n"
  else if N.eqb (code c) 13 then "\r"
  else if N.eqb (code c) 9 then "\t"
  else if N.ltb (code c) 32
       then "\u00" ++ String (hex_digit (code c / 16)) (str1 (hex_digit (code c mod 16)))
  else str1 c.

Fixpoint json_escape (s : string) : string :=
  match s with
  | EmptyString => EmptyString
  | String c r => json_escape_char c ++ json_escape r
  end.

(** [encode_basestring]. *)
Definition json_string (s : string) : string :=
  String quote_char (json_escape s ++ str1 quote_char).

(** [floatstr] of json.encoder. *)
Definition json_float (f : float) : string :=
  if float_is_nan f then "NaN"
  else if PrimFloat.eqb f infinity then "Infinity"
  else if PrimFloat.eqb f neg_infinity then "-Infinity"
  else float_repr f.

(** [json.dumps(v, ensure_ascii=False, separators=(',', ':'))]. *)
Fixpoint json_dumps (v : value) : string :=
  match v with
  | VNone => "null"
  | VBool true => "true"
  | VBool false => "false"
  | VInt n => string_of_Z n
  | VFloat f => json_float f
  | VStr s => json_string s
  | VList l => "[" ++ join "," (map json_dumps l) ++ "]"
  | VDict d =>
      "{" ++ join "," (map (fun kv => match kv with
                                      | (k, x) => json_string k ++ ":" ++ json_dumps x
                                      end) d) ++ "}"
  end.

(** ** json: the decoder *)

Definition is_json_ws (c : ascii) : bool :=
  (N.eqb (code c) 32 || N.eqb (code c) 9 || N.eqb (code c) 10 || N.eqb (code c) 13)%bool.

Definition skip_ws (s : string) : string := lstrip_chars is_json_ws s.

(** The longest prefix of characters satisfying [p], and the rest. *)
Fixpoint span (p : ascii -> bool) (s : string) : string * string :=
  match s with
  | EmptyString => (EmptyString, EmptyString)
  | String c r =>
      if p c then let (h, t) := span p r in (String c h, t)
      else (EmptyString, s)
  end.

(** UTF-8 of a code point; a surrogate code point gets the three-byte form. *)
Definition utf8_of_codepoint (u : N) : string :=
  (if u <? 128 then str1 (chr u)
   else if u <? 2048 then
     String (chr (192 + u / 64)) (str1 (chr (128 + u mod 64)))
   else if u <? 65536 then
     String (chr (224 + u / 4096))
       (String (chr (128 + (u / 64) mod 64)) (str1 (chr (128 + u mod 64))))
   else
     String (chr (240 + u / 262144))
       (String (chr (128 + (u / 4096) mod 64))
          (String (chr (128 + (u / 64) mod 64)) (str1 (chr (128 + u mod 64))))))%N.

(** Four hexadecimal digits after a backslash-u. *)
Definition decode_uXXXX (s : string) : result (N * string) :=
  match s with
  | String a (String b (String c (String d r))) =>
      match hex_val a, hex_val b, hex_val c, hex_val d with
      | Some x, Some y, Some z, Some w => Ok (((x * 16 + y) * 16 + z) * 16 + w, r)%N
      | _, _, _, _ => Raise JSONDecodeError
      end
  | _ => Raise JSONDecodeError
  end.

Definition json_unescape (e : ascii) : option ascii :=
  if Ascii.eqb e quote_char then Some quote_char
  else if Ascii.eqb e "\"%char then Some "\"%char
  else if Ascii.eqb e "/"%char then Some "/"%char
  else if Ascii.eqb e "b"%char then Some (chr 8)
  else if Ascii.eqb e "f"%char then Some (chr 12)
  else if Ascii.eqb e "n"%char then Some (chr 10)
  else if Ascii.eqb e "r"%char then Some (chr 13)
  else if Ascii.eqb e "t"%char then Some (chr 9)
  else None.

(** [scanstring] in strict mode, from just after the opening quote:
    the decoded text and what follows the closing quote. *)
Fixpoint scanstring (fuel : nat) (s : string) : result (string * string) :=
  match fuel with
  | O => Raise JSONDecodeError
  | S k =>
      match s with
      | EmptyString => Raise JSONDecodeError
      | String c r =>
          if Ascii.eqb c quote_char then Ok (EmptyString, r)
          else if Ascii.eqb c "\"%char then
            match r with
            | EmptyString => Raise JSONDecodeError
            | String e r1 =>
                if Ascii.eqb e "u"%char then
                  ur <- decode_uXXXX r1 ;;
                  let (uni, r2) := (ur : N * string) in
                  ur' <- (if (N.leb 55296 uni && N.leb uni 56319 && startswith r2 "\u")%bool
                          then ur2 <- decode_uXXXX (drop 2 r2) ;;
                               let (uni2, r3) := (ur2 : N * string) in
                               if (N.leb 56320 uni2 && N.leb uni2 57343)%bool
                               then Ok (65536 + ((uni - 55296) * 1024 + (uni2 - 56320)), r3)%N
                               else Ok (uni, r2)
                          else Ok (uni, r2)) ;;
                  let (cp, r4) := (ur' : N * string) in
                  tr <- scanstring k r4 ;;
                  let (t, rest) := (tr : string * string) in
                  Ok (utf8_of_codepoint cp ++ t, rest)
                else
                  match json_unescape e with
                  | None => Raise JSONDecodeError
                  | Some x =>
                      tr <- scanstring k r1 ;;
                      let (t, rest) := (tr : string * string) in
                      Ok (String x t, rest)
                  end
            end
          else if N.ltb (code c) 32 then Raise JSONDecodeError
          else
            tr <- scanstring k r ;;
            let (t, rest) := (tr : string * string) in
            Ok (String c t, rest)
      end
  end.

(** The number at the head of the text, as the scanner matches it: the
    integer part, an optional fraction, an optional exponent. *)
Definition scan_int_part (s : string) : option (string * string) :=
  match s with
  | String c r =>
      if in_range 49 57 c then let (ds, t) := span is_digit r in Some (String c ds, t)
      else if Ascii.eqb c "0"%char then Some ("0", r)
      else None
  | EmptyString => None
  end.

Definition scan_frac (s : string) : string * string :=
  match s with
  | String dot (String d r) =>
      if (Ascii.eqb dot "."%char && is_digit d)%bool
      then let (ds, t) := span is_digit r in (String dot (String d ds), t)
      else (EmptyString, s)
  | _ => (EmptyString, s)
  end.

Definition scan_exp (s : string) : string * string :=
  match s with
  | String e r =>
      if (Ascii.eqb e "e"%char || Ascii.eqb e "E"%char)%bool then
        let (sign, r1) :=
          match r with
          | String g r' =>
              if (Ascii.eqb g "+"%char || Ascii.eqb g "-"%char)%bool
              then (str1 g, r') else (EmptyString, r)
          | EmptyString => (EmptyString, r)
          end in
        let (ds, t) := span is_digit r1 in
        match ds with
        | EmptyString => (EmptyString, s)
        | _ => (String e (sign ++ ds), t)
        end
      else (EmptyString, s)
  | EmptyString => (EmptyString, s)
  end.

Definition scan_number (s : string) : option (value * string) :=
  let (sign, s0) :=
    match s with
    | String c r => if Ascii.eqb c "-"%char then (true, r) else (false, s)
    | EmptyString => (false, s)
    end in
  match scan_int_part s0 with
  | None => None
  | Some (ip, s1) =>
      let (fp, s2) := scan_frac s1 in
      let (ep, s3) := scan_exp s2 in
      let minus := if sign then "-" else "" in
      match fp, ep with
      | EmptyString, EmptyString =>
          Some (VInt (if sign then - Z_of_digits ip else Z_of_digits ip), s3)
      | _, _ => Some (VFloat (float_of_literal (minus ++ ip ++ fp ++ ep)), s3)
      end
  end.

(** [scan_once], [JSONArray] and [JSONObject]; every call passes on less
    fuel, and each consumes a character before it calls another. *)
Fixpoint scan_once (fuel : nat) (s : string) : result (value * string) :=
  match fuel with
  | O => Raise JSONDecodeError
  | S k =>
      match s with
      | EmptyString => Raise JSONDecodeError
      | String c r =>
          if Ascii.eqb c quote_char then
            tr <- scanstring (String.length r) r ;;
            let (t, rest) := (tr : string * string) in Ok (VStr t, rest)
          else if Ascii.eqb c "{"%char then
            let r1 := skip_ws r in
            match r1 with
            | String c1 r2 =>
                if Ascii.eqb c1 "}"%char then Ok (VDict [], r2)
                else if Ascii.eqb c1 quote_char then
                  pr <- object_items k r2 ;;
                  let (pairs, rest) := (pr : list (string * value) * string) in
                  Ok (VDict (dict_of_pairs pairs), rest)
                else Raise JSONDecodeError
            | EmptyString => Raise JSONDecodeError
            end
          else if Ascii.eqb c "["%char then
            let r1 := skip_ws r in
            match r1 with
            | String c1 r2 =>
                if Ascii.eqb c1 "]"%char then Ok (VList [], r2)
                else
                  ir <- array_items k r1 ;;
                  let (items, rest) := (ir : list value * string) in
                  Ok (VList items, rest)
            | EmptyString => Raise JSONDecodeError
            end
          else if startswith s "null" then Ok (VNone, drop 4 s)
          else if startswith s "true" then Ok (VBool true, drop 4 s)
          else if startswith s "false" then Ok (VBool false, drop 5 s)
          else
            match scan_number s with
            | Some vr => Ok vr
            | None =>
                if startswith s "NaN" then Ok (VFloat nan, drop 3 s)
                else if startswith s "Infinity" then Ok (VFloat infinity, drop 8 s)
                else if startswith s "-Infinity" then Ok (VFloat neg_infinity, drop 9 s)
                else Raise JSONDecodeError
            end
      end
  end

with array_items (fuel : nat) (s : string) : result (list value * string) :=
  match fuel with
  | O => Raise JSONDecodeError
  | S k =>
      vr <- scan_once k s ;;
      let (v, s1) := (vr : value * string) in
      match skip_ws s1 with
      | String c r =>
          if Ascii.eqb c "]"%char then Ok ([v], r)
          else if Ascii.eqb c ","%char then
            ir <- array_items k (skip_ws r) ;;
            let (items, rest) := (ir : list value * string) in
            Ok (v :: items, rest)
          else Raise JSONDecodeError
      | EmptyString => Raise JSONDecodeError
      end
  end

with object_items (fuel : nat) (s : string) : result (list (string * value) * string) :=
  match fuel with
  | O => Raise JSONDecodeError
  | S k =>
      kr <- scanstring (String.length s) s ;;
      let (key, s1) := (kr : string * string) in
      match skip_ws s1 with
      | String c r =>
          if Ascii.eqb c ":"%char then
            vr <- scan_once k (skip_ws r) ;;
            let (v, s2) := (vr : value * string) in
            match skip_ws s2 with
            | String c2 r2 =>
                if Ascii.eqb c2 "}"%char then Ok ([(key, v)], r2)
                else if Ascii.eqb c2 ","%char then
                  match skip_ws r2 with
                  | String c3 r3 =>
                      if Ascii.eqb c3 quote_char then
                        pr <- object_items k r3 ;;
                        let (pairs, rest) := (pr : list (string * value) * string) in
                        Ok ((key, v) :: pairs, rest)
                      else Raise JSONDecodeError
                  | EmptyString => Raise JSONDecodeError
                  end
                else Raise JSONDecodeError
            | EmptyString => Raise JSONDecodeError
            end
          else Raise JSONDecodeError
      | EmptyString => Raise JSONDecodeError
      end
  end.

(** [json.loads(s)]. *)
Definition json_loads (s : string) : result value :=
  if startswith s (utf8_of_codepoint 65279) then Raise JSONDecodeError
  else
    let s0 := skip_ws s in
    vr <- scan_once (S (2 * String.length s0)) s0 ;;
    let (v, rest) := (vr : value * string) in
    match skip_ws rest with
    | EmptyString => Ok v
    | String _ _ => Raise JSONDecodeError
    end.

(** ** Byte codecs: UTF-8 and base64 *)

Definition is_cont (c : ascii) : bool := in_range 128 191 c.

(** [bytes.decode('utf-8')] accepts exactly the well-formed sequences. *)
Fixpoint utf8_valid (s : string) : bool :=
  match s with
  | EmptyString => true
  | String a r =>
      let x := code a in
      if N.ltb x 128 then utf8_valid r
      else if in_range 194 223 a then
        match r with
        | String b r2 => (is_cont b && utf8_valid r2)%bool
        | _ => false
        end
      else if in_range 224 239 a then
        match r with
        | String b (String c r3) =>
            ((if N.eqb x 224 then in_range 160 191 b
              else if N.eqb x 237 then in_range 128 159 b
              else is_cont b)
             && is_cont c && utf8_valid r3)%bool
        | _ => false
        end
      else if in_range 240 244 a then
        match r with
        | String b (String c (String d r4)) =>
            ((if N.eqb x 240 then in_range 144 191 b
              else if N.eqb x 244 then in_range 128 143 b
              else is_cont b)
             && is_cont c && is_cont d && utf8_valid r4)%bool
        | _ => false
        end
      else false
  end.

Definition decode_utf8 (raw : string) : result string :=
  if utf8_valid raw then Ok raw else Raise UnicodeDecodeError.

(** [s.encode('ascii')]. *)
Definition encode_ascii (s : string) : result string :=
  if isascii s then Ok s else Raise UnicodeEncodeError.

(** The standard base64 alphabet. *)
Definition b64_char (n : N) : ascii :=
  (if n <? 26 then chr (65 + n)
   else if n <? 52 then chr (71 + n)
   else if n <? 62 then chr (n - 4)
   else if n =? 62 then "+"%char
   else "/"%char)%N.

Definition b64_val (c : ascii) : option N :=
  if is_upper c then Some (code c - 65)%N
  else if is_lower c then Some (code c - 71)%N
  else if is_digit c then Some (code c + 4)%N
  else if Ascii.eqb c "+"%char then Some 62%N
  else if Ascii.eqb c "/"%char then Some 63%N
  else None.

(** [base64.b64encode]. *)
Fixpoint b64encode (s : string) : string :=
  match s with
  | EmptyString => EmptyString
  | String a EmptyString =>
      let x := code a in
      String (b64_char (x / 4)) (String (b64_char ((x mod 4) * 16)) "==")
  | String a (String b EmptyString) =>
      let x := code a in let y := code b in
      String (b64_char (x / 4))
        (String (b64_char ((x mod 4) * 16 + y / 16))
           (String (b64_char ((y mod 16) * 4)) "="))
  | String a (String b (String c r)) =>
      let x := code a in let y := code b in let z := code c in
      String (b64_char (x / 4))
        (String (b64_char ((x mod 4) * 16 + y / 16))
           (String (b64_char ((y mod 16) * 4 + z / 64))
              (String (b64_char (z mod 64)) (b64encode r))))
  end%N.

(** [binascii.a2b_base64] without strict mode.  [quad] is the position in
    the current group of four, [left] the bits not yet written, [pads] the
    run of padding characters just read.  Characters outside the alphabet
    are passed over; padding that completes a group ends the input. *)
Fixpoint a2b_base64 (quad : nat) (left : N) (pads : nat) (s : string)
  : result string :=
  match s with
  | EmptyString =>
      match quad with
      | O => Ok EmptyString
      | _ => Raise Base64Error
      end
  | String c r =>
      if Ascii.eqb c "="%char then
        if (Nat.leb 2 quad && Nat.leb 4 (quad + S pads))%bool then Ok EmptyString
        else a2b_base64 quad left (if Nat.leb 2 quad then S pads else pads) r
      else
        match b64_val c with
        | None => a2b_base64 quad left pads r
        | Some v =>
            match quad with
            | 0%nat => a2b_base64 1 v 0 r
            | 1%nat =>
                t <- a2b_base64 2 (v mod 16)%N 0 r ;;
                Ok (String (chr (left * 4 + v / 16)) t)
            | 2%nat =>
                t <- a2b_base64 3 (v mod 4)%N 0 r ;;
                Ok (String (chr (left * 16 + v / 4)) t)
            | _ =>
                t <- a2b_base64 0 0%N 0 r ;;
                Ok (String (chr (left * 64 + v)) t)
            end
        end
  end.

(** [base64.b64decode]. *)
Definition b64decode (s : string) : result string := a2b_base64 0 0%N 0 s.

(** ** urllib.parse *)

Definition is_always_safe (c : ascii) : bool :=
  (is_alpha c || is_digit c || smem c "_.-~")%bool.

Definition quote_byte (safe : ascii -> bool) (c : ascii) : string :=
  if (is_always_safe c || safe c)%bool then str1 c
  else String "%"%char
         (String (hex_digit_upper (code c / 16)) (str1 (hex_digit_upper (code c mod 16)))).

Fixpoint quote_from_bytes (safe : ascii -> bool) (s : string) : string :=
  match s with
  | EmptyString => EmptyString
  | String c r => quote_byte safe c ++ quote_from_bytes safe r
  end.

(** [quote_plus(s)] with the empty [safe] set. *)
Definition quote_plus (s : string) : string :=
  if smem " "%char s
  then replace " " "+" (quote_from_bytes (Ascii.eqb " "%char) s)
  else quote_from_bytes (fun _ => false) s.

(** One piece after a percent sign in [unquote_to_bytes]. *)
Definition unquote_item (item : string) : string :=
  match item with
  | String a (String b r) =>
      match hex_val a, hex_val b with
      | Some x, Some y => String (chr (x * 16 + y)) r
      | _, _ => String "%"%char item
      end
  | _ => String "%"%char item
  end.

(** [unquote(s)]: the percent escapes become the bytes they name. *)
Definition unquote (s : string) : string :=
  match split_on "%"%char s with
  | [] => EmptyString
  | first :: items => first ++ String.concat EmptyString (map unquote_item items)
  end.

(** [parse_qsl(qs)] with the default arguments: blank values are dropped. *)
Definition parse_qsl_field (name_value : string) : list (string * string) :=
  match name_value with
  | EmptyString => []
  | _ =>
      match partition "="%char name_value with
      | None => []
      | Some (n, v) =>
          match v with
          | EmptyString => []
          | _ => [(unquote (replace "+" " " n), unquote (replace "+" " " v))]
          end
      end
  end.

Definition parse_qsl (qs : string) : list (string * string) :=
  match qs with
  | EmptyString => []
  | _ => flat_map parse_qsl_field (split_on "&"%char qs)
  end.

(** [parse_qs(qs)]: the values of each name, names in order of first
    appearance. *)
Fixpoint qs_add (name v : string) (d : list (string * list string))
  : list (string * list string) :=
  match d with
  | [] => [(name, [v])]
  | (n, vs) :: r =>
      if String.eqb n name then (n, (vs ++ [v])%list) :: r else (n, vs) :: qs_add name v r
  end.

Definition parse_qs (qs : string) : list (string * list string) :=
  fold_left (fun d nv => qs_add (fst nv) (snd nv) d) (parse_qsl qs) [].

(** [urlencode(query)] for a mapping, [doseq] off. *)
Definition urlencode (query : dict) : string :=
  join "&" (map (fun kv => match kv with
                           | (k, v) => quote_plus k ++ "=" ++ quote_plus (py_str v)
                           end) query).

(** The pieces of a URL that [parse_vless_url] reads. *)
Record ParseResult : Type := {
  scheme : string;
  netloc : string;
  path : string;
  query : string;
  fragment : string
}.

Definition py_partition (c : ascii) (s : string) : string * bool * string :=
  match partition c s with
  | Some (h, t) => (h, true, t)
  | None => (s, false, EmptyString)
  end.

Definition py_rpartition (c : ascii) (s : string) : string * bool * string :=
  match rpartition c s with
  | Some (h, t) => (h, true, t)
  | None => (EmptyString, false, s)
  end.

Definition is_scheme_char (c : ascii) : bool :=
  (is_alpha c || is_digit c || smem c "+-.")%bool.

Definition is_c0_or_space (c : ascii) : bool := N.leb (code c) 32.

Definition is_netloc_end (c : ascii) : bool := smem c "/?#".

(** [_check_bracketed_netloc]. *)
Definition check_bracketed_netloc (nl : string) : result unit :=
  let '(_, _, hostname_and_port) := py_rpartition "@"%char nl in
  let '(before_bracket, have_open_br, bracketed) :=
    py_partition "["%char hostname_and_port in
  if have_open_br then
    if negb (String.eqb before_bracket EmptyString) then Raise ValueError
    else
      let '(hostname, _, port) := py_partition "]"%char bracketed in
      if (negb (String.eqb port EmptyString) && negb (startswith port ":"))%bool
      then Raise ValueError
      else if bracketed_host_ok hostname then Ok tt else Raise ValueError
  else
    let '(hostname, _, _) := py_partition ":"%char hostname_and_port in
    if bracketed_host_ok hostname then Ok tt else Raise ValueError.

(** [_checknetloc]. *)
Definition checknetloc (nl : string) : result unit :=
  if (String.eqb nl EmptyString || isascii nl)%bool then Ok tt
  else if nfkc_netloc_ok nl then Ok tt else Raise ValueError.

(** [urlsplit(url)], which is all of [urlparse(url)] that is read here:
    the scheme vless takes no parameters, so the path is left whole. *)
Definition urlparse (url0 : string) : result ParseResult :=
  let url := lstrip_chars is_c0_or_space url0 in
  let url := replace (str1 (chr 10)) "" (replace (str1 (chr 13)) "" (replace (str1 (chr 9)) "" url)) in
  let '(sch, url) :=
    match partition ":"%char url with
    | Some (String c0 h, t) =>
        if ((is_ascii c0 && is_alpha c0) && sforall is_scheme_char (String c0 h))%bool
        then (lower (String c0 h), t) else (EmptyString, url)
    | _ => (EmptyString, url)
    end in
  nu <- (if startswith url "//" then
           let (nl, rest) := span (fun c => negb (is_netloc_end c)) (drop 2 url) in
           let lb := smem "["%char nl in
           let rb := smem "]"%char nl in
           if (lb && negb rb || rb && negb lb)%bool then Raise ValueError
           else (if (lb && rb)%bool then check_bracketed_netloc nl else Ok tt) ;;;
                Ok (nl, rest)
         else Ok (EmptyString, url)) ;;
  let (nl, url) := (nu : string * string) in
  let (url, frag) :=
    match partition "#"%char url with
    | Some (h, t) => (h, t)
    | None => (url, EmptyString)
    end in
  let (url, qry) :=
    match partition "?"%char url with
    | Some (h, t) => (h, t)
    | None => (url, EmptyString)
    end in
  checknetloc nl ;;;
  Ok {| scheme := sch; netloc := nl; path := url; query := qry; fragment := frag |}.

(** The [username], [hostname] and [port] properties of a parse result;
    [None] is Python's None. *)
Definition username (p : ParseResult) : option string :=
  let '(userinfo, have_info, _) := py_rpartition "@"%char (netloc p) in
  if have_info then
    let '(user, _, _) := py_partition ":"%char userinfo in Some user
  else None.

Definition hostinfo (p : ParseResult) : string * option string :=
  let '(_, _, hi) := py_rpartition "@"%char (netloc p) in
  let '(_, have_open_br, bracketed) := py_partition "["%char hi in
  let (host, port) :=
    if have_open_br then
      let '(host, _, port) := py_partition "]"%char bracketed in
      let '(_, _, port) := py_partition ":"%char port in (host, port)
    else
      let '(host, _, port) := py_partition ":"%char hi in (host, port) in
  (host, match port with EmptyString => None | _ => Some port end).

Definition hostname (p : ParseResult) : option string :=
  match fst (hostinfo p) with
  | EmptyString => None
  | host =>
      match partition "%"%char host with
      | Some (h, zone) => Some (lower h ++ "%" ++ zone)
      | None => Some (lower host)
      end
  end.

Definition port (p : ParseResult) : result (option Z) :=
  match snd (hostinfo p) with
  | None => Ok None
  | Some ptxt =>
      if (isdigit ptxt && isascii ptxt)%bool then
        let n := Z_of_digits ptxt in
        if (Z.leb 0 n && Z.leb n 65535)%bool then Ok (Some n) else Raise ValueError
      else Raise ValueError
  end.

(** [urlunparse((scheme, netloc, '', '', query, fragment))] for text
    [scheme], [netloc] and [query]; [_coerce_args] refuses a fragment
    that is true and not text. *)
Definition urlunparse (sch nl qry : string) (frag : value) : result string :=
  match frag with
  | VStr _ => Ok tt
  | _ => if truthy frag then Raise TypeError else Ok tt
  end ;;;
  let url := if negb (String.eqb nl EmptyString) then "//" ++ nl else EmptyString in
  let url := if negb (String.eqb sch EmptyString) then sch ++ ":" ++ url else url in
  let url := if negb (String.eqb qry EmptyString) then url ++ "?" ++ qry else url in
  let url := match frag with
             | VStr f => if truthy frag then url ++ "#" ++ f else url
             | _ => url
             end in
  Ok url.

(** ** Subscripts and membership on arbitrary values *)

(** [obj[k]] for a text key. *)
Definition py_getitem (obj : value) (k : string) : result value :=
  match obj with
  | VDict d => dict_item k d
  | _ => Raise TypeError
  end.

(** [obj[k] = v] for a text key. *)
Definition py_setitem (obj : value) (k : string) (v : value) : result value :=
  match obj with
  | VDict d => Ok (VDict (dict_set k v d))
  | _ => Raise TypeError
  end.

(** [k in obj] for a text [k]: a key of a dict, an element of a list,
    a piece of a text. *)
Definition py_contains (k : string) (obj : value) : result bool :=
  match obj with
  | VDict d => Ok (dict_has k d)
  | VList l => Ok (existsb (fun x => eq_str x k) l)
  | VStr s => Ok (contains s k)
  | _ => Raise TypeError
  end.

(** [obj.get(k, dflt)]. *)
Definition py_get (obj : value) (k : string) (dflt : value) : result value :=
  match obj with
  | VDict d => Ok (dict_get_default k dflt d)
  | _ => Raise AttributeError
  end.

(** ** The program: tables *)

Definition WANTED_ORDER_VMESS : list string :=
  ["add"; "aid"; "allowInsecure"; "alpn"; "fp"; "host"; "id"; "net"; "path";
   "port"; "ps"; "scy"; "sni"; "tls"; "type"; "v"].

Definition WANTED_ORDER_VLESS : list string :=
  ["add"; "port"; "id"; "ps"; "type"; "encryption"; "security";
   "sni"; "host"; "path"; "seed"; "fp"; "alpn"; "allowInsecure";
   "mode"; "pbk"; "sid"; "spx"; "pqv"; "ech"; "flow"].

Definition DEFAULTS_IF_MISSING_VMESS : dict :=
  [("aid", VStr "0"); ("alpn", VStr ""); ("type", VStr ""); ("allowInsecure", VInt 1)].

Definition DEFAULTS_IF_MISSING_VLESS : dict :=
  [("encryption", VStr "none"); ("security", VStr "none"); ("type", VStr "tcp");
   ("allowInsecure", VInt 1)].

(** ** The program: decoding *)

Definition truthy_to_int (v : value) : Z :=
  match v with
  | VBool b => if b then 1 else 0
  | VInt n => if negb (Z.eqb n 0) then 1 else 0
  | VFloat f => if negb (float_is_zero f) then 1 else 0
  | VStr s =>
      let s := lower (strip s) in
      if existsb (String.eqb s) ["1"; "true"; "yes"; "y"; "on"] then 1 else 0
  | _ => 0
  end.

Definition opt_text (o : option string) : value :=
  match o with
  | Some s => VStr s
  | None => VNone
  end.

Definition opt_int (o : option Z) : value :=
  match o with
  | Some n => VInt n
  | None => VNone
  end.

Definition parse_vless_url (url : string) : result dict :=
  parsed <- urlparse url ;;
  p <- port parsed ;;
  let result :=
    [("id", opt_text (username parsed));
     ("add", opt_text (hostname parsed));
     ("port", VStr (py_str (opt_int p)));
     ("ps", VStr (fragment parsed))] in
  let query_params := parse_qs (query parsed) in
  Ok (fold_left
        (fun res kv =>
           match kv with
           | (key, [v]) => dict_set key (VStr v) res
           | (key, vs) => dict_set key (VList (map VStr vs)) res
           end)
        query_params result).

Definition NON_QUERY_FIELDS : list string := ["add"; "port"; "id"; "ps"].

Definition VLESS_QUERY_PARAMS : list string :=
  filter (fun field => negb (existsb (String.eqb field) NON_QUERY_FIELDS))
    WANTED_ORDER_VLESS.

(** The loop of [encode_vless_url] that fills [query_params]. *)
Definition vless_query_params (config : dict) : dict :=
  fold_left
    (fun qp key =>
       match dict_get key config with
       | Some v =>
           if (truthy v && negb (eq_str v ""))%bool then dict_set key v qp else qp
       | None => qp
       end)
    VLESS_QUERY_PARAMS [].

Definition encode_vless_url (config : value) : result string :=
  i <- py_getitem config "id" ;;
  a <- py_getitem config "add" ;;
  p <- py_getitem config "port" ;;
  let nl := py_str i ++ "@" ++ py_str a ++ ":" ++ py_str p in
  match config with
  | VDict d =>
      let query_params := vless_query_params d in
      let query_string := urlencode query_params in
      let frag := dict_get_default "ps" (VStr "") d in
      urlunparse "vless" nl query_string frag
  | _ => Raise TypeError
  end.

(** [(-len(s)) % 4]. *)
Definition pad_len (s : string) : nat :=
  Nat.modulo (4 - Nat.modulo (String.length s) 4) 4.

Fixpoint repeat_char (c : ascii) (n : nat) : string :=
  match n with
  | O => EmptyString
  | S k => String c (repeat_char c k)
  end.

Definition as_dict (obj : value) : result dict :=
  match obj with
  | VDict d => Ok d
  | _ => Raise TypeError
  end.

Definition decode_vmess_or_vless_line (line : string) : result dict :=
  let s := strip line in
  if String.eqb s "" then Raise ValueError
  else if startswith s "vmess://" then
    let s := drop 8 s in
    let s := s ++ repeat_char "="%char (pad_len s) in
    b <- encode_ascii s ;;
    raw <- b64decode b ;;
    txt <- decode_utf8 raw ;;
    obj <- json_loads txt ;;
    obj <- py_setitem obj "_type" (VStr "vmess") ;;
    as_dict obj
  else if startswith s "vless://" then
    obj <- parse_vless_url s ;;
    Ok (dict_set "_type" (VStr "vless") obj)
  else if (startswith s "{" && endswith s "}")%bool then
    obj <- json_loads s ;;
    t <- py_get obj "_type" (VStr "vmess") ;;
    obj <- py_setitem obj "_type" t ;;
    as_dict obj
  else Raise ValueError.

(** ** The program: normalisation *)

Definition stringify_port (out : dict) : dict :=
  match dict_get "port" out with
  | Some v => dict_set "port" (VStr (py_str v)) out
  | None => out
  end.

Definition coerce_allow_insecure (out : dict) : dict :=
  match dict_get "allowInsecure" out with
  | Some v => dict_set "allowInsecure" (VInt (truthy_to_int v)) out
  | None => out
  end.

Definition inject_defaults (defaults out : dict) : dict :=
  fold_left
    (fun o kv => if dict_has (fst kv) o then o else dict_set (fst kv) (snd kv) o)
    defaults out.

Definition fill_missing (order : list string) (out : dict) : dict :=
  fold_left (fun o k => if dict_has k o then o else dict_set k (VStr "") o) order out.

(** [{k: out.get(k, "") for k in order}]. *)
Definition project (order : list string) (out : dict) : dict :=
  fold_left (fun o k => dict_set k (dict_get_default k (VStr "") out) o) order [].

Definition normalize_vmess_entry (d : dict) : dict :=
  let out := stringify_port d in
  let out := coerce_allow_insecure out in
  let out := inject_defaults DEFAULTS_IF_MISSING_VMESS out in
  let out := fill_missing WANTED_ORDER_VMESS out in
  let ordered := project WANTED_ORDER_VMESS out in
  dict_set "_type" (VStr "vmess") ordered.

Definition normalize_vless_entry (d : dict) : dict :=
  let out := stringify_port d in
  let out := coerce_allow_insecure out in
  let out := inject_defaults DEFAULTS_IF_MISSING_VLESS out in
  let out := fill_missing WANTED_ORDER_VLESS out in
  let ordered := project WANTED_ORDER_VLESS out in
  dict_set "_type" (VStr "vless") ordered.

Definition normalize_entry (d : dict) : dict :=
  match dict_get "_type" d with
  | Some t => if eq_str t "vless" then normalize_vless_entry d else normalize_vmess_entry d
  | None => normalize_vmess_entry d
  end.

(** ** The program: the batch decoder

    A file is the list of its lines, without their terminators.  The
    decoder is the list of effects it performs, in order; [run] gives their
    meaning on a file system.  [tmp] is the name [NamedTemporaryFile]
    chooses. *)

Definition fsys : Type := string -> option (list string).

Definition fs_set (p : string) (c : option (list string)) (fs : fsys) : fsys :=
  fun q => if String.eqb q p then c else fs q.

Inductive effect : Type :=
| CreateTemp (tmp : string)
| WriteLine (tmp : string) (line : string)
| CloseTemp (tmp : string)
| Report (idx : nat) (e : exn)
| Replace (tmp src : string)
| Summary (written vmess_count vless_count : nat)
| MissingInput (src : string)
| Exit (status : Z).

Definition apply_effect (fs : fsys) (e : effect) : fsys :=
  match e with
  | CreateTemp tmp => fs_set tmp (Some []) fs
  | WriteLine tmp line =>
      match fs tmp with
      | Some ls => fs_set tmp (Some (ls ++ [line])%list) fs
      | None => fs
      end
  | Replace tmp src => fs_set tmp None (fs_set src (fs tmp) fs)
  | _ => fs
  end.

Definition run (script : list effect) (fs : fsys) : fsys :=
  fold_left apply_effect script fs.

(** What the loop body does with one line. *)
Inductive outcome : Type :=
| Blank
| Written (compact : string) (is_vmess : bool)
| Skipped (e : exn).

Definition process_line (line : string) : outcome :=
  let s := strip line in
  if String.eqb s "" then Blank
  else
    match decode_vmess_or_vless_line s with
    | Raise e => Skipped e
    | Ok obj =>
        let norm := normalize_entry obj in
        let compact := json_dumps (VDict norm) in
        Written compact (eq_str (dict_get_default "_type" VNone norm) "vmess")
    end.

Definition line_effects (tmp : string) (idx : nat) (line : string) : list effect :=
  match process_line line with
  | Blank => []
  | Written compact _ => [WriteLine tmp compact]
  | Skipped e => [Report idx e]
  end.

Fixpoint loop_effects (tmp : string) (idx : nat) (lines : list string) : list effect :=
  match lines with
  | [] => []
  | line :: rest => (line_effects tmp idx line ++ loop_effects tmp (S idx) rest)%list
  end.

Definition count_written (want_vmess : bool) (lines : list string) : nat :=
  List.length
    (filter (fun line =>
               match process_line line with
               | Written _ v => Bool.eqb v want_vmess
               | _ => false
               end) lines).

Definition decode_file_inplace (src tmp : string) (fs : fsys) : list effect :=
  match fs src with
  | None => [MissingInput src; Exit 1]
  | Some lines =>
      let vmess_count := count_written true lines in
      let vless_count := count_written false lines in
      ([CreateTemp tmp] ++ loop_effects tmp 1 lines
         ++ [CloseTemp tmp; Replace tmp src;
             Summary (vmess_count + vless_count) vmess_count vless_count])%list
  end.

(** ** The program: the template substitution engine *)

Definition set_if_present (key rep : string) (obj : value) : result value :=
  present <- py_contains key obj ;;
  if (present : bool) then py_setitem obj key (VStr rep) else Ok obj.

Definition label_if_present (rep : string) (obj : value) : result value :=
  present <- py_contains "ps" obj ;;
  if (present : bool) then
    old <- py_getitem obj "ps" ;;
    py_setitem obj "ps" (VStr (py_str old ++ " (" ++ rep ++ ")"))
  else Ok obj.

(** The rewriting of the [try] of [make_vmess_lines], for one
    substitution, then its encoding. *)
Definition vmess_subst (template_obj : value) (rep : string) : result value :=
  template_obj <- set_if_present "sni" rep template_obj ;;
  template_obj <- set_if_present "host" rep template_obj ;;
  label_if_present rep template_obj.

(** The scheme-A encoding of an object: its compact serialisation in
    base64 after the prefix. *)
Definition vmess_link (template_obj : value) : string :=
  let replaced_json := json_dumps template_obj in
  let b64 := b64encode replaced_json in
  "vmess://" ++ b64.

Definition vmess_try (template rep : string) : result string :=
  template_obj <- json_loads template ;;
  template_obj <- vmess_subst template_obj rep ;;
  Ok (vmess_link template_obj).

(** The body of its [except]. *)
Definition vmess_fallback (template rep : string) : string :=
  let replaced := replace "vk.com" rep template in
  let b64 := b64encode replaced in
  "vmess://" ++ b64.

Definition vmess_line (template rep : string) : string :=
  match vmess_try template rep with
  | Ok line => line
  | Raise _ => vmess_fallback template rep
  end.

Definition make_vmess_lines (template : string) (replacements : list string)
  : list string :=
  fold_left (fun out rep => (out ++ [vmess_line template rep])%list) replacements [].

(** In a scheme-B template the host is rewritten unless the transport
    type is one of the two exempt ones. *)
Definition set_host_vless (rep : string) (obj : value) : result value :=
  present <- py_contains "host" obj ;;
  if (present : bool) then
    t <- py_getitem obj "type" ;;
    if negb (eq_str t "xhttp" || eq_str t "ws")%bool
    then py_setitem obj "host" (VStr rep) else Ok obj
  else Ok obj.

(** The rewriting of the [try] of [make_vless_lines], then its encoding. *)
Definition vless_subst (template_obj : value) (rep : string) : result value :=
  template_obj <- set_if_present "sni" rep template_obj ;;
  template_obj <- set_host_vless rep template_obj ;;
  label_if_present rep template_obj.

Definition vless_try (template rep : string) : result string :=
  template_obj <- json_loads template ;;
  template_obj <- vless_subst template_obj rep ;;
  encode_vless_url template_obj.

(** The returned lines, and the exceptions reported on the error stream. *)
Definition make_vless_lines (template : string) (replacements : list string)
  : list string * list exn :=
  fold_left
    (fun st rep =>
       match vless_try template rep with
       | Ok vless_url => ((fst st ++ [vless_url])%list, snd st)
       | Raise e => (fst st, (snd st ++ [e])%list)
       end)
    replacements ([], []).

Definition proxy_type (template : string) : value :=
  match (template_obj <- json_loads template ;;
         py_get template_obj "_type" (VStr "vmess")) with
  | Ok t => t
  | Raise _ => if startswith template "vless://" then VStr "vless" else VStr "vmess"
  end.

Definition make_proxy_lines (template : string) (replacements : list string)
  : list string * list exn :=
  if eq_str (proxy_type template) "vmess"
  then (make_vmess_lines template replacements, [])
  else make_vless_lines template replacements.

(** ** The program: the encoder of files and the whole run

    The three paths are what the command line gives [main]; it takes
    file1.txt, SNI.txt and file3.txt when none is given. *)

(** [s.rstrip(chars)] for a set of one-byte characters. *)
Definition rstrip_chars (p : ascii -> bool) (s : string) : string :=
  srev (lstrip_chars p (srev s)).

Definition is_newline (c : ascii) : bool :=
  (N.eqb (code c) 10 || N.eqb (code c) 13)%bool.

(** The first line that is not blank, with what newline characters end it
    taken off, or the empty text.  A line is held without its terminator:
    [rstrip] of the line as read, terminator included, is [rstrip_chars]
    of the line as held. *)
Fixpoint read_first_nonempty_line (lines : list string) : string :=
  match lines with
  | [] => ""
  | line :: rest =>
      let s := rstrip_chars is_newline line in
      if negb (String.eqb (strip s) "") then s else read_first_nonempty_line rest
  end.

(** The lines that are not blank, trimmed. *)
Definition read_lines (lines : list string) : list string :=
  flat_map (fun line => let s := strip line in
                        if negb (String.eqb s "") then [s] else []) lines.

(** What [encode_files] prints. *)
Inductive notice : Type :=
| TemplateMissing (path : string)
| SniMissing (path : string)
| TemplateEmpty (path : string)
| SniEmpty (path : string)
| LineError (e : exn)
| EncodeSummary (written : nat) (path : string).

(** The file system [encode_files] leaves, what it prints, and the status
    it exits with when it does. *)
Definition encode_files (tmpl sni out : string) (fs : fsys)
  : fsys * list notice * option Z :=
  match fs tmpl with
  | None => (fs, [TemplateMissing tmpl], Some 1)
  | Some tmpl_lines =>
      match fs sni with
      | None => (fs, [SniMissing sni], Some 1)
      | Some sni_lines =>
          let template := read_first_nonempty_line tmpl_lines in
          if String.eqb template "" then (fs, [TemplateEmpty tmpl], Some 1)
          else
            let replacements := read_lines sni_lines in
            match replacements with
            | [] => (fs_set out (Some []) fs, [SniEmpty sni], None)
            | _ =>
                let (proxy_lines, errors) := make_proxy_lines template replacements in
                (fs_set out (Some proxy_lines) fs,
                 (map LineError errors
                  ++ [EncodeSummary (List.length proxy_lines) out])%list,
                 None)
            end
      end
  end.

(** The status a script of the batch decoder exits with, when it does. *)
Fixpoint exit_status (script : list effect) : option Z :=
  match script with
  | [] => None
  | Exit status :: _ => Some status
  | _ :: rest => exit_status rest
  end.

(** [main]: the batch decoder on the template file, then, unless it
    exited, [encode_files]. *)
Definition main (tmpl sni out tmp : string) (fs : fsys)
  : list effect * (fsys * list notice * option Z) :=
  let script := decode_file_inplace tmpl tmp fs in
  (script,
   match exit_status script with
   | Some status => (run script fs, [], Some status)
   | None => encode_files tmpl sni out (run script fs)
   end).

(** ** Notions used in the statements *)

(** The value a raw record gives a field once the port is text and the
    allow-insecure flag is 0 or 1. *)
Definition coerced_get (k : string) (d : dict) : option value :=
  match dict_get k d with
  | Some v =>
      Some (if String.eqb k "port" then VStr (py_str v)
            else if String.eqb k "allowInsecure" then VInt (truthy_to_int v)
            else v)
  | None => None
  end.

(** The value of a field in the normalised record. *)
Definition norm_field (defaults d : dict) (k : string) : value :=
  match coerced_get k d with
  | Some v => v
  | None => dict_get_default k (VStr "") defaults
  end.

(** The normalised record written out: the canonical fields in order,
    then the discriminator. *)
Definition normal_form (order : list string) (defaults : dict) (tag : string)
  (d : dict) : dict :=
  (map (fun k => (k, norm_field defaults d k)) order ++ [("_type", VStr tag)])%list.

Fixpoint nodupb (l : list string) : bool :=
  match l with
  | [] => true
  | x :: r => (negb (existsb (String.eqb x) r) && nodupb r)%bool
  end.

(** The canonical sequence of the scheme a raw record is normalised as. *)
Definition canonical_order (d : dict) : list string :=
  match dict_get "_type" d with
  | Some t => if eq_str t "vless" then WANTED_ORDER_VLESS else WANTED_ORDER_VMESS
  | None => WANTED_ORDER_VMESS
  end.

(** One member of a serialised object. *)
Definition json_member (kv : string * value) : string :=
  json_string (fst kv) ++ ":" ++ json_dumps (snd kv).

(** The rewriting of a template that is a dict, written out. *)
Definition put_if_present (key rep : string) (d : dict) : dict :=
  if dict_has key d then dict_set key (VStr rep) d else d.

Definition put_label (rep : string) (d : dict) : dict :=
  match dict_get "ps" d with
  | Some old => dict_set "ps" (VStr (py_str old ++ " (" ++ rep ++ ")")) d
  | None => d
  end.

(** The transport types whose host a scheme-B substitution leaves alone. *)
Definition host_exempt (t : value) : bool := (eq_str t "xhttp" || eq_str t "ws")%bool.


(** The records the loop writes for a list of lines, and what it reports. *)
Definition written_records (lines : list string) : list string :=
  flat_map (fun line => match process_line line with
                        | Written compact _ => [compact]
                        | _ => []
                        end) lines.

Definition reports (script : list effect) : list (nat * exn) :=
  flat_map (fun e => match e with
                     | Report idx x => [(idx, x)]
                     | _ => []
                     end) script.

(** The effect changes what is stored under the name [p]. *)
Definition touches (p : string) (e : effect) : bool :=
  match e with
  | CreateTemp tmp => String.eqb tmp p
  | WriteLine tmp _ => String.eqb tmp p
  | Replace tmp src => (String.eqb tmp p || String.eqb src p)%bool
  | _ => false
  end.

(** The encoding of a normalised record by the codec of its scheme, chosen
    as [make_proxy_lines] chooses it. *)
Definition encode_entry (n : dict) : result string :=
  if eq_str (dict_get_default "_type" (VStr "vmess") n) "vmess"
  then Ok (vmess_link (VDict n))
  else encode_vless_url (VDict n).

(** Encoding a normalised record, decoding the line and normalising again. *)
Definition round_trip (n : dict) : result dict :=
  line <- encode_entry n ;;
  d <- decode_vmess_or_vless_line line ;;
  Ok (normalize_entry d).

(** Text that may stand in the network location of a URL, before or after
    the at sign, and come back unchanged. *)
Definition netloc_char (c : ascii) : bool :=
  (is_ascii c && negb (smem c "/?#@:[]")
   && negb (N.eqb (code c) 9 || N.eqb (code c) 10 || N.eqb (code c) 13))%bool.

Definition label_char (c : ascii) : bool :=
  negb (N.eqb (code c) 9 || N.eqb (code c) 10 || N.eqb (code c) 13).

(** What a normalised scheme-B record must be like for its line to decode
    to it again. *)
Definition vless_query_field_ok (n : dict) (k : string) : Prop :=
  if String.eqb k "allowInsecure" then dict_get k n = Some (VInt 1)
  else exists s, dict_get k n = Some (VStr s)
                 /\ (dict_has k DEFAULTS_IF_MISSING_VLESS = true -> s <> "").

Definition vless_ready (n : dict) : Prop :=
  exists i a z t,
    dict_get "id" n = Some (VStr i) /\ sforall netloc_char i = true
    /\ dict_get "add" n = Some (VStr a) /\ a <> ""
    /\ sforall netloc_char a = true /\ sforall (fun c => negb (is_upper c)) a = true
    /\ dict_get "port" n = Some (VStr (string_of_Z z)) /\ 0 <= z <= 65535
    /\ dict_get "ps" n = Some (VStr t) /\ sforall label_char t = true /\ rstrip t = t
    /\ forall k, In k VLESS_QUERY_PARAMS -> vless_query_field_ok n k.

(** What a normalised scheme-A record must be like: its serialisation is
    well-formed text that [json.loads] reads back as the record. *)
Definition vmess_ready (n : dict) : Prop :=
  utf8_valid (json_dumps (VDict n)) = true
  /\ json_loads (json_dumps (VDict n)) = Ok (VDict n).


(** A field the JSON layer writes and reads back as itself: None, a
    boolean, an integer or a well-formed text. *)
Definition plain_value (v : value) : bool :=
  match v with
  | VNone | VBool _ | VInt _ => true
  | VStr s => utf8_valid s
  | _ => false
  end.

(** A record of plain fields under well-formed keys. *)
Definition plain_record (d : dict) : bool :=
  forallb (fun kv => utf8_valid (fst kv) && plain_value (snd kv))%bool d.

(** The character after a member of a serialised object. *)
Definition member_end (c : ascii) : bool :=
  (Ascii.eqb c ","%char || Ascii.eqb c "}"%char)%bool.

(** The members of a serialised object after the first one. *)
Definition json_member_tail (d : dict) : string :=
  fold_right (fun kv acc => "," ++ json_member kv ++ acc) "" d.

(** The image of a text under a character-wise expansion. *)
Fixpoint sflat (f : ascii -> string) (s : string) : string :=
  match s with
  | EmptyString => EmptyString
  | String c r => f c ++ sflat f r
  end.

(** What [quote_plus] writes for one byte, and how it reads after the plus
    signs are turned back into spaces. *)
Definition plus_quote_char (c : ascii) : string :=
  if Ascii.eqb c " "%char then "+" else quote_byte (fun _ => false) c.

Definition space_quote_char (c : ascii) : string :=
  if Ascii.eqb c " "%char then " " else quote_byte (fun _ => false) c.

(** The characters [quote_plus] writes: ASCII, no white space, none of the
    delimiters of a query or a fragment. *)
Definition quoted_char (c : ascii) : bool :=
  (is_ascii c && negb (is_space c) && negb (smem c "&=#"))%bool.

(** First value bound to a name in a list of pairs. *)
Fixpoint assoc (k : string) (l : list (string * string)) : option string :=
  match l with
  | [] => None
  | (k', v) :: r => if String.eqb k' k then Some v else assoc k r
  end.

(** One field of an encoded query. *)
Definition query_field (kv : string * value) : string :=
  quote_plus (fst kv) ++ "=" ++ quote_plus (py_str (snd kv)).

(** The URL of a scheme-B record, written out: network location, query
    and label. *)
Definition vless_url (nl qry frag : string) : string :=
  "vless://" ++ nl ++ (if String.eqb qry "" then "" else "?" ++ qry)
  ++ (if String.eqb frag "" then "" else "#" ++ frag).

(** The characters of a whole network location that [urlsplit] takes as
    they are. *)
Definition authority_char (c : ascii) : bool :=
  (is_ascii c && negb (smem c "/?#[]")
   && negb (N.eqb (code c) 9 || N.eqb (code c) 10 || N.eqb (code c) 13))%bool.

(** The characters of an encoded query. *)
Definition query_char (c : ascii) : bool :=
  (is_ascii c && negb (is_space c) && negb (Ascii.eqb c "#"%char))%bool.

Definition no_tab_cr_lf (c : ascii) : bool :=
  negb (N.eqb (code c) 9 || N.eqb (code c) 10 || N.eqb (code c) 13).

(** What the line of a scheme-B record decodes to: the four parts of the
    URL, then the query parameters as text, then the discriminator. *)
Definition decoded_vless (i a p t : string) (params : dict) : dict :=
  dict_set "_type" (VStr "vless")
    (fold_left (fun res kv => dict_set (fst kv) (VStr (py_str (snd kv))) res) params
       [("id", VStr i); ("add", VStr a); ("port", VStr p); ("ps", VStr t)]).

(** The diagnostics of the batch decoder for a list of lines, the first of
    them numbered [idx]. *)
Fixpoint failures (idx : nat) (lines : list string) : list (nat * exn) :=
  match lines with
  | [] => []
  | line :: rest =>
      match process_line line with
      | Skipped e => (idx, e) :: failures (S idx) rest
      | _ => failures (S idx) rest
      end
  end.

(** The defaults table of the scheme a raw record is normalised as. *)
Definition canonical_defaults (d : dict) : dict :=
  match dict_get "_type" d with
  | Some t => if eq_str t "vless" then DEFAULTS_IF_MISSING_VLESS
              else DEFAULTS_IF_MISSING_VMESS
  | None => DEFAULTS_IF_MISSING_VMESS
  end.

(** The discriminator of the scheme a raw record is normalised as. *)
Definition canonical_tag (d : dict) : string :=
  match dict_get "_type" d with
  | Some t => if eq_str t "vless" then "vless" else "vmess"
  | None => "vmess"
  end.

(** ** Properties: dictionaries *)

Lemma dict_get_set_same (k : string) (v : value) (d : dict) :
  dict_get k (dict_set k v d) = Some v.
Proof.
  induction d as [|[k' v'] r IH]; simpl.
  - now rewrite String.eqb_refl.
  - destruct (String.eqb k' k) eqn:E; simpl; rewrite E; auto.
Qed.

Lemma dict_get_set_other (k k' : string) (v : value) (d : dict) :
  k' <> k -> dict_get k (dict_set k' v d) = dict_get k d.
Proof.
  intros Hne.
  induction d as [|[k0 v0] r IH]; simpl.
  - destruct (String.eqb k' k) eqn:E; auto.
    apply String.eqb_eq in E. contradiction.
  - destruct (String.eqb k0 k') eqn:E1; simpl.
    + apply String.eqb_eq in E1. subst k0.
      destruct (String.eqb k' k) eqn:E2; auto.
      apply String.eqb_eq in E2. contradiction.
    + destruct (String.eqb k0 k); auto.
Qed.

Lemma dict_get_set (k k' : string) (v : value) (d : dict) :
  dict_get k (dict_set k' v d) = if String.eqb k' k then Some v else dict_get k d.
Proof.
  destruct (String.eqb k' k) eqn:E.
  - apply String.eqb_eq in E. subst. apply dict_get_set_same.
  - apply dict_get_set_other. now apply String.eqb_neq.
Qed.

Lemma dict_has_get (k : string) (d : dict) :
  dict_has k d = match dict_get k d with Some _ => true | None => false end.
Proof. reflexivity. Qed.

Lemma dict_get_inject_defaults (k : string) (defaults d : dict) :
  dict_get k (inject_defaults defaults d)
  = match dict_get k d with
    | Some v => Some v
    | None => dict_get k defaults
    end.
Proof.
  unfold inject_defaults.
  revert d. induction defaults as [|[k' v'] r IH]; intros d; simpl.
  - now destruct (dict_get k d).
  - rewrite IH. unfold dict_has.
    destruct (dict_get k' d) eqn:E'.
    + destruct (dict_get k d) eqn:E; auto.
      destruct (String.eqb k' k) eqn:Ek; auto.
      apply String.eqb_eq in Ek. congruence.
    + rewrite dict_get_set.
      destruct (String.eqb k' k) eqn:Ek.
      * apply String.eqb_eq in Ek. subst. now rewrite E'.
      * now destruct (dict_get k d).
Qed.

Lemma dict_get_fill_missing (k : string) (order : list string) (d : dict) :
  dict_get k (fill_missing order d)
  = match dict_get k d with
    | Some v => Some v
    | None => if existsb (String.eqb k) order then Some (VStr "") else None
    end.
Proof.
  unfold fill_missing.
  revert d. induction order as [|k' r IH]; intros d; simpl.
  - now destruct (dict_get k d).
  - rewrite IH. unfold dict_has.
    destruct (dict_get k' d) eqn:E'.
    + destruct (dict_get k d) eqn:E; auto.
      destruct (String.eqb k k') eqn:Ek; auto.
      apply String.eqb_eq in Ek. congruence.
    + rewrite dict_get_set. rewrite (String.eqb_sym k k').
      destruct (String.eqb k' k) eqn:Ek; simpl.
      * apply String.eqb_eq in Ek. subst. now rewrite E'.
      * now destruct (dict_get k d).
Qed.

Lemma dict_set_fresh (k : string) (v : value) (d : dict) :
  dict_get k d = None -> dict_set k v d = (d ++ [(k, v)])%list.
Proof.
  induction d as [|[k' v'] r IH]; simpl; intros H; auto.
  destruct (String.eqb k' k); [discriminate|].
  now rewrite IH.
Qed.

Lemma dict_get_app (k : string) (d1 d2 : dict) :
  dict_get k (d1 ++ d2)%list
  = match dict_get k d1 with Some v => Some v | None => dict_get k d2 end.
Proof.
  induction d1 as [|[k' v'] r IH]; simpl; auto.
  now destruct (String.eqb k' k).
Qed.

Lemma dict_get_map (f : string -> value) (k : string) (order : list string) :
  dict_get k (map (fun x => (x, f x)) order)
  = if existsb (String.eqb k) order then Some (f k) else None.
Proof.
  induction order as [|x r IH]; simpl; auto.
  rewrite (String.eqb_sym k x).
  destruct (String.eqb x k) eqn:E; simpl; auto.
  apply String.eqb_eq in E. now subst.
Qed.

Lemma project_from (order : list string) (out acc : dict) :
  nodupb order = true ->
  (forall k, existsb (String.eqb k) order = true -> dict_get k acc = None) ->
  fold_left (fun o k => dict_set k (dict_get_default k (VStr "") out) o) order acc
  = (acc ++ map (fun k => (k, dict_get_default k (VStr "") out)) order)%list.
Proof.
  revert acc. induction order as [|x r IH]; intros acc Hnd Hfresh; simpl.
  - now rewrite app_nil_r.
  - simpl in Hnd. apply andb_true_iff in Hnd. destruct Hnd as [Hx Hr].
    rewrite dict_set_fresh.
    + rewrite IH; auto.
      * now rewrite <- app_assoc.
      * intros k Hk. rewrite dict_get_app, Hfresh.
        -- simpl. destruct (String.eqb x k) eqn:E; auto.
           apply String.eqb_eq in E. subst k. now rewrite Hk in Hx.
        -- simpl. rewrite Hk. apply orb_true_r.
    + apply Hfresh. simpl. now rewrite String.eqb_refl.
Qed.

Lemma project_map (order : list string) (out : dict) :
  nodupb order = true ->
  project order out = map (fun k => (k, dict_get_default k (VStr "") out)) order.
Proof.
  intros H. unfold project. rewrite project_from; auto.
Qed.

(** ** Properties: normalisation *)

Lemma dict_get_coerced (k : string) (d : dict) :
  dict_get k (coerce_allow_insecure (stringify_port d)) = coerced_get k d.
Proof.
  unfold coerce_allow_insecure, stringify_port, coerced_get.
  destruct (dict_get "port" d) as [p|] eqn:Ep.
  - rewrite dict_get_set. simpl String.eqb at 1.
    destruct (dict_get "allowInsecure" d) as [a|] eqn:Ea.
    + rewrite !dict_get_set.
      destruct (String.eqb "allowInsecure" k) eqn:E1.
      * apply String.eqb_eq in E1. subst k. now rewrite Ea.
      * destruct (String.eqb "port" k) eqn:E2.
        -- apply String.eqb_eq in E2. subst k. now rewrite Ep.
        -- rewrite (String.eqb_sym k "port"), E2.
           rewrite (String.eqb_sym k "allowInsecure"), E1.
           now destruct (dict_get k d).
    + rewrite dict_get_set.
      destruct (String.eqb "port" k) eqn:E2.
      * apply String.eqb_eq in E2. subst k. now rewrite Ep.
      * rewrite (String.eqb_sym k "port"), E2.
        destruct (dict_get k d) eqn:Ek; auto.
        destruct (String.eqb k "allowInsecure") eqn:E1; auto.
        apply String.eqb_eq in E1. congruence.
  - destruct (dict_get "allowInsecure" d) as [a|] eqn:Ea.
    + rewrite dict_get_set.
      destruct (String.eqb "allowInsecure" k) eqn:E1.
      * apply String.eqb_eq in E1. subst k. now rewrite Ea.
      * rewrite (String.eqb_sym k "allowInsecure"), E1.
        destruct (dict_get k d) eqn:Ek; auto.
        destruct (String.eqb k "port") eqn:E2; auto.
        apply String.eqb_eq in E2. congruence.
    + destruct (dict_get k d) eqn:Ek; auto.
      destruct (String.eqb k "port") eqn:E2.
      * apply String.eqb_eq in E2. congruence.
      * destruct (String.eqb k "allowInsecure") eqn:E1; auto.
        apply String.eqb_eq in E1. congruence.
Qed.

Lemma normalized_lookup (order : list string) (defaults d : dict) (k : string) :
  dict_get_default k (VStr "")
    (fill_missing order
       (inject_defaults defaults (coerce_allow_insecure (stringify_port d))))
  = norm_field defaults d k.
Proof.
  unfold dict_get_default, norm_field.
  rewrite dict_get_fill_missing, dict_get_inject_defaults, dict_get_coerced.
  destruct (coerced_get k d); auto.
  unfold dict_get_default.
  destruct (dict_get k defaults); auto.
  now destruct (existsb (String.eqb k) order).
Qed.

Lemma normalize_shape (order : list string) (defaults : dict) (tag : string) (d : dict) :
  nodupb order = true ->
  existsb (String.eqb "_type") order = false ->
  dict_set "_type" (VStr tag)
    (project order
       (fill_missing order
          (inject_defaults defaults (coerce_allow_insecure (stringify_port d)))))
  = normal_form order defaults tag d.
Proof.
  intros Hnd Hty. rewrite project_map by assumption.
  rewrite dict_set_fresh.
  - unfold normal_form. f_equal. apply map_ext. intros k.
    now rewrite normalized_lookup.
  - now rewrite dict_get_map, Hty.
Qed.

Lemma normalize_vmess_normal_form (d : dict) :
  normalize_vmess_entry d
  = normal_form WANTED_ORDER_VMESS DEFAULTS_IF_MISSING_VMESS "vmess" d.
Proof. unfold normalize_vmess_entry. now apply normalize_shape. Qed.

Lemma normalize_vless_normal_form (d : dict) :
  normalize_vless_entry d
  = normal_form WANTED_ORDER_VLESS DEFAULTS_IF_MISSING_VLESS "vless" d.
Proof. unfold normalize_vless_entry. now apply normalize_shape. Qed.

Lemma truthy_to_int_range (v : value) : truthy_to_int v = 0 \/ truthy_to_int v = 1.
Proof.
  destruct v as [|b|n|f|s|l|d]; simpl; auto.
  - destruct b; auto.
  - destruct (Z.eqb n 0); auto.
  - destruct (float_is_zero f); auto.
  - match goal with |- context [if ?c then _ else _] => destruct c end; auto.
Qed.

Lemma truthy_to_int_fixed (v : value) :
  truthy_to_int (VInt (truthy_to_int v)) = truthy_to_int v.
Proof. destruct (truthy_to_int_range v) as [E|E]; rewrite E; reflexivity. Qed.

Lemma dict_get_normal_form (order : list string) (defaults : dict) (tag : string)
  (d : dict) (k : string) :
  existsb (String.eqb k) order = true ->
  dict_get k (normal_form order defaults tag d) = Some (norm_field defaults d k).
Proof.
  intros H. unfold normal_form. now rewrite dict_get_app, dict_get_map, H.
Qed.

Lemma dict_get_normal_form_type (order : list string) (defaults : dict) (tag : string)
  (d : dict) :
  existsb (String.eqb "_type") order = false ->
  dict_get "_type" (normal_form order defaults tag d) = Some (VStr tag).
Proof.
  intros H. unfold normal_form. now rewrite dict_get_app, dict_get_map, H.
Qed.

Lemma existsb_eqb_In (k : string) (l : list string) :
  In k l -> existsb (String.eqb k) l = true.
Proof.
  intros H. apply existsb_exists. exists k. split; auto. apply String.eqb_refl.
Qed.

Lemma normal_form_idempotent (order : list string) (defaults : dict) (tag : string)
  (d : dict) :
  dict_get "port" defaults = None ->
  dict_get "allowInsecure" defaults = Some (VInt 1) ->
  normal_form order defaults tag (normal_form order defaults tag d)
  = normal_form order defaults tag d.
Proof.
  intros Hport Hai. unfold normal_form at 1 3. f_equal.
  apply map_ext_in. intros k Hk. f_equal.
  unfold norm_field at 1. unfold coerced_get at 1.
  rewrite dict_get_normal_form by now apply existsb_eqb_In.
  destruct (String.eqb k "port") eqn:Ep.
  - apply String.eqb_eq in Ep. subst k.
    unfold norm_field, coerced_get. simpl String.eqb.
    destruct (dict_get "port" d); simpl; auto.
    unfold dict_get_default. now rewrite Hport.
  - destruct (String.eqb k "allowInsecure") eqn:Ea; auto.
    apply String.eqb_eq in Ea. subst k.
    unfold norm_field, coerced_get. simpl String.eqb.
    destruct (dict_get "allowInsecure" d).
    + now rewrite truthy_to_int_fixed.
    + unfold dict_get_default. now rewrite Hai.
Qed.

Lemma normalize_entry_vmess_fixed (d : dict) :
  normalize_entry (normalize_vmess_entry d) = normalize_vmess_entry d.
Proof.
  unfold normalize_entry. rewrite !normalize_vmess_normal_form.
  rewrite dict_get_normal_form_type by reflexivity. simpl eq_str. cbv iota.
  now apply normal_form_idempotent.
Qed.

Lemma normalize_entry_vless_fixed (d : dict) :
  normalize_entry (normalize_vless_entry d) = normalize_vless_entry d.
Proof.
  unfold normalize_entry. rewrite !normalize_vless_normal_form.
  rewrite dict_get_normal_form_type by reflexivity. simpl eq_str. cbv iota.
  now apply normal_form_idempotent.
Qed.

(** C8.  Normalising a normalised record changes nothing, whichever the
    scheme of the raw record. *)
Theorem normalize_entry_idempotent (r : dict) :
  normalize_entry (normalize_entry r) = normalize_entry r.
Proof.
  unfold normalize_entry at 2 3.
  destruct (dict_get "_type" r) as [t|]; [destruct (eq_str t "vless")|].
  - apply normalize_entry_vless_fixed.
  - apply normalize_entry_vmess_fixed.
  - apply normalize_entry_vmess_fixed.
Qed.

(** C7.  Truthy coercion is a total function into 0 and 1: a boolean gives
    its own value, a number 1 unless it is zero, a text 1 exactly when,
    trimmed and in lower case, it is one of the five accepted words, and
    anything else 0. *)
Theorem truthy_to_int_total :
  (forall v, truthy_to_int v = 0 \/ truthy_to_int v = 1)
  /\ truthy_to_int (VBool true) = 1
  /\ truthy_to_int (VBool false) = 0
  /\ (forall n, truthy_to_int (VInt n) = if Z.eqb n 0 then 0 else 1)
  /\ (forall f, truthy_to_int (VFloat f) = if PrimFloat.eqb f 0%float then 0 else 1)
  /\ (forall s, truthy_to_int (VStr s) = 1
                <-> In (lower (strip s)) ["1"; "true"; "yes"; "y"; "on"])
  /\ (forall s, truthy_to_int (VStr s) = 0
                <-> ~ In (lower (strip s)) ["1"; "true"; "yes"; "y"; "on"])
  /\ truthy_to_int VNone = 0
  /\ (forall l, truthy_to_int (VList l) = 0)
  /\ (forall d, truthy_to_int (VDict d) = 0).
Proof.
  assert (Hmem : forall s l, existsb (String.eqb s) l = true <-> In s l).
  { intros s l. rewrite existsb_exists. split.
    - intros [x [Hin Hx]]. apply String.eqb_eq in Hx. now subst.
    - intros Hin. exists s. split; auto. apply String.eqb_refl. }
  assert (Htxt : forall s, truthy_to_int (VStr s)
                 = if existsb (String.eqb (lower (strip s))) ["1"; "true"; "yes"; "y"; "on"]
                   then 1 else 0) by reflexivity.
  split; [exact truthy_to_int_range|].
  split; [reflexivity|]. split; [reflexivity|].
  split. { intros n. unfold truthy_to_int. now destruct (Z.eqb n 0). }
  split. { intros f. unfold truthy_to_int, float_is_zero. now destruct (PrimFloat.eqb f 0). }
  split.
  { intros s. rewrite Htxt, <- Hmem.
    destruct (existsb _ _); split; intros H; auto; discriminate. }
  split.
  { intros s. rewrite Htxt, <- Hmem.
    destruct (existsb _ _); split; intros H; auto; try discriminate.
    now contradiction H. }
  split; [reflexivity|]. split; reflexivity.
Qed.

(** The inputs the specification lists for the coercion. *)
Example truthy_to_int_samples :
  map truthy_to_int
    [VBool true; VBool false; VInt 0; VInt 1; VFloat 2.5%float; VStr "yes";
     VStr "NO"; VStr "on"; VStr ""; VStr "banana"; VNone; VStr "  TRUE  "]
  = [1; 0; 0; 1; 1; 1; 0; 1; 0; 0; 0; 1].
Proof. reflexivity. Qed.

Lemma nodup_prefix_fresh (pre n : dict) (k : string) (v : value) :
  nodupb (keys (pre ++ (k, v) :: n)%list) = true -> dict_get k pre = None.
Proof.
  induction pre as [|[k' v'] pre IH]; simpl; intros H; auto.
  apply andb_true_iff in H. destruct H as [Hh Ht].
  destruct (String.eqb k' k) eqn:E; [|now apply IH].
  apply String.eqb_eq in E. subst k'. exfalso.
  apply negb_true_iff in Hh.
  assert (Hin : existsb (String.eqb k) (keys (pre ++ (k, v) :: n)%list) = true).
  { apply existsb_eqb_In. unfold keys. rewrite map_app. apply in_or_app.
    right. now left. }
  unfold keys in *. congruence.
Qed.

Lemma members_by_key (pre n : dict) :
  nodupb (keys (pre ++ n)%list) = true ->
  map (fun kv : string * value =>
         let (k, x) := kv in json_string k ++ ":" ++ json_dumps x) n
  = map (fun kv => json_string (fst kv) ++ ":"
                   ++ json_dumps (dict_get_default (fst kv) VNone (pre ++ n)%list)) n.
Proof.
  revert pre. induction n as [|[k v] n IH]; intros pre Hpre; simpl; auto.
  f_equal.
  - do 2 f_equal. unfold dict_get_default. rewrite dict_get_app. simpl.
    rewrite String.eqb_refl.
    now rewrite (nodup_prefix_fresh pre n k v Hpre).
  - specialize (IH (pre ++ [(k, v)])%list).
    rewrite <- !app_assoc in IH. simpl in IH. now apply IH.
Qed.

(** C4 as the code has it.  The normalised record has the canonical fields
    of its scheme, in their order, and after them one more key, the
    discriminator; its compact serialisation lists exactly these members in
    this order. *)
Theorem normalized_keys_canonical (r : dict) :
  keys (normalize_entry r) = (canonical_order r ++ ["_type"])%list
  /\ json_dumps (VDict (normalize_entry r))
     = "{" ++ join ","
                (map (fun k => json_string k ++ ":"
                               ++ json_dumps (dict_get_default k VNone (normalize_entry r)))
                   (canonical_order r ++ ["_type"])%list) ++ "}".
Proof.
  assert (Hkeys : forall order defaults tag d,
             keys (normal_form order defaults tag d) = (order ++ ["_type"])%list).
  { intros. unfold keys, normal_form. rewrite map_app, map_map. simpl.
    now rewrite map_id. }
  assert (Hk : keys (normalize_entry r) = (canonical_order r ++ ["_type"])%list).
  { unfold normalize_entry, canonical_order.
    destruct (dict_get "_type" r) as [t|]; [destruct (eq_str t "vless")|];
      rewrite ?normalize_vmess_normal_form, ?normalize_vless_normal_form; apply Hkeys. }
  split; [exact Hk|].
  assert (Hn : nodupb (canonical_order r ++ ["_type"])%list = true).
  { unfold canonical_order.
    destruct (dict_get "_type" r) as [t|]; [destruct (eq_str t "vless")|]; reflexivity. }
  rewrite <- Hk in *. clear Hk.
  generalize dependent (normalize_entry r). intros n Hn.
  change (json_dumps (VDict n))
    with ("{" ++ join "," (map (fun kv : string * value =>
                                  let (k, x) := kv in json_string k ++ ":" ++ json_dumps x) n)
             ++ "}").
  do 3 f_equal. unfold keys. rewrite map_map.
  apply (members_by_key [] n). exact Hn.
Qed.

(** ** Properties: the template substitution engine *)

Lemma set_if_present_dict (key rep : string) (d : dict) :
  set_if_present key rep (VDict d) = Ok (VDict (put_if_present key rep d)).
Proof.
  unfold set_if_present, put_if_present. simpl. now destruct (dict_has key d).
Qed.

Lemma label_if_present_dict (rep : string) (d : dict) :
  label_if_present rep (VDict d) = Ok (VDict (put_label rep d)).
Proof.
  unfold label_if_present, put_label, dict_item. simpl. unfold dict_has, dict_item.
  now destruct (dict_get "ps" d).
Qed.

Lemma dict_get_put_if_present (k key rep : string) (d : dict) :
  k <> key -> dict_get k (put_if_present key rep d) = dict_get k d.
Proof.
  intros H. unfold put_if_present. destruct (dict_has key d); auto.
  apply dict_get_set_other. congruence.
Qed.

Lemma dict_get_put_label (k rep : string) (d : dict) :
  k <> "ps" -> dict_get k (put_label rep d) = dict_get k d.
Proof.
  intros H. unfold put_label. destruct (dict_get "ps" d); auto.
  apply dict_get_set_other. congruence.
Qed.

Lemma vmess_subst_dict (d : dict) (rep : string) :
  vmess_subst (VDict d) rep
  = Ok (VDict (put_label rep (put_if_present "host" rep (put_if_present "sni" rep d)))).
Proof.
  unfold vmess_subst.
  rewrite set_if_present_dict. simpl bind.
  rewrite set_if_present_dict. simpl bind.
  apply label_if_present_dict.
Qed.

Lemma set_host_vless_dict (d : dict) (rep : string) :
  set_host_vless rep (VDict d)
  = if dict_has "host" d then
      match dict_get "type" d with
      | Some t => Ok (VDict (if host_exempt t then d else dict_set "host" (VStr rep) d))
      | None => Raise (KeyError "type")
      end
    else Ok (VDict d).
Proof.
  unfold set_host_vless. simpl. destruct (dict_has "host" d); auto.
  unfold dict_item. destruct (dict_get "type" d) as [t|]; auto.
  simpl. fold (host_exempt t). now destruct (host_exempt t).
Qed.

Lemma startswith_app (p s : string) : startswith (p ++ s) p = true.
Proof.
  induction p as [|c p IH]; simpl; [now destruct s|].
  now rewrite Ascii.eqb_refl.
Qed.

Lemma fold_snoc_map {A B : Type} (f : A -> B) (l : list A) (acc : list B) :
  fold_left (fun out x => (out ++ [f x])%list) l acc = (acc ++ map f l)%list.
Proof.
  revert acc. induction l as [|x l IH]; intros acc; simpl.
  - now rewrite app_nil_r.
  - rewrite IH. now rewrite <- app_assoc.
Qed.

Lemma make_vmess_lines_map (template : string) (replacements : list string) :
  make_vmess_lines template replacements = map (vmess_line template) replacements.
Proof. unfold make_vmess_lines. now rewrite fold_snoc_map. Qed.

Lemma make_vless_lines_from (template : string) (replacements : list string)
  (st : list string * list exn) :
  fold_left
    (fun st rep =>
       match vless_try template rep with
       | Ok vless_url => ((fst st ++ [vless_url])%list, snd st)
       | Raise e => (fst st, (snd st ++ [e])%list)
       end)
    replacements st
  = ((fst st ++ flat_map (fun rep => match vless_try template rep with
                                     | Ok l => [l]
                                     | Raise _ => []
                                     end) replacements)%list,
     (snd st ++ flat_map (fun rep => match vless_try template rep with
                                     | Ok _ => []
                                     | Raise e => [e]
                                     end) replacements)%list).
Proof.
  revert st. induction replacements as [|rep l IH]; intros [out err]; simpl.
  - now rewrite !app_nil_r.
  - rewrite IH. destruct (vless_try template rep); simpl;
      now rewrite <- ?app_assoc, ?app_nil_r.
Qed.

(** The lines [make_vless_lines] returns are those of the substitutions
    that encode, in order; the errors it reports are those of the others. *)
Lemma make_vless_lines_split (template : string) (replacements : list string) :
  make_vless_lines template replacements
  = (flat_map (fun rep => match vless_try template rep with
                          | Ok l => [l]
                          | Raise _ => []
                          end) replacements,
     flat_map (fun rep => match vless_try template rep with
                          | Ok _ => []
                          | Raise e => [e]
                          end) replacements).
Proof. unfold make_vless_lines. now rewrite make_vless_lines_from. Qed.

(** C3.  When the template has a host field: a scheme-A substitution
    always sets it to the substitution value; a scheme-B substitution sets
    it exactly when the type is not one of xhttp and ws and leaves it as it
    was otherwise; and with no type field the scheme-B substitution raises
    KeyError, which [make_vless_lines] reports, returning no line for it. *)
Theorem host_substitution (d : dict) (rep : string) :
  dict_has "host" d = true ->
  (exists d', vmess_subst (VDict d) rep = Ok (VDict d')
              /\ dict_get "host" d' = Some (VStr rep))
  /\ (forall t, dict_get "type" d = Some t ->
        exists d', vless_subst (VDict d) rep = Ok (VDict d')
                   /\ dict_get "host" d'
                      = if host_exempt t then dict_get "host" d else Some (VStr rep))
  /\ (dict_get "type" d = None ->
        vless_subst (VDict d) rep = Raise (KeyError "type")
        /\ forall template replacements,
             json_loads template = Ok (VDict d) ->
             make_vless_lines template replacements
             = ([], map (fun _ => KeyError "type") replacements)).
Proof.
  intros Hhost.
  assert (Hh1 : dict_has "host" (put_if_present "sni" rep d) = true).
  { unfold dict_has in *. rewrite dict_get_put_if_present by discriminate. exact Hhost. }
  split; [|split].
  - eexists. split; [apply vmess_subst_dict|].
    rewrite dict_get_put_label by discriminate.
    unfold put_if_present at 1. rewrite Hh1. apply dict_get_set_same.
  - intros t Ht. unfold vless_subst.
    rewrite set_if_present_dict. simpl bind.
    rewrite set_host_vless_dict, Hh1.
    rewrite dict_get_put_if_present by discriminate. rewrite Ht. simpl bind.
    rewrite label_if_present_dict. eexists. split; [reflexivity|].
    rewrite dict_get_put_label by discriminate.
    destruct (host_exempt t).
    + now rewrite dict_get_put_if_present by discriminate.
    + apply dict_get_set_same.
  - intros Ht.
    assert (Hs : vless_subst (VDict d) rep = Raise (KeyError "type")).
    { unfold vless_subst.
      rewrite set_if_present_dict. simpl bind.
      rewrite set_host_vless_dict, Hh1.
      rewrite dict_get_put_if_present by discriminate. now rewrite Ht. }
    split; [exact Hs|].
    intros template replacements Hload.
    rewrite make_vless_lines_split.
    assert (Htry : forall r, vless_try template r = Raise (KeyError "type")).
    { intros r. unfold vless_try. rewrite Hload. simpl bind.
      unfold vless_subst.
      rewrite set_if_present_dict. simpl bind.
      assert (Hh2 : dict_has "host" (put_if_present "sni" r d) = true).
      { unfold dict_has in *. rewrite dict_get_put_if_present by discriminate. exact Hhost. }
      rewrite set_host_vless_dict, Hh2.
      rewrite dict_get_put_if_present by discriminate. now rewrite Ht. }
    f_equal.
    + induction replacements as [|r l IH]; simpl; auto. now rewrite Htry.
    + induction replacements as [|r l IH]; simpl; auto. rewrite Htry. simpl. now f_equal.
Qed.



(** ** Properties: scheme B serialisation *)

Lemma truthy_not_empty_text (v : value) :
  (truthy v && negb (eq_str v ""))%bool = truthy v.
Proof.
  destruct v as [|b|n|f|s|l|d]; simpl; rewrite ?andb_true_r; auto.
  now destruct (String.eqb s "").
Qed.

Lemma dict_get_query_fold (config : dict) (k : string) (fields : list string) (acc : dict) :
  dict_get k
    (fold_left
       (fun qp key =>
          match dict_get key config with
          | Some v =>
              if (truthy v && negb (eq_str v ""))%bool then dict_set key v qp else qp
          | None => qp
          end) fields acc)
  = match dict_get k config with
    | Some v =>
        if (existsb (String.eqb k) fields && truthy v)%bool then Some v
        else dict_get k acc
    | None => dict_get k acc
    end.
Proof.
  revert acc. induction fields as [|f r IH]; intros acc; simpl.
  - now destruct (dict_get k config).
  - rewrite IH. clear IH.
    destruct (String.eqb k f) eqn:E.
    + apply String.eqb_eq in E. subst f. simpl.
      destruct (dict_get k config) as [v|]; auto.
      rewrite truthy_not_empty_text.
      destruct (truthy v) eqn:T; rewrite ?andb_true_r, ?andb_false_r; auto.
      rewrite dict_get_set_same. now destruct (existsb (String.eqb k) r).
    + simpl.
      destruct (dict_get k config) as [v|]; destruct (dict_get f config) as [w|]; auto;
        try rewrite truthy_not_empty_text;
        try (destruct (truthy w); auto;
             rewrite dict_get_set_other; auto;
             intros ->; now rewrite String.eqb_refl in E).
Qed.

(** The query parameters of an encoded record are the canonical query
    fields whose value is true. *)
Lemma dict_get_vless_query_params (config : dict) (k : string) :
  dict_get k (vless_query_params config)
  = match dict_get k config with
    | Some v =>
        if (existsb (String.eqb k) VLESS_QUERY_PARAMS && truthy v)%bool
        then Some v else None
    | None => None
    end.
Proof.
  unfold vless_query_params. rewrite dict_get_query_fold.
  now destruct (dict_get k config).
Qed.

(** C10.  A canonical query field is a query parameter of the encoded
    record exactly when its value is true, so that 0, the empty text and
    the empty list are all left out; a normalised record whose
    allowInsecure is 0 is encoded without that parameter; and for the
    record shown the encoded line decodes and normalises to allowInsecure
    1. *)
Theorem falsy_query_fields_dropped :
  (forall config key,
      dict_has key (vless_query_params config) = true
      <-> In key VLESS_QUERY_PARAMS
          /\ exists v, dict_get key config = Some v /\ truthy v = true)
  /\ truthy (VInt 0) = false /\ truthy (VStr "") = false /\ truthy (VList []) = false
  /\ (forall r,
        dict_get "allowInsecure" (normalize_vless_entry r) = Some (VInt 0) ->
        dict_has "allowInsecure" (vless_query_params (normalize_vless_entry r)) = false)
  /\ (let r := [("id", VStr "user-id"); ("add", VStr "host.example"); ("port", VInt 8443);
                ("allowInsecure", VBool false)] in
      dict_get "allowInsecure" (normalize_vless_entry r) = Some (VInt 0)
      /\ encode_vless_url (VDict (normalize_vless_entry r))
         = Ok "vless://user-id@host.example:8443?type=tcp&encryption=none&security=none"
      /\ exists d,
           decode_vmess_or_vless_line
             "vless://user-id@host.example:8443?type=tcp&encryption=none&security=none"
           = Ok d
           /\ dict_get "allowInsecure" (normalize_entry d) = Some (VInt 1)).
Proof.
  split.
  { intros config key. unfold dict_has. rewrite dict_get_vless_query_params. split.
    - destruct (dict_get key config) as [v|]; [|discriminate].
      destruct (existsb (String.eqb key) VLESS_QUERY_PARAMS) eqn:E; [|discriminate].
      destruct (truthy v) eqn:T; [|discriminate]. intros _. split.
      + apply existsb_exists in E. destruct E as [x [Hin Hx]].
        apply String.eqb_eq in Hx. now subst.
      + now exists v.
    - intros [Hin [v [Hv T]]]. rewrite Hv, T.
      now rewrite (existsb_eqb_In _ _ Hin). }
  split; [reflexivity|]. split; [reflexivity|]. split; [reflexivity|].
  split.
  { intros r H. unfold dict_has. rewrite dict_get_vless_query_params, H. reflexivity. }
  split; [reflexivity|]. split; [vm_compute; reflexivity|].
  eexists. split; [vm_compute; reflexivity|].
  vm_compute. reflexivity.
Qed.

(** ** Properties: the scenario of a scheme B line *)

(** C2 as the code has it.  The line decodes, and normalises to the record
    shown: the label is the fragment as it is written, percent escapes
    included; every other canonical field has its default or is empty. *)
Theorem scenario_B_decodes :
  exists d,
    decode_vmess_or_vless_line
      "vless://user-id@host.example:8443?security=tls&sni=sni.example#My%20Label" = Ok d
    /\ normalize_entry d
       = [("add", VStr "host.example"); ("port", VStr "8443"); ("id", VStr "user-id");
          ("ps", VStr "My%20Label"); ("type", VStr "tcp"); ("encryption", VStr "none");
          ("security", VStr "tls"); ("sni", VStr "sni.example"); ("host", VStr "");
          ("path", VStr ""); ("seed", VStr ""); ("fp", VStr ""); ("alpn", VStr "");
          ("allowInsecure", VInt 1); ("mode", VStr ""); ("pbk", VStr "");
          ("sid", VStr ""); ("spx", VStr ""); ("pqv", VStr ""); ("ech", VStr "");
          ("flow", VStr ""); ("_type", VStr "vless")].
Proof.
  eexists. split; [vm_compute; reflexivity|].
  vm_compute. reflexivity.
Qed.

(** ** Properties: the batch decoder *)

Lemma fs_set_same (p : string) (c : option (list string)) (fs : fsys) :
  fs_set p c fs p = c.
Proof. unfold fs_set. now rewrite String.eqb_refl. Qed.

Lemma fs_set_other (p q : string) (c : option (list string)) (fs : fsys) :
  q <> p -> fs_set p c fs q = fs q.
Proof.
  intros H. unfold fs_set. destruct (String.eqb q p) eqn:E; auto.
  apply String.eqb_eq in E. contradiction.
Qed.

Lemma apply_untouched (p : string) (e : effect) (fs : fsys) :
  touches p e = false -> apply_effect fs e p = fs p.
Proof.
  destruct e; simpl; intros H; auto.
  - apply fs_set_other. intros ->. now rewrite String.eqb_refl in H.
  - destruct (fs tmp); auto.
    apply fs_set_other. intros ->. now rewrite String.eqb_refl in H.
  - apply orb_false_iff in H. destruct H as [H1 H2].
    rewrite !fs_set_other; auto; intros ->;
      [now rewrite String.eqb_refl in H2 | now rewrite String.eqb_refl in H1].
Qed.

Lemma run_untouched (p : string) (script : list effect) (fs : fsys) :
  forallb (fun e => negb (touches p e)) script = true -> run script fs p = fs p.
Proof.
  unfold run. revert fs. induction script as [|e r IH]; intros fs H; simpl; auto.
  simpl in H. apply andb_true_iff in H. destruct H as [He Hr].
  rewrite IH by assumption. apply apply_untouched. now apply negb_true_iff.
Qed.

Lemma run_app (s1 s2 : list effect) (fs : fsys) :
  run (s1 ++ s2) fs = run s2 (run s1 fs).
Proof. unfold run. apply fold_left_app. Qed.


Lemma loop_untouched (src tmp : string) (idx : nat) (lines : list string) :
  tmp <> src ->
  forallb (fun e => negb (touches src e)) (loop_effects tmp idx lines) = true.
Proof.
  intros Hne. revert idx. induction lines as [|l r IH]; intros idx; simpl; auto.
  rewrite forallb_app, IH, andb_true_r.
  unfold line_effects. destruct (process_line l); simpl; auto.
  rewrite andb_true_r. apply negb_true_iff.
  destruct (String.eqb tmp src) eqn:E; auto.
  apply String.eqb_eq in E. contradiction.
Qed.

Lemma loop_writes (tmp : string) (idx : nat) (lines ls : list string) (fs : fsys) :
  fs tmp = Some ls ->
  run (loop_effects tmp idx lines) fs tmp = Some (ls ++ written_records lines)%list.
Proof.
  revert idx ls fs. induction lines as [|l r IH]; intros idx ls fs Hfs; simpl.
  - now rewrite app_nil_r.
  - rewrite run_app. unfold written_records. simpl. fold (written_records r).
    unfold line_effects.
    destruct (process_line l) as [|c v|e]; simpl.
    + now apply IH.
    + unfold run at 1. simpl. rewrite Hfs.
      fold (run (loop_effects tmp (S idx) r)).
      rewrite (IH _ (ls ++ [c])%list).
      * now rewrite <- app_assoc.
      * apply fs_set_same.
    + now apply IH.
Qed.




(** ** Properties: text *)

Lemma sapp_nil_r (s : string) : s ++ "" = s.
Proof. induction s; simpl; congruence. Qed.

Lemma sapp_assoc (a b c : string) : (a ++ b) ++ c = a ++ b ++ c.
Proof. induction a; simpl; congruence. Qed.

Lemma slength_app (a b : string) :
  String.length (a ++ b) = (String.length a + String.length b)%nat.
Proof. induction a; simpl; congruence. Qed.

Lemma smem_cons (c a : ascii) (r : string) :
  smem c (String a r) = (Ascii.eqb a c || smem c r)%bool.
Proof. reflexivity. Qed.

Lemma smem_app (c : ascii) (a b : string) :
  smem c (a ++ b) = (smem c a || smem c b)%bool.
Proof. induction a as [|x a IH]; simpl; auto. rewrite IH. now rewrite orb_assoc. Qed.

Lemma sforall_app (p : ascii -> bool) (a b : string) :
  sforall p (a ++ b) = (sforall p a && sforall p b)%bool.
Proof. induction a as [|x a IH]; simpl; auto. rewrite IH. now rewrite andb_assoc. Qed.

Lemma sforall_impl (p q : ascii -> bool) (s : string) :
  (forall c, p c = true -> q c = true) -> sforall p s = true -> sforall q s = true.
Proof.
  intros H. induction s as [|x s IH]; simpl; auto.
  intros Hs. apply andb_true_iff in Hs. destruct Hs as [Hx Hr].
  now rewrite (H _ Hx), IH.
Qed.

Lemma sforall_not_mem (p : ascii -> bool) (c : ascii) (s : string) :
  p c = false -> sforall p s = true -> smem c s = false.
Proof.
  intros Hc. induction s as [|x s IH]; simpl; auto.
  intros Hs. apply andb_true_iff in Hs. destruct Hs as [Hx Hr].
  rewrite IH by assumption. rewrite orb_false_r.
  destruct (Ascii.eqb x c) eqn:E; auto.
  apply Ascii.eqb_eq in E. congruence.
Qed.

Lemma partition_app (c : ascii) (a b : string) :
  smem c a = false -> partition c (a ++ String c b) = Some (a, b).
Proof.
  induction a as [|x a IH]; simpl; intros H.
  - now rewrite Ascii.eqb_refl.
  - apply orb_false_iff in H. destruct H as [Hx Ha].
    rewrite Hx. now rewrite IH.
Qed.

Lemma partition_none (c : ascii) (s : string) :
  smem c s = false -> partition c s = None.
Proof.
  induction s as [|x s IH]; simpl; intros H; auto.
  apply orb_false_iff in H. destruct H as [Hx Hs].
  rewrite Hx. now rewrite IH.
Qed.

Lemma partition_spec (c : ascii) (s h t : string) :
  partition c s = Some (h, t) -> s = h ++ String c t /\ smem c h = false.
Proof.
  revert h t. induction s as [|x s IH]; simpl; intros h t H; [discriminate|].
  destruct (Ascii.eqb x c) eqn:E.
  - apply Ascii.eqb_eq in E. injection H as <- <-. now subst.
  - destruct (partition c s) as [[h' t']|]; [|discriminate].
    injection H as <- <-. destruct (IH h' t' eq_refl) as [Hs Hm].
    simpl. rewrite E, Hm. split; [congruence | reflexivity].
Qed.

Lemma rpartition_app (c : ascii) (a b : string) :
  smem c b = false -> rpartition c (a ++ String c b) = Some (a, b).
Proof.
  intros Hb.
  assert (Hn : rpartition c b = None).
  { clear a. induction b as [|x b IH]; simpl; auto.
    simpl in Hb. apply orb_false_iff in Hb. destruct Hb as [Hx Hb].
    now rewrite IH, Hx. }
  induction a as [|x a IH]; simpl.
  - now rewrite Hn, Ascii.eqb_refl.
  - now rewrite IH.
Qed.

Lemma span_app (p : ascii -> bool) (a b : string) :
  sforall p a = true ->
  match b with
  | EmptyString => True
  | String c _ => p c = false
  end ->
  span p (a ++ b) = (a, b).
Proof.
  intros Ha Hb. induction a as [|x a IH]; simpl.
  - destruct b as [|c b]; simpl; auto. now rewrite Hb.
  - simpl in Ha. apply andb_true_iff in Ha. destruct Ha as [Hx Ha].
    now rewrite Hx, IH.
Qed.

Lemma replace_char_absent (x : ascii) (new s : string) :
  smem x s = false -> replace (str1 x) new s = s.
Proof.
  unfold replace. induction s as [|c s IH]; simpl; auto.
  intros H. apply orb_false_iff in H. destruct H as [Hc Hs].
  rewrite (Ascii.eqb_sym x c), Hc. simpl. now rewrite IH.
Qed.

Lemma lower_fixed (s : string) :
  sforall (fun c => negb (is_upper c)) s = true -> lower s = s.
Proof.
  unfold lower. induction s as [|c s IH]; simpl; auto.
  intros H. apply andb_true_iff in H. destruct H as [Hc Hs].
  rewrite (IH Hs). unfold lower_char. apply negb_true_iff in Hc. now rewrite Hc.
Qed.

Lemma drop_app (p s : string) : drop (String.length p) (p ++ s) = s.
Proof. induction p; simpl; auto. Qed.

Lemma eqb_app_nonempty (a : string) (c : ascii) (b : string) :
  String.eqb (a ++ String c b) "" = false.
Proof. now destruct a. Qed.

Lemma srev_app_spec (s acc : string) : srev_app s acc = srev s ++ acc.
Proof.
  unfold srev. revert acc. induction s as [|c s IH]; intros acc; simpl; auto.
  rewrite IH, (IH (String c "")). now rewrite sapp_assoc.
Qed.

Lemma srev_cons (c : ascii) (s : string) : srev (String c s) = srev s ++ str1 c.
Proof. unfold srev at 1. simpl. apply srev_app_spec. Qed.

Lemma srev_append (a b : string) : srev (a ++ b) = srev b ++ srev a.
Proof.
  induction a as [|c a IH]; simpl.
  - now rewrite sapp_nil_r.
  - now rewrite !srev_cons, IH, sapp_assoc.
Qed.

Lemma srev_involutive (s : string) : srev (srev s) = s.
Proof.
  induction s as [|c s IH]; auto.
  now rewrite srev_cons, srev_append, IH.
Qed.

Lemma sforall_srev (p : ascii -> bool) (s : string) : sforall p (srev s) = sforall p s.
Proof.
  induction s as [|c s IH]; auto.
  rewrite srev_cons, sforall_app, IH. simpl. rewrite andb_true_r. apply andb_comm.
Qed.

Lemma srev_nonempty (s : string) : s <> "" -> srev s <> "".
Proof.
  intros H E. apply H. rewrite <- (srev_involutive s), E. reflexivity.
Qed.

Lemma ascii_code_bound (c : ascii) (n : N) :
  is_ascii c = true -> (128 <= n)%N -> N.eqb (code c) n = false.
Proof.
  unfold is_ascii. intros H Hn. apply N.ltb_lt in H. apply N.eqb_neq. lia.
Qed.

Lemma is_space2_ascii_l (a b : ascii) : is_ascii a = true -> is_space2 a b = false.
Proof. intros H. unfold is_space2. now rewrite (ascii_code_bound a 194 H). Qed.

Lemma is_space2_ascii_r (a b : ascii) : is_ascii b = true -> is_space2 a b = false.
Proof.
  intros H. unfold is_space2.
  rewrite (ascii_code_bound b 133 H), (ascii_code_bound b 160 H) by lia.
  apply andb_false_r.
Qed.

Lemma is_space3_ascii_1 (a b c : ascii) : is_ascii a = true -> is_space3 a b c = false.
Proof.
  intros H. unfold is_space3.
  now rewrite (ascii_code_bound a 225 H), (ascii_code_bound a 226 H),
    (ascii_code_bound a 227 H) by lia.
Qed.

Lemma is_space3_ascii_2 (a b c : ascii) : is_ascii b = true -> is_space3 a b c = false.
Proof.
  intros H. unfold is_space3.
  rewrite (ascii_code_bound b 154 H), (ascii_code_bound b 128 H),
    (ascii_code_bound b 129 H) by lia.
  now rewrite !andb_false_r.
Qed.

Lemma is_space3_ascii_3 (a b c : ascii) : is_ascii c = true -> is_space3 a b c = false.
Proof.
  intros H. unfold is_space3. cbv zeta.
  assert (H1 : N.leb 128 (code c) = false).
  { unfold is_ascii in H. apply N.ltb_lt in H. apply N.leb_gt. exact H. }
  rewrite H1.
  rewrite (ascii_code_bound c 128 H), (ascii_code_bound c 168 H),
    (ascii_code_bound c 169 H), (ascii_code_bound c 175 H),
    (ascii_code_bound c 159 H) by lia.
  simpl. now rewrite !andb_false_r.
Qed.

Lemma lstrip_ascii_head (c : ascii) (s : string) :
  is_ascii c = true -> is_space c = false -> lstrip (String c s) = String c s.
Proof.
  intros Ha Hs. simpl. rewrite Hs.
  destruct s as [|b s]; auto. rewrite (is_space2_ascii_l c b Ha).
  destruct s as [|d s]; auto. now rewrite (is_space3_ascii_1 c b d Ha).
Qed.

Lemma lstrip_rev_ascii_head (c : ascii) (s : string) :
  is_ascii c = true -> is_space c = false -> lstrip_rev (String c s) = String c s.
Proof.
  intros Ha Hs. simpl. rewrite Hs.
  destruct s as [|b s]; auto. rewrite (is_space2_ascii_r b c Ha).
  destruct s as [|d s]; auto. now rewrite (is_space3_ascii_3 d b c Ha).
Qed.

Lemma lstrip_rev_length (s : string) :
  (String.length (lstrip_rev s) <= String.length s)%nat.
Proof.
  assert (H : forall n s, (String.length s <= n)%nat ->
                          (String.length (lstrip_rev s) <= String.length s)%nat).
  { intros n. induction n as [|n IH]; intros s0 Hn.
    - destruct s0; simpl in *; lia.
    - destruct s0 as [|a r1]; simpl; auto.
      destruct (is_space a).
      + assert (Hr : (String.length r1 <= n)%nat) by (simpl in Hn; lia).
        specialize (IH r1 Hr). lia.
      + destruct r1 as [|b r2]; simpl; auto.
        destruct (is_space2 b a).
        * assert (Hr : (String.length r2 <= n)%nat) by (simpl in Hn; lia).
          specialize (IH r2 Hr). lia.
        * destruct r2 as [|c r3]; simpl; auto.
          destruct (is_space3 c b a); simpl; auto.
          assert (Hr : (String.length r3 <= n)%nat) by (simpl in Hn; lia).
          specialize (IH r3 Hr). lia. }
  apply (H (String.length s)). lia.
Qed.

Lemma lstrip_rev_app (u w : string) :
  u <> "" -> lstrip_rev u = u ->
  match w with
  | EmptyString => True
  | String c _ => is_ascii c = true
  end ->
  lstrip_rev (u ++ w) = u ++ w.
Proof.
  intros Hne Hfix Hw.
  destruct u as [|a u1]; [contradiction|]. clear Hne.
  assert (Hshort : forall r, (String.length r < String.length (String a u1))%nat ->
                             lstrip_rev r <> String a u1).
  { intros r Hr E. pose proof (lstrip_rev_length r) as Hl. rewrite E in Hl. lia. }
  simpl in Hfix. simpl.
  destruct (is_space a).
  { exfalso. apply (Hshort u1); [simpl; lia | exact Hfix]. }
  destruct u1 as [|b u2]; simpl.
  - destruct w as [|c w]; auto. rewrite (is_space2_ascii_l c a Hw).
    destruct w as [|d w]; auto. now rewrite (is_space3_ascii_2 d c a Hw).
  - destruct (is_space2 b a).
    { exfalso. apply (Hshort u2); [simpl; lia | exact Hfix]. }
    destruct u2 as [|c u3]; simpl.
    + destruct w as [|c w]; auto. now rewrite (is_space3_ascii_1 c b a Hw).
    + destruct (is_space3 c b a); auto.
      exfalso. apply (Hshort u3); [simpl; lia | exact Hfix].
Qed.

Lemma rstrip_fixed_rev (t : string) : rstrip t = t -> lstrip_rev (srev t) = srev t.
Proof.
  unfold rstrip. intros H.
  rewrite <- (srev_involutive (lstrip_rev (srev t))). now rewrite H.
Qed.

(** Trailing white space is looked for in the last three bytes only: after
    an ASCII character, a text that ends clean stays as it is. *)
Lemma rstrip_app (pre t : string) (c : ascii) :
  is_ascii c = true -> t <> "" -> rstrip t = t ->
  rstrip (pre ++ String c t) = pre ++ String c t.
Proof.
  intros Hc Hne Hfix. unfold rstrip.
  rewrite srev_append, srev_cons, sapp_assoc. simpl.
  rewrite lstrip_rev_app.
  - rewrite srev_append. simpl. rewrite srev_involutive.
    change (String c (srev pre)) with (str1 c ++ srev pre).
    rewrite srev_append, srev_involutive. simpl.
    change (srev (str1 c)) with (str1 c).
    rewrite sapp_assoc. reflexivity.
  - now apply srev_nonempty.
  - now apply rstrip_fixed_rev.
  - exact Hc.
Qed.

Lemma rstrip_ascii (s : string) :
  sforall (fun c => is_ascii c && negb (is_space c))%bool s = true -> rstrip s = s.
Proof.
  intros H. unfold rstrip. rewrite <- sforall_srev in H.
  destruct (srev s) as [|a r] eqn:E.
  - simpl. rewrite <- (srev_involutive s), E. reflexivity.
  - simpl in H. apply andb_true_iff in H. destruct H as [Ha _].
    apply andb_true_iff in Ha. destruct Ha as [Ha Hs].
    apply negb_true_iff in Hs.
    rewrite lstrip_rev_ascii_head by assumption.
    rewrite <- E. apply srev_involutive.
Qed.

(** ** Properties: quoting *)

Ltac each_ascii c :=
  destruct c as [[|] [|] [|] [|] [|] [|] [|] [|]].

Lemma replace_char_cons (x c : ascii) (new r : string) :
  replace (str1 x) new (String c r)
  = if Ascii.eqb x c then new ++ replace (str1 x) new r
    else String c (replace (str1 x) new r).
Proof.
  unfold replace. simpl.
  replace (startswith r "") with true by now destruct r.
  rewrite andb_true_r. now destruct (Ascii.eqb x c).
Qed.

Lemma replace_char_app (x : ascii) (new a b : string) :
  replace (str1 x) new (a ++ b) = replace (str1 x) new a ++ replace (str1 x) new b.
Proof.
  induction a as [|c a IH]; [reflexivity|].
  simpl append. rewrite !replace_char_cons, IH.
  destruct (Ascii.eqb x c); [now rewrite sapp_assoc | reflexivity].
Qed.

Lemma replace_char_sflat (x : ascii) (new : string) (f : ascii -> string) (s : string) :
  replace (str1 x) new (sflat f s) = sflat (fun c => replace (str1 x) new (f c)) s.
Proof.
  induction s as [|c s IH]; [reflexivity|].
  simpl. now rewrite replace_char_app, IH.
Qed.

Lemma sflat_ext (f g : ascii -> string) (s : string) :
  (forall c, smem c s = true -> f c = g c) -> sflat f s = sflat g s.
Proof.
  induction s as [|c s IH]; intros H; [reflexivity|].
  simpl. rewrite (H c), IH; auto.
  - intros x Hx. apply H. simpl. rewrite Hx. apply orb_true_r.
  - simpl. now rewrite Ascii.eqb_refl.
Qed.

Lemma quote_from_bytes_sflat (safe : ascii -> bool) (s : string) :
  quote_from_bytes safe s = sflat (quote_byte safe) s.
Proof. induction s as [|c s IH]; simpl; congruence. Qed.

Lemma plus_of_space_quote (c : ascii) :
  replace " " "+" (quote_byte (Ascii.eqb " "%char) c) = plus_quote_char c.
Proof. each_ascii c; reflexivity. Qed.

Lemma space_of_plus_quote (c : ascii) :
  replace "+" " " (plus_quote_char c) = space_quote_char c.
Proof. each_ascii c; reflexivity. Qed.

Lemma quote_plus_sflat (s : string) : quote_plus s = sflat plus_quote_char s.
Proof.
  unfold quote_plus. destruct (smem " "%char s) eqn:E.
  - rewrite quote_from_bytes_sflat.
    change " " with (str1 " "%char) at 1. rewrite replace_char_sflat.
    apply sflat_ext. intros c _. apply plus_of_space_quote.
  - rewrite quote_from_bytes_sflat. apply sflat_ext. intros c Hc.
    unfold plus_quote_char. destruct (Ascii.eqb c " "%char) eqn:Ec; auto.
    apply Ascii.eqb_eq in Ec. subst c. congruence.
Qed.

Lemma quoted_chars (c : ascii) : sforall quoted_char (plus_quote_char c) = true.
Proof. each_ascii c; reflexivity. Qed.

Lemma quote_plus_quoted (s : string) : sforall quoted_char (quote_plus s) = true.
Proof.
  rewrite quote_plus_sflat. induction s as [|c s IH]; [reflexivity|].
  simpl. now rewrite sforall_app, quoted_chars, IH.
Qed.

Lemma quote_plus_nonempty (s : string) : s <> "" -> quote_plus s <> "".
Proof.
  rewrite quote_plus_sflat. destruct s as [|c s]; [contradiction|].
  intros _. simpl. each_ascii c; discriminate.
Qed.

Lemma split_on_nonempty (c : ascii) (s : string) : split_on c s <> [].
Proof.
  induction s as [|a s IH]; simpl; [discriminate|].
  destruct (Ascii.eqb a c); [discriminate|].
  destruct (split_on c s); [contradiction|discriminate].
Qed.

Lemma concat_empty_cons (x : string) (l : list string) :
  String.concat "" (x :: l) = x ++ String.concat "" l.
Proof.
  destruct l as [|y l]; simpl.
  - now rewrite sapp_nil_r.
  - reflexivity.
Qed.

Lemma unquote_plain (c : ascii) (r : string) :
  Ascii.eqb c "%"%char = false -> unquote (String c r) = String c (unquote r).
Proof.
  intros H. unfold unquote. simpl. rewrite H.
  destruct (split_on "%"%char r) as [|p ps] eqn:E.
  - now apply split_on_nonempty in E.
  - reflexivity.
Qed.

Lemma unquote_escape (x y : ascii) (n m : N) (r : string) :
  hex_val x = Some n -> hex_val y = Some m ->
  Ascii.eqb x "%"%char = false -> Ascii.eqb y "%"%char = false ->
  unquote (String "%"%char (String x (String y r))) = String (chr (n * 16 + m)) (unquote r).
Proof.
  intros Hx Hy Ex Ey. unfold unquote. simpl. rewrite Ex, Ey.
  destruct (split_on "%"%char r) as [|p ps] eqn:E.
  - now apply split_on_nonempty in E.
  - simpl map. rewrite concat_empty_cons. simpl. now rewrite Hx, Hy.
Qed.

Lemma unquote_space_quote (c : ascii) (r : string) :
  unquote (space_quote_char c ++ r) = String c (unquote r).
Proof.
  unfold space_quote_char.
  destruct (Ascii.eqb c " "%char) eqn:Es.
  - apply Ascii.eqb_eq in Es. subst c. simpl. now apply unquote_plain.
  - unfold quote_byte. rewrite orb_false_r.
    destruct (is_always_safe c) eqn:Ea.
    + simpl. apply unquote_plain. revert Ea. each_ascii c; auto; discriminate.
    + simpl.
      rewrite (unquote_escape _ _ (code c / 16) (code c mod 16)).
      * f_equal. clear. each_ascii c; reflexivity.
      * clear. each_ascii c; reflexivity.
      * clear. each_ascii c; reflexivity.
      * clear. each_ascii c; reflexivity.
      * clear. each_ascii c; reflexivity.
Qed.

(** Reading back what [quote_plus] wrote. *)
Lemma unquote_quote_plus (s : string) :
  unquote (replace "+" " " (quote_plus s)) = s.
Proof.
  rewrite quote_plus_sflat.
  change "+" with (str1 "+"%char) at 1. rewrite replace_char_sflat.
  rewrite (sflat_ext _ space_quote_char)
    by (intros c _; apply space_of_plus_quote).
  induction s as [|c s IH]; [reflexivity|].
  simpl. now rewrite unquote_space_quote, IH.
Qed.

(** ** Properties: query strings *)

Lemma split_on_absent (c : ascii) (s : string) :
  smem c s = false -> split_on c s = [s].
Proof.
  induction s as [|a s IH]; simpl; intros H; auto.
  apply orb_false_iff in H. destruct H as [Ha Hs].
  now rewrite Ha, IH.
Qed.

Lemma split_on_app (c : ascii) (p s : string) :
  smem c p = false -> split_on c (p ++ String c s) = p :: split_on c s.
Proof.
  induction p as [|a p IH]; simpl; intros H.
  - now rewrite Ascii.eqb_refl.
  - apply orb_false_iff in H. destruct H as [Ha Hp].
    now rewrite Ha, IH.
Qed.

Lemma split_on_join (c : ascii) (pieces : list string) :
  pieces <> [] ->
  Forall (fun p => smem c p = false) pieces ->
  split_on c (join (str1 c) pieces) = pieces.
Proof.
  induction pieces as [|p rest IH]; intros Hne Hall; [contradiction|].
  inversion Hall as [|? ? Hp Hrest]; subst.
  destruct rest as [|q rest].
  - simpl. now apply split_on_absent.
  - change (join (str1 c) (p :: q :: rest))
      with (p ++ String c (join (str1 c) (q :: rest))).
    rewrite split_on_app by assumption. f_equal.
    apply IH; [discriminate | assumption].
Qed.

Lemma urlencode_fields (params : dict) :
  urlencode params = join "&" (map query_field params).
Proof.
  unfold urlencode. f_equal. apply map_ext. now intros [k v].
Qed.

Lemma quoted_no (c : ascii) (s : string) :
  quoted_char c = false -> smem c (quote_plus s) = false.
Proof.
  intros H. apply (sforall_not_mem quoted_char); auto. apply quote_plus_quoted.
Qed.

Lemma query_field_no (c : ascii) (kv : string * value) :
  quoted_char c = false -> Ascii.eqb "="%char c = false ->
  smem c (query_field kv) = false.
Proof.
  intros H E. unfold query_field.
  change ("=" ++ quote_plus (py_str (snd kv)))
    with (String "="%char (quote_plus (py_str (snd kv)))).
  rewrite smem_app, smem_cons, E.
  now rewrite !quoted_no by assumption.
Qed.

Lemma parse_qsl_field_quoted (k s : string) :
  s <> "" -> parse_qsl_field (quote_plus k ++ "=" ++ quote_plus s) = [(k, s)].
Proof.
  intros Hs. unfold parse_qsl_field.
  change (quote_plus k ++ "=" ++ quote_plus s)
    with (quote_plus k ++ String "="%char (quote_plus s)).
  rewrite partition_app by (now apply quoted_no).
  pose proof (quote_plus_nonempty s Hs) as Hq.
  destruct (quote_plus k ++ String "="%char (quote_plus s)) eqn:E.
  - now destruct (quote_plus k).
  - destruct (quote_plus s) eqn:Es; [contradiction|].
    rewrite <- Es. now rewrite !unquote_quote_plus.
Qed.

Lemma urlencode_nonempty (kv : string * value) (params : dict) :
  join "&" (map query_field (kv :: params)) <> "".
Proof.
  destruct params as [|kv' rest]; simpl; unfold query_field at 1;
    destruct (quote_plus (fst kv)); simpl; discriminate.
Qed.

Lemma parse_qsl_urlencode (params : dict) :
  (forall kv, In kv params -> py_str (snd kv) <> "") ->
  parse_qsl (urlencode params) = map (fun kv => (fst kv, py_str (snd kv))) params.
Proof.
  intros Hne. rewrite urlencode_fields. unfold parse_qsl.
  destruct params as [|kv0 params0] eqn:Ep; [reflexivity|]. rewrite <- Ep in *.
  assert (Hq : join "&" (map query_field params) <> "").
  { rewrite Ep. apply urlencode_nonempty. }
  destruct (join "&" (map query_field params)) eqn:Ej; [contradiction|].
  rewrite <- Ej. clear Ej Hq.
  change "&" with (str1 "&"%char). rewrite split_on_join.
  - clear Ep. induction params as [|[k v] rest IH]; [reflexivity|].
    simpl. unfold query_field at 1. simpl fst. simpl snd.
    rewrite parse_qsl_field_quoted by (apply (Hne (k, v)); now left).
    simpl. f_equal. apply IH. intros kv Hkv. apply Hne. now right.
  - rewrite Ep. discriminate.
  - apply Forall_forall. intros p Hp. apply in_map_iff in Hp.
    destruct Hp as [kv [<- _]]. now apply query_field_no.
Qed.

Lemma assoc_none (k : string) (l : list (string * string)) :
  existsb (String.eqb k) (map fst l) = false -> assoc k l = None.
Proof.
  induction l as [|[k' v] r IH]; simpl; auto.
  intros H. apply orb_false_iff in H. destruct H as [Hk Hr].
  rewrite String.eqb_sym, Hk. now apply IH.
Qed.

Lemma qs_add_fresh (name v : string) (d : list (string * list string)) :
  existsb (String.eqb name) (map fst d) = false ->
  qs_add name v d = (d ++ [(name, [v])])%list.
Proof.
  induction d as [|[n vs] r IH]; simpl; auto.
  intros H. apply orb_false_iff in H. destruct H as [Hn Hr].
  rewrite String.eqb_sym, Hn. now rewrite IH.
Qed.

Lemma existsb_app_false (k : string) (l1 l2 : list string) :
  existsb (String.eqb k) l1 = false -> existsb (String.eqb k) l2 = false ->
  existsb (String.eqb k) (l1 ++ l2) = false.
Proof. intros H1 H2. now rewrite existsb_app, H1, H2. Qed.

Lemma parse_qs_from (pairs : list (string * string)) (acc : list (string * list string)) :
  nodupb (map fst pairs) = true ->
  (forall k, existsb (String.eqb k) (map fst pairs) = true ->
             existsb (String.eqb k) (map fst acc) = false) ->
  fold_left (fun d nv => qs_add (fst nv) (snd nv) d) pairs acc
  = (acc ++ map (fun kv => (fst kv, [snd kv])) pairs)%list.
Proof.
  revert acc. induction pairs as [|[k s] rest IH]; intros acc Hnd Hfresh; simpl.
  - now rewrite app_nil_r.
  - simpl in Hnd. apply andb_true_iff in Hnd. destruct Hnd as [Hk Hrest].
    apply negb_true_iff in Hk.
    rewrite qs_add_fresh.
    + rewrite IH; auto.
      * now rewrite <- app_assoc.
      * intros k' Hk'. rewrite map_app. apply existsb_app_false.
        -- apply Hfresh. simpl. rewrite Hk'. apply orb_true_r.
        -- simpl. rewrite orb_false_r.
           destruct (String.eqb k' k) eqn:E; auto.
           apply String.eqb_eq in E. subst k'. congruence.
    + apply Hfresh. simpl. now rewrite String.eqb_refl.
Qed.

Lemma parse_qs_distinct (qs : string) :
  nodupb (map fst (parse_qsl qs)) = true ->
  parse_qs qs = map (fun kv => (fst kv, [snd kv])) (parse_qsl qs).
Proof.
  intros H. unfold parse_qs. rewrite parse_qs_from; auto.
Qed.

Lemma dict_get_fold_pairs (pairs : list (string * string)) (base : dict) (k : string) :
  nodupb (map fst pairs) = true ->
  dict_get k (fold_left (fun res kv => dict_set (fst kv) (VStr (snd kv)) res) pairs base)
  = match assoc k pairs with
    | Some s => Some (VStr s)
    | None => dict_get k base
    end.
Proof.
  revert base. induction pairs as [|[k' s] rest IH]; intros base Hnd; simpl; auto.
  simpl in Hnd. apply andb_true_iff in Hnd. destruct Hnd as [Hk Hrest].
  apply negb_true_iff in Hk.
  rewrite IH by assumption.
  destruct (String.eqb k' k) eqn:E.
  - apply String.eqb_eq in E. subst k'.
    rewrite assoc_none by assumption. apply dict_get_set_same.
  - destruct (assoc k rest); auto.
    apply dict_get_set_other. now apply String.eqb_neq.
Qed.

Lemma assoc_map_py_str (k : string) (params : dict) :
  assoc k (map (fun kv => (fst kv, py_str (snd kv))) params)
  = option_map py_str (dict_get k params).
Proof.
  induction params as [|[k' v] r IH]; simpl; auto.
  now destruct (String.eqb k' k).
Qed.

Lemma keys_dict_set (k : string) (v : value) (d : dict) :
  keys (dict_set k v d) = if dict_has k d then keys d else (keys d ++ [k])%list.
Proof.
  unfold dict_has, keys. induction d as [|[k' v'] r IH]; simpl; auto.
  destruct (String.eqb k' k) eqn:E; simpl; auto.
  rewrite IH. now destruct (dict_get k r).
Qed.

Lemma dict_has_keys (k : string) (d : dict) :
  dict_has k d = existsb (String.eqb k) (keys d).
Proof.
  unfold dict_has, keys. induction d as [|[k' v'] r IH]; simpl; auto.
  rewrite (String.eqb_sym k k'). destruct (String.eqb k' k); auto.
Qed.

Lemma nodupb_snoc (l : list string) (k : string) :
  nodupb l = true -> existsb (String.eqb k) l = false -> nodupb (l ++ [k]) = true.
Proof.
  induction l as [|x l IH]; simpl; auto.
  intros H Hk. apply andb_true_iff in H. destruct H as [Hx Hl].
  apply orb_false_iff in Hk. destruct Hk as [Hkx Hkl].
  rewrite IH by assumption. rewrite andb_true_r.
  apply negb_true_iff. apply negb_true_iff in Hx.
  rewrite existsb_app, Hx. simpl. rewrite orb_false_r.
  now rewrite String.eqb_sym.
Qed.

Lemma nodupb_dict_set (k : string) (v : value) (d : dict) :
  nodupb (keys d) = true -> nodupb (keys (dict_set k v d)) = true.
Proof.
  intros H. rewrite keys_dict_set.
  destruct (dict_has k d) eqn:E; auto.
  apply nodupb_snoc; auto. now rewrite <- dict_has_keys.
Qed.

Lemma nodupb_vless_query_params (config : dict) :
  nodupb (keys (vless_query_params config)) = true.
Proof.
  unfold vless_query_params.
  assert (H : forall fields acc, nodupb (keys acc) = true ->
            nodupb (keys (fold_left
              (fun qp key =>
                 match dict_get key config with
                 | Some v =>
                     if (truthy v && negb (eq_str v ""))%bool then dict_set key v qp else qp
                 | None => qp
                 end) fields acc)) = true).
  { induction fields as [|f r IH]; intros acc Hacc; simpl; auto.
    apply IH. destruct (dict_get f config) as [v|]; auto.
    destruct (truthy v && negb (eq_str v ""))%bool; auto.
    now apply nodupb_dict_set. }
  now apply H.
Qed.

(** ** Properties: decimal text *)

Ltac digit_value :=
  match goal with
  | |- context [digit_val ?c] =>
      let v := eval vm_compute in (digit_val c) in change (digit_val c) with v
  end.

Lemma digits_of_uint_acc (d : Decimal.uint) (acc : positive) :
  Z_of_digits_from (Zpos acc) (NilEmpty.string_of_uint d) = Zpos (Pos.of_uint_acc d acc).
Proof.
  revert acc. induction d; intros acc;
    cbn [NilEmpty.string_of_uint Pos.of_uint_acc Z_of_digits_from]; auto;
    rewrite <- IHd; f_equal; digit_value; lia.
Qed.

Lemma digits_of_uint (d : Decimal.uint) :
  Z_of_digits (NilEmpty.string_of_uint d) = Z.of_N (Pos.of_uint d).
Proof.
  unfold Z_of_digits. induction d;
    cbn [NilEmpty.string_of_uint Pos.of_uint Z_of_digits_from]; auto;
    digit_value; try exact IHd; apply digits_of_uint_acc.
Qed.

Lemma digits_of_uint_are_digits (d : Decimal.uint) :
  sforall is_digit (NilEmpty.string_of_uint d) = true.
Proof. induction d; simpl; auto. Qed.

Lemma string_of_Z_pos (p : positive) :
  string_of_Z (Zpos p) = NilEmpty.string_of_uint (Pos.to_uint p).
Proof.
  unfold string_of_Z. simpl. unfold NilZero.string_of_uint.
  pose proof (DecimalPos.Unsigned.to_uint_nonnil p) as H.
  now destruct (Pos.to_uint p).
Qed.

Lemma string_of_Z_digits (z : Z) :
  0 <= z -> sforall is_digit (string_of_Z z) = true /\ string_of_Z z <> "".
Proof.
  intros Hz. destruct z as [|p|p]; [split; [reflexivity|discriminate] | | lia].
  rewrite string_of_Z_pos. split; [apply digits_of_uint_are_digits|].
  pose proof (DecimalPos.Unsigned.to_uint_nonnil p) as H.
  destruct (Pos.to_uint p); try discriminate. contradiction.
Qed.

(** Reading back the decimal text of a natural number. *)
Lemma Z_of_digits_string_of_Z (z : Z) : 0 <= z -> Z_of_digits (string_of_Z z) = z.
Proof.
  intros Hz. destruct z as [|p|p]; [reflexivity | | lia].
  rewrite string_of_Z_pos, digits_of_uint, DecimalPos.Unsigned.of_to. reflexivity.
Qed.

Lemma isdigit_string_of_Z (z : Z) : 0 <= z -> isdigit (string_of_Z z) = true.
Proof.
  intros Hz. destruct (string_of_Z_digits z Hz) as [Hd Hne].
  unfold isdigit. destruct (string_of_Z z); [contradiction | exact Hd].
Qed.

(** ** Properties: URLs of scheme B *)

Lemma lstrip_chars_head (p : ascii -> bool) (c : ascii) (s : string) :
  p c = false -> lstrip_chars p (String c s) = String c s.
Proof. intros H. simpl. now rewrite H. Qed.

Lemma authority_char_classes (c : ascii) :
  authority_char c = true ->
  is_ascii c = true /\ negb (is_netloc_end c) = true /\ no_tab_cr_lf c = true.
Proof. each_ascii c; intros H; try discriminate H; repeat split; reflexivity. Qed.

Lemma netloc_char_authority (c : ascii) : netloc_char c = true -> authority_char c = true.
Proof. each_ascii c; intros H; try discriminate H; reflexivity. Qed.

Lemma netloc_char_classes (c : ascii) :
  netloc_char c = true ->
  is_ascii c = true /\ negb (is_netloc_end c) = true /\ no_tab_cr_lf c = true.
Proof. each_ascii c; intros H; try discriminate H; repeat split; reflexivity. Qed.

Lemma digit_classes (c : ascii) :
  is_digit c = true ->
  is_ascii c = true /\ negb (is_netloc_end c) = true /\ no_tab_cr_lf c = true
  /\ netloc_char c = true.
Proof. each_ascii c; intros H; try discriminate H; repeat split; reflexivity. Qed.

Lemma query_classes (c : ascii) :
  query_char c = true ->
  no_tab_cr_lf c = true /\ (is_ascii c && negb (is_space c))%bool = true.
Proof. each_ascii c; intros H; try discriminate H; repeat split; reflexivity. Qed.

Lemma quoted_char_query (c : ascii) : quoted_char c = true -> query_char c = true.
Proof. each_ascii c; intros H; try discriminate H; reflexivity. Qed.

Lemma urlencode_query_chars (params : dict) :
  sforall query_char (urlencode params) = true.
Proof.
  rewrite urlencode_fields.
  assert (Hf : forall kv, sforall query_char (query_field kv) = true).
  { intros kv. unfold query_field.
    change ("=" ++ quote_plus (py_str (snd kv)))
      with (String "="%char (quote_plus (py_str (snd kv)))).
    rewrite sforall_app. cbn [sforall].
    rewrite !(sforall_impl quoted_char query_char _ quoted_char_query)
      by apply quote_plus_quoted.
    reflexivity. }
  induction params as [|kv rest IH]; [reflexivity|].
  destruct rest as [|kv' rest'].
  - simpl. apply Hf.
  - change (join "&" (map query_field (kv :: kv' :: rest')))
      with (query_field kv ++ String "&"%char (join "&" (map query_field (kv' :: rest')))).
    rewrite sforall_app, Hf. cbn [sforall]. now rewrite IH.
Qed.

Section UrlOfParts.

Variables nl qry frag : string.
Hypothesis Hnl : sforall authority_char nl = true.
Hypothesis Hqry : sforall query_char qry = true.
Hypothesis Hfrag : sforall label_char frag = true.

Lemma vless_url_no_tab_cr_lf : sforall no_tab_cr_lf (vless_url nl qry frag) = true.
Proof.
  unfold vless_url.
  assert (H1 : sforall no_tab_cr_lf nl = true).
  { apply (sforall_impl authority_char); auto. intros c Hc. now apply authority_char_classes. }
  assert (H2 : sforall no_tab_cr_lf qry = true).
  { apply (sforall_impl query_char); auto. intros c Hc. now apply query_classes. }
  change ("vless://" ++ nl ++ (if String.eqb qry "" then "" else "?" ++ qry)
          ++ (if String.eqb frag "" then "" else "#" ++ frag))
    with ("vless://" ++ (nl ++ (if String.eqb qry "" then "" else "?" ++ qry)
          ++ (if String.eqb frag "" then "" else "#" ++ frag))).
  rewrite sforall_app. rewrite !sforall_app, H1.
  assert (H3 : sforall no_tab_cr_lf frag = true) by exact Hfrag.
  destruct (String.eqb qry ""); destruct (String.eqb frag ""); simpl;
    rewrite ?H2, ?H3; reflexivity.
Qed.

Lemma urlparse_vless_url :
  urlparse (vless_url nl qry frag)
  = Ok {| scheme := "vless"; netloc := nl; path := ""; query := qry; fragment := frag |}.
Proof.
  pose proof vless_url_no_tab_cr_lf as Hclean.
  unfold urlparse.
  assert (E0 : lstrip_chars is_c0_or_space (vless_url nl qry frag) = vless_url nl qry frag)
    by reflexivity.
  rewrite E0.
  rewrite (replace_char_absent (chr 9))
    by (apply (sforall_not_mem no_tab_cr_lf); [reflexivity | exact Hclean]).
  rewrite (replace_char_absent (chr 13))
    by (apply (sforall_not_mem no_tab_cr_lf); [reflexivity | exact Hclean]).
  rewrite (replace_char_absent (chr 10))
    by (apply (sforall_not_mem no_tab_cr_lf); [reflexivity | exact Hclean]).
  set (rest := nl ++ (if String.eqb qry "" then "" else "?" ++ qry)
               ++ (if String.eqb frag "" then "" else "#" ++ frag)).
  change (vless_url nl qry frag) with ("vless" ++ String ":"%char ("//" ++ rest)).
  rewrite partition_app by reflexivity.
  cbv beta iota zeta.
  change ((is_ascii "v" && is_alpha "v" && sforall is_scheme_char "vless")%bool) with true.
  cbv beta iota zeta.
  rewrite startswith_app.
  change (lower "vless") with "vless".
  cbv beta iota zeta.
  change (drop 2 ("//" ++ rest)) with rest.
  unfold rest.
  rewrite span_app; cycle 1.
  { apply (sforall_impl authority_char); auto. intros c Hc. now apply authority_char_classes. }
  { destruct (String.eqb qry ""); destruct (String.eqb frag ""); simpl; auto. }
  rewrite (sforall_not_mem authority_char "["%char nl) by (reflexivity || assumption).
  rewrite (sforall_not_mem authority_char "]"%char nl) by (reflexivity || assumption).
  simpl bind.
  assert (Hq : smem "#"%char (if String.eqb qry "" then "" else "?" ++ qry) = false).
  { destruct (String.eqb qry ""); [reflexivity|]. simpl.
    apply (sforall_not_mem query_char); [reflexivity | assumption]. }
  assert (Hascii : isascii nl = true).
  { apply (sforall_impl authority_char); auto. intros c Hc. now apply authority_char_classes. }
  unfold checknetloc. rewrite Hascii, orb_true_r. simpl bind.
  destruct (String.eqb frag "") eqn:Ef.
  - apply String.eqb_eq in Ef. subst frag. rewrite sapp_nil_r.
    rewrite (partition_none "#"%char) by exact Hq.
    destruct (String.eqb qry "") eqn:Eq.
    + apply String.eqb_eq in Eq. subst qry. reflexivity.
    + reflexivity.
  - change ((if String.eqb qry "" then "" else "?" ++ qry) ++ "#" ++ frag)
      with ((if String.eqb qry "" then "" else "?" ++ qry) ++ String "#"%char frag).
    rewrite partition_app by exact Hq.
    destruct (String.eqb qry "") eqn:Eq.
    + apply String.eqb_eq in Eq. subst qry. reflexivity.
    + reflexivity.
Qed.

End UrlOfParts.

Section NetlocOfParts.

Variables (i a : string) (z : Z) (qry frag : string).
Hypothesis Hi : sforall netloc_char i = true.
Hypothesis Ha : sforall netloc_char a = true.
Hypothesis Ha_nonempty : a <> "".
Hypothesis Ha_lower : sforall (fun c => negb (is_upper c)) a = true.
Hypothesis Hz : 0 <= z <= 65535.

Lemma port_text_chars : sforall netloc_char (string_of_Z z) = true.
Proof.
  destruct (string_of_Z_digits z) as [Hd _]; [lia|].
  apply (sforall_impl is_digit); auto. intros c Hc. now apply digit_classes.
Qed.

Lemma username_of_parts :
  username {| scheme := "vless"; netloc := i ++ "@" ++ a ++ ":" ++ string_of_Z z;
              path := ""; query := qry; fragment := frag |} = Some i.
Proof.
  unfold username, py_rpartition, py_partition. cbn [netloc].
  change (i ++ "@" ++ a ++ ":" ++ string_of_Z z)
    with (i ++ String "@"%char (a ++ String ":"%char (string_of_Z z))).
  rewrite rpartition_app.
  - rewrite (partition_none ":"%char i); auto.
    apply (sforall_not_mem netloc_char); [reflexivity | assumption].
  - rewrite smem_app, smem_cons.
    rewrite (sforall_not_mem netloc_char "@"%char a) by (reflexivity || assumption).
    rewrite (sforall_not_mem netloc_char "@"%char (string_of_Z z))
      by (reflexivity || apply port_text_chars).
    reflexivity.
Qed.

Lemma hostinfo_of_parts :
  hostinfo {| scheme := "vless"; netloc := i ++ "@" ++ a ++ ":" ++ string_of_Z z;
              path := ""; query := qry; fragment := frag |}
  = (a, Some (string_of_Z z)).
Proof.
  unfold hostinfo, py_rpartition, py_partition. cbn [netloc].
  change (i ++ "@" ++ a ++ ":" ++ string_of_Z z)
    with (i ++ String "@"%char (a ++ String ":"%char (string_of_Z z))).
  rewrite rpartition_app.
  - rewrite (partition_none "["%char).
    + rewrite partition_app
        by (apply (sforall_not_mem netloc_char); [reflexivity | assumption]).
      destruct (string_of_Z_digits z) as [_ Hne]; [lia|].
      destruct (string_of_Z z); [contradiction | reflexivity].
    + rewrite smem_app, smem_cons.
      rewrite (sforall_not_mem netloc_char "["%char a) by (reflexivity || assumption).
      rewrite (sforall_not_mem netloc_char "["%char (string_of_Z z))
        by (reflexivity || apply port_text_chars).
      reflexivity.
  - rewrite smem_app, smem_cons.
    rewrite (sforall_not_mem netloc_char "@"%char a) by (reflexivity || assumption).
    rewrite (sforall_not_mem netloc_char "@"%char (string_of_Z z))
      by (reflexivity || apply port_text_chars).
    reflexivity.
Qed.

Lemma hostname_of_parts :
  hostname {| scheme := "vless"; netloc := i ++ "@" ++ a ++ ":" ++ string_of_Z z;
              path := ""; query := qry; fragment := frag |} = Some a.
Proof.
  unfold hostname. rewrite hostinfo_of_parts. cbn [fst].
  destruct a as [|c a']; [contradiction|].
  set (host := String c a') in *.
  destruct (partition "%"%char host) as [[h zone]|] eqn:P.
  - apply partition_spec in P. destruct P as [Pa _].
    rewrite lower_fixed.
    + now rewrite Pa.
    + rewrite Pa, sforall_app in Ha_lower.
      now apply andb_true_iff in Ha_lower.
  - now rewrite lower_fixed.
Qed.

Lemma port_of_parts :
  port {| scheme := "vless"; netloc := i ++ "@" ++ a ++ ":" ++ string_of_Z z;
          path := ""; query := qry; fragment := frag |} = Ok (Some z).
Proof.
  unfold port. rewrite hostinfo_of_parts. cbn [snd].
  rewrite isdigit_string_of_Z by lia.
  assert (Hascii : isascii (string_of_Z z) = true).
  { destruct (string_of_Z_digits z) as [Hd _]; [lia|].
    apply (sforall_impl is_digit); auto. intros c Hc. now apply digit_classes. }
  rewrite Hascii, Z_of_digits_string_of_Z by lia. simpl andb.
  destruct Hz as [H0 H1].
  apply Z.leb_le in H0. apply Z.leb_le in H1. now rewrite H0, H1.
Qed.

End NetlocOfParts.

Lemma In_dict_get (k : string) (v : value) (d : dict) :
  nodupb (keys d) = true -> In (k, v) d -> dict_get k d = Some v.
Proof.
  induction d as [|[k' v'] rest IH]; simpl; intros Hnd Hin; [contradiction|].
  apply andb_true_iff in Hnd. destruct Hnd as [Hk Hrest].
  destruct Hin as [E|Hin].
  - injection E as -> ->. now rewrite String.eqb_refl.
  - destruct (String.eqb k' k) eqn:E.
    + apply String.eqb_eq in E. subst k'. exfalso.
      apply negb_true_iff in Hk.
      assert (Hex : existsb (String.eqb k) (keys rest) = true).
      { apply existsb_eqb_In. unfold keys. apply in_map_iff. now exists (k, v). }
      unfold keys in *. congruence.
    + now apply IH.
Qed.

Lemma fold_left_map_fun {A B C : Type} (f : A -> C -> A) (g : B -> C) (l : list B) (x : A) :
  fold_left f (map g l) x = fold_left (fun acc y => f acc (g y)) l x.
Proof. revert x. induction l as [|y l IH]; intros x; simpl; auto. Qed.

Lemma fold_left_ext_fun {A B : Type} (f g : A -> B -> A) (l : list B) (x : A) :
  (forall acc y, f acc y = g acc y) -> fold_left f l x = fold_left g l x.
Proof.
  intros H. revert x. induction l as [|y l IH]; intros x; simpl; auto.
  now rewrite H, IH.
Qed.

Lemma strip_vless_url (nl qry t : string) :
  String.eqb qry "" = false -> sforall query_char qry = true -> rstrip t = t ->
  strip (vless_url nl qry t) = vless_url nl qry t.
Proof.
  intros Hne Hq Ht. unfold strip.
  assert (Hl : lstrip (vless_url nl qry t) = vless_url nl qry t).
  { unfold vless_url.
    change ("vless://" ++ nl ++ (if String.eqb qry "" then "" else "?" ++ qry)
            ++ (if String.eqb t "" then "" else "#" ++ t))
      with (String "v"%char ("less://" ++ nl ++ (if String.eqb qry "" then "" else "?" ++ qry)
            ++ (if String.eqb t "" then "" else "#" ++ t))).
    now apply lstrip_ascii_head. }
  rewrite Hl. unfold vless_url. rewrite Hne.
  assert (Hqne : qry <> "") by now apply String.eqb_neq.
  assert (Hqr : rstrip qry = qry).
  { apply rstrip_ascii. apply (sforall_impl query_char); auto.
    intros c Hc. now apply query_classes. }
  destruct (String.eqb t "") eqn:Et.
  - rewrite sapp_nil_r.
    change ("vless://" ++ nl ++ "?" ++ qry) with ("vless://" ++ (nl ++ String "?"%char qry)).
    rewrite <- sapp_assoc. now apply rstrip_app.
  - apply String.eqb_neq in Et.
    change ("vless://" ++ nl ++ ("?" ++ qry) ++ "#" ++ t)
      with ("vless://" ++ (nl ++ (("?" ++ qry) ++ String "#"%char t))).
    rewrite <- !sapp_assoc. now apply rstrip_app.
Qed.

Lemma decode_vless_line (rest : string) :
  strip ("vless://" ++ rest) = "vless://" ++ rest ->
  decode_vmess_or_vless_line ("vless://" ++ rest)
  = (obj <- parse_vless_url ("vless://" ++ rest) ;;
     Ok (dict_set "_type" (VStr "vless") obj)).
Proof.
  intros Hs. unfold decode_vmess_or_vless_line. rewrite Hs.
  rewrite startswith_app. reflexivity.
Qed.

Lemma bind_ok {A B : Type} (x : A) (k : A -> result B) : bind (Ok x) k = k x.
Proof. reflexivity. Qed.

Lemma urlunparse_vless (nl qry t : string) :
  String.eqb nl "" = false -> String.eqb qry "" = false ->
  urlunparse "vless" nl qry (VStr t) = Ok (vless_url nl qry t).
Proof.
  intros Hnl Hq. unfold urlunparse, vless_url. rewrite bind_ok.
  rewrite Hnl, Hq. f_equal.
  change (truthy (VStr t)) with (negb (String.eqb t "")).
  destruct (String.eqb t ""); simpl; rewrite ?sapp_assoc, ?sapp_nil_r; reflexivity.
Qed.

Lemma encode_vless_url_dict (d : dict) (i a p t : string) :
  dict_get "id" d = Some (VStr i) ->
  dict_get "add" d = Some (VStr a) ->
  dict_get "port" d = Some (VStr p) ->
  dict_get "ps" d = Some (VStr t) ->
  encode_vless_url (VDict d)
  = urlunparse "vless" (i ++ "@" ++ a ++ ":" ++ p) (urlencode (vless_query_params d))
      (VStr t).
Proof.
  intros Hi Ha Hp Ht. unfold encode_vless_url, py_getitem, dict_item, dict_get_default.
  rewrite Hi, Ha, Hp, Ht. rewrite !bind_ok. reflexivity.
Qed.

Lemma parse_vless_url_parts (url : string) (parsed : ParseResult) (u h : string) (p : Z) :
  urlparse url = Ok parsed ->
  port parsed = Ok (Some p) ->
  username parsed = Some u ->
  hostname parsed = Some h ->
  parse_vless_url url
  = Ok (fold_left
          (fun res kv =>
             match kv with
             | (key, [v]) => dict_set key (VStr v) res
             | (key, vs) => dict_set key (VList (map VStr vs)) res
             end)
          (parse_qs (query parsed))
          [("id", VStr u); ("add", VStr h); ("port", VStr (string_of_Z p));
           ("ps", VStr (fragment parsed))]).
Proof.
  intros Hu Hp Hn Hh. unfold parse_vless_url.
  rewrite Hu, bind_ok, Hp, bind_ok, Hn, Hh. reflexivity.
Qed.

Lemma fold_parse_qs_urlencode (params base : dict) :
  (forall kv, In kv params -> py_str (snd kv) <> "") ->
  nodupb (keys params) = true ->
  fold_left
    (fun res (kv : string * list string) =>
       match kv with
       | (key, [v]) => dict_set key (VStr v) res
       | (key, vs) => dict_set key (VList (map VStr vs)) res
       end)
    (parse_qs (urlencode params)) base
  = fold_left (fun res kv => dict_set (fst kv) (VStr (py_str (snd kv))) res) params base.
Proof.
  intros Hne Hnd.
  assert (Hqsl : parse_qsl (urlencode params)
                 = map (fun kv => (fst kv, py_str (snd kv))) params)
    by now apply parse_qsl_urlencode.
  rewrite parse_qs_distinct.
  - rewrite Hqsl, !fold_left_map_fun. apply fold_left_ext_fun.
    intros acc [k v]. reflexivity.
  - rewrite Hqsl, map_map. exact Hnd.
Qed.

Lemma decode_vless_url (nl qry frag : string) (obj : dict) :
  strip (vless_url nl qry frag) = vless_url nl qry frag ->
  parse_vless_url (vless_url nl qry frag) = Ok obj ->
  decode_vmess_or_vless_line (vless_url nl qry frag)
  = Ok (dict_set "_type" (VStr "vless") obj).
Proof.
  intros Hs Hp. unfold vless_url in *.
  rewrite decode_vless_line by exact Hs.
  rewrite Hp. reflexivity.
Qed.

Lemma dict_get_absent (k : string) (d : dict) :
  existsb (String.eqb k) (keys d) = false -> dict_get k d = None.
Proof.
  intros H. pose proof (dict_has_keys k d) as Hh. rewrite H in Hh.
  unfold dict_has in Hh. now destruct (dict_get k d).
Qed.

Lemma dict_get_fold_text (params base : dict) (k : string) :
  nodupb (keys params) = true ->
  dict_get k (fold_left (fun res kv => dict_set (fst kv) (VStr (py_str (snd kv))) res)
                params base)
  = match dict_get k params with
    | Some v => Some (VStr (py_str v))
    | None => dict_get k base
    end.
Proof.
  revert base. induction params as [|[k' v'] rest IH]; intros base Hnd; [reflexivity|].
  cbn [keys map fst nodupb] in Hnd. apply andb_true_iff in Hnd. destruct Hnd as [Hk Hrest].
  apply negb_true_iff in Hk.
  cbn [fold_left fst snd dict_get]. rewrite IH by exact Hrest.
  rewrite dict_get_set.
  destruct (String.eqb k' k) eqn:E.
  - apply String.eqb_eq in E. subst k'.
    now rewrite (dict_get_absent k rest Hk).
  - reflexivity.
Qed.

Lemma dict_get_decoded_vless (i a p t : string) (params : dict) (k : string) :
  nodupb (keys params) = true ->
  dict_get k (decoded_vless i a p t params)
  = if String.eqb "_type" k then Some (VStr "vless")
    else match dict_get k params with
         | Some v => Some (VStr (py_str v))
         | None => dict_get k [("id", VStr i); ("add", VStr a); ("port", VStr p);
                               ("ps", VStr t)]
         end.
Proof.
  intros Hnd. unfold decoded_vless. rewrite dict_get_set.
  now rewrite dict_get_fold_text.
Qed.

Ltac closed_tests :=
  repeat match goal with
    | |- context [String.eqb ?x ?y] =>
        let b := eval vm_compute in (String.eqb x y) in
        change (String.eqb x y) with b
    | H : context [String.eqb ?x ?y] |- _ =>
        let b := eval vm_compute in (String.eqb x y) in
        change (String.eqb x y) with b in H
    | |- context [existsb (String.eqb ?x) ?l] =>
        let b := eval vm_compute in (existsb (String.eqb x) l) in
        change (existsb (String.eqb x) l) with b
    | |- context [dict_get_default ?x ?d ?l] =>
        let b := eval vm_compute in (dict_get_default x d l) in
        change (dict_get_default x d l) with b
    | H : context [dict_has ?x ?l] |- _ =>
        let b := eval vm_compute in (dict_has x l) in
        change (dict_has x l) with b in H
    | |- context [dict_get ?x (?kv :: ?l)] =>
        let b := eval cbn [dict_get String.eqb Ascii.eqb Bool.eqb] in (dict_get x (kv :: l)) in
        change (dict_get x (kv :: l)) with b
    end;
  cbn [andb]; cbv iota.

Section VlessRoundTrip.

Variables (r n : dict) (i a t : string) (z : Z).

Hypothesis Hn : n = normalize_vless_entry r.
Hypothesis Hid : dict_get "id" n = Some (VStr i).
Hypothesis Hi : sforall netloc_char i = true.
Hypothesis Hadd : dict_get "add" n = Some (VStr a).
Hypothesis Ha_nonempty : a <> "".
Hypothesis Ha : sforall netloc_char a = true.
Hypothesis Ha_lower : sforall (fun c => negb (is_upper c)) a = true.
Hypothesis Hport : dict_get "port" n = Some (VStr (string_of_Z z)).
Hypothesis Hz : 0 <= z <= 65535.
Hypothesis Hps : dict_get "ps" n = Some (VStr t).
Hypothesis Ht : sforall label_char t = true.
Hypothesis Ht_clean : rstrip t = t.
Hypothesis Hfields : forall k, In k VLESS_QUERY_PARAMS -> vless_query_field_ok n k.

Lemma vless_param_text (kv : string * value) :
  In kv (vless_query_params n) ->
  In (fst kv) VLESS_QUERY_PARAMS /\ dict_get (fst kv) n = Some (snd kv)
  /\ py_str (snd kv) <> "".
Proof.
  destruct kv as [k v]. intros Hin. cbn [fst snd].
  apply In_dict_get in Hin; [|apply nodupb_vless_query_params].
  rewrite dict_get_vless_query_params in Hin.
  destruct (dict_get k n) as [w|] eqn:Ek; [|discriminate].
  destruct (existsb (String.eqb k) VLESS_QUERY_PARAMS) eqn:Ex; [|discriminate].
  destruct (truthy w) eqn:Tw; [|discriminate].
  injection Hin as ->.
  assert (Hk : In k VLESS_QUERY_PARAMS).
  { apply existsb_exists in Ex. destruct Ex as [x [Hx E]].
    apply String.eqb_eq in E. now subst. }
  split; [exact Hk|]. split; [reflexivity|].
  specialize (Hfields k Hk). unfold vless_query_field_ok in Hfields.
  destruct (String.eqb k "allowInsecure").
  - rewrite Ek in Hfields. injection Hfields as ->. cbn [py_str]. discriminate.
  - destruct Hfields as [s [Hs _]]. rewrite Ek in Hs. injection Hs as ->.
    cbn [py_str]. intros ->. discriminate Tw.
Qed.

Lemma vless_query_nonempty : String.eqb (urlencode (vless_query_params n)) "" = false.
Proof.
  assert (Hai : dict_get "allowInsecure" (vless_query_params n) = Some (VInt 1)).
  { rewrite dict_get_vless_query_params.
    pose proof (Hfields "allowInsecure") as H. unfold vless_query_field_ok in H.
    rewrite String.eqb_refl in H. rewrite H; [reflexivity|].
    unfold VLESS_QUERY_PARAMS. simpl. tauto. }
  rewrite urlencode_fields.
  destruct (vless_query_params n) as [|kv rest]; [discriminate|].
  apply String.eqb_neq. apply urlencode_nonempty.
Qed.

Lemma encode_vless_url_ready :
  encode_vless_url (VDict n)
  = Ok (vless_url (i ++ "@" ++ a ++ ":" ++ string_of_Z z)
          (urlencode (vless_query_params n)) t).
Proof.
  rewrite (encode_vless_url_dict n i a (string_of_Z z) t) by assumption.
  apply urlunparse_vless.
  - change (i ++ "@" ++ a ++ ":" ++ string_of_Z z)
      with (i ++ String "@"%char (a ++ ":" ++ string_of_Z z)).
    apply eqb_app_nonempty.
  - apply vless_query_nonempty.
Qed.

Lemma netloc_authority :
  sforall authority_char (i ++ "@" ++ a ++ ":" ++ string_of_Z z) = true.
Proof.
  change (i ++ "@" ++ a ++ ":" ++ string_of_Z z)
    with (i ++ String "@"%char (a ++ String ":"%char (string_of_Z z))).
  rewrite sforall_app. cbn [sforall]. rewrite sforall_app. cbn [sforall].
  rewrite (sforall_impl netloc_char authority_char i netloc_char_authority Hi).
  rewrite (sforall_impl netloc_char authority_char a netloc_char_authority Ha).
  rewrite (sforall_impl netloc_char authority_char _ netloc_char_authority
             (port_text_chars z Hz)).
  reflexivity.
Qed.

Lemma parse_vless_url_ready :
  parse_vless_url (vless_url (i ++ "@" ++ a ++ ":" ++ string_of_Z z)
                     (urlencode (vless_query_params n)) t)
  = Ok (fold_left (fun res kv => dict_set (fst kv) (VStr (py_str (snd kv))) res)
          (vless_query_params n)
          [("id", VStr i); ("add", VStr a); ("port", VStr (string_of_Z z)); ("ps", VStr t)]).
Proof.
  rewrite (parse_vless_url_parts _ _ i a z
             (urlparse_vless_url _ _ _ netloc_authority (urlencode_query_chars _) Ht)
             (port_of_parts i a z _ _ Ha Hz)
             (username_of_parts i a z _ _ Hi Ha Hz)
             (hostname_of_parts i a z _ _ Ha Ha_nonempty Ha_lower Hz)).
  f_equal. apply fold_parse_qs_urlencode.
  - intros kv Hkv. destruct (vless_param_text kv Hkv) as [_ [_ H]]. exact H.
  - apply nodupb_vless_query_params.
Qed.

Lemma decode_vless_ready :
  decode_vmess_or_vless_line
    (vless_url (i ++ "@" ++ a ++ ":" ++ string_of_Z z)
       (urlencode (vless_query_params n)) t)
  = Ok (decoded_vless i a (string_of_Z z) t (vless_query_params n)).
Proof.
  unfold decoded_vless. apply decode_vless_url.
  - apply strip_vless_url.
    + exact vless_query_nonempty.
    + apply urlencode_query_chars.
    + exact Ht_clean.
  - exact parse_vless_url_ready.
Qed.

Lemma norm_field_decoded (k : string) (v : value) :
  In k WANTED_ORDER_VLESS -> dict_get k n = Some v ->
  norm_field DEFAULTS_IF_MISSING_VLESS
    (decoded_vless i a (string_of_Z z) t (vless_query_params n)) k = v.
Proof.
  intros Hk Hv. unfold norm_field, coerced_get.
  rewrite dict_get_decoded_vless by apply nodupb_vless_query_params.
  rewrite dict_get_vless_query_params, Hv.
  assert (Hq : In k VLESS_QUERY_PARAMS -> vless_query_field_ok n k) by apply Hfields.
  unfold vless_query_field_ok in Hq. rewrite Hv in Hq.
  cbv [WANTED_ORDER_VLESS In] in Hk.
  repeat (destruct Hk as [<-|Hk]); try contradiction;
    try (assert (Hq' := Hq ltac:(vm_compute; tauto)));
    clear Hq; closed_tests;
    try (cbn [py_str]; congruence);
    cbv iota in Hq';
    try (injection Hq' as ->; reflexivity);
    destruct Hq' as [s [Hs Hd]]; injection Hs as ->;
    (destruct s as [|c s];
     [first [reflexivity | exfalso; now apply Hd] | reflexivity]).
Qed.

Lemma normalize_decoded_vless :
  normalize_entry (decoded_vless i a (string_of_Z z) t (vless_query_params n)) = n.
Proof.
  unfold normalize_entry.
  rewrite dict_get_decoded_vless by apply nodupb_vless_query_params.
  rewrite String.eqb_refl. change (eq_str (VStr "vless") "vless") with true. cbv iota.
  rewrite normalize_vless_normal_form.
  assert (Hnf : n = normal_form WANTED_ORDER_VLESS DEFAULTS_IF_MISSING_VLESS "vless" r)
    by (rewrite Hn; apply normalize_vless_normal_form).
  rewrite Hnf at 2. unfold normal_form. f_equal.
  apply map_ext_in. intros k Hk. f_equal.
  apply norm_field_decoded; [exact Hk|].
  rewrite Hnf. apply dict_get_normal_form. now apply existsb_eqb_In.
Qed.


End VlessRoundTrip.

(** ** Properties: base64 *)

Ltac div_mod_lia := zify; Z.to_euclidean_division_equations; lia.

Lemma below_64 (n : N) :
  (n < 64)%N -> In n (map N.of_nat (seq 0 64)).
Proof.
  intros H. apply in_map_iff. exists (N.to_nat n). split; [apply N2Nat.id|].
  apply in_seq. lia.
Qed.

Lemma b64_char_classes (n : N) :
  (n < 64)%N ->
  b64_val (b64_char n) = Some n
  /\ Ascii.eqb (b64_char n) "="%char = false
  /\ (is_ascii (b64_char n) && negb (is_space (b64_char n)))%bool = true.
Proof.
  intros H. apply below_64 in H. revert n H. apply Forall_forall.
  repeat constructor.
Qed.

Lemma a2b_base64_char (quad : nat) (left : N) (pads : nat) (n : N) (r : string) :
  (n < 64)%N ->
  a2b_base64 quad left pads (String (b64_char n) r)
  = match quad with
    | 0%nat => a2b_base64 1 n 0 r
    | 1%nat =>
        t <- a2b_base64 2 (n mod 16)%N 0 r ;;
        Ok (String (chr (left * 4 + n / 16)) t)
    | 2%nat =>
        t <- a2b_base64 3 (n mod 4)%N 0 r ;;
        Ok (String (chr (left * 16 + n / 4)) t)
    | _ =>
        t <- a2b_base64 0 0%N 0 r ;;
        Ok (String (chr (left * 64 + n)) t)
    end.
Proof.
  intros H. destruct (b64_char_classes n H) as [Hv [Hp _]].
  revert Hv Hp. generalize (b64_char n) as c. intros c Hv Hp.
  cbn [a2b_base64]. rewrite Hp, Hv. reflexivity.
Qed.

Lemma string_ind3 (P : string -> Prop) :
  P "" ->
  (forall a, P (String a "")) ->
  (forall a b, P (String a (String b ""))) ->
  (forall a b c r, P r -> P (String a (String b (String c r)))) ->
  forall s, P s.
Proof.
  intros H0 H1 H2 H3. fix IH 1.
  intros [|a [|b [|c r]]]; [exact H0 | apply H1 | apply H2 | apply H3; apply IH].
Qed.

Lemma chr_code (x : N) (a : ascii) : x = code a -> chr x = a.
Proof. intros ->. apply ascii_N_embedding. Qed.

Lemma b64decode_b64encode (s : string) : b64decode (b64encode s) = Ok s.
Proof.
  unfold b64decode. induction s as [|a|a b|a b c r IH] using string_ind3.
  - reflexivity.
  - pose proof (N_ascii_bounded a) as Ha. fold (code a) in Ha.
    cbn [b64encode]. cbv zeta.
    rewrite !a2b_base64_char by div_mod_lia.
    cbn. f_equal. f_equal. apply chr_code. div_mod_lia.
  - pose proof (N_ascii_bounded a) as Ha. fold (code a) in Ha.
    pose proof (N_ascii_bounded b) as Hb. fold (code b) in Hb.
    cbn [b64encode]. cbv zeta.
    rewrite !a2b_base64_char by div_mod_lia.
    cbn. f_equal. f_equal; [|f_equal]; apply chr_code; div_mod_lia.
  - pose proof (N_ascii_bounded a) as Ha. fold (code a) in Ha.
    pose proof (N_ascii_bounded b) as Hb. fold (code b) in Hb.
    pose proof (N_ascii_bounded c) as Hc. fold (code c) in Hc.
    cbn [b64encode]. cbv zeta.
    rewrite !a2b_base64_char by div_mod_lia.
    rewrite IH, !bind_ok.
    f_equal. f_equal; [|f_equal; [|f_equal]]; apply chr_code; div_mod_lia.
Qed.

Lemma b64encode_length (s : string) : Nat.modulo (String.length (b64encode s)) 4 = 0%nat.
Proof.
  induction s as [|a|a b|a b c r IH] using string_ind3; try reflexivity.
  cbn [b64encode]. cbv zeta. cbn [String.length].
  change (S (S (S (S (String.length (b64encode r))))))
    with (4 + String.length (b64encode r))%nat.
  replace (4 + String.length (b64encode r))%nat
    with (String.length (b64encode r) + 1 * 4)%nat by lia.
  now rewrite Nat.Div0.mod_add.
Qed.

Lemma sforall_b64_char (n : N) (r : string) :
  (n < 64)%N ->
  sforall (fun c => is_ascii c && negb (is_space c))%bool (String (b64_char n) r)
  = sforall (fun c => is_ascii c && negb (is_space c))%bool r.
Proof.
  intros H. cbn [sforall].
  now rewrite (proj2 (proj2 (b64_char_classes n H))).
Qed.

Lemma b64encode_chars (s : string) :
  sforall (fun c => is_ascii c && negb (is_space c))%bool (b64encode s) = true.
Proof.
  induction s as [|a|a b|a b c r IH] using string_ind3.
  - reflexivity.
  - pose proof (N_ascii_bounded a) as Ha. fold (code a) in Ha.
    cbn [b64encode]. cbv zeta. rewrite !sforall_b64_char by div_mod_lia.
    reflexivity.
  - pose proof (N_ascii_bounded a) as Ha. fold (code a) in Ha.
    pose proof (N_ascii_bounded b) as Hb. fold (code b) in Hb.
    cbn [b64encode]. cbv zeta. rewrite !sforall_b64_char by div_mod_lia.
    reflexivity.
  - pose proof (N_ascii_bounded a) as Ha. fold (code a) in Ha.
    pose proof (N_ascii_bounded b) as Hb. fold (code b) in Hb.
    pose proof (N_ascii_bounded c) as Hc. fold (code c) in Hc.
    cbn [b64encode]. cbv zeta. rewrite !sforall_b64_char by div_mod_lia.
    rewrite IH. reflexivity.
Qed.


Lemma dict_set_same_value (k : string) (v : value) (d : dict) :
  dict_get k d = Some v -> dict_set k v d = d.
Proof.
  induction d as [|[k' v'] rest IH]; simpl; [discriminate|].
  destruct (String.eqb k' k); intros H.
  - now injection H as ->.
  - now rewrite IH.
Qed.

Lemma strip_vmess_link (payload : string) :
  strip ("vmess://" ++ b64encode payload) = "vmess://" ++ b64encode payload.
Proof.
  unfold strip.
  assert (Hl : lstrip ("vmess://" ++ b64encode payload) = "vmess://" ++ b64encode payload)
    by now apply (lstrip_ascii_head "v"%char).
  rewrite Hl. apply rstrip_ascii.
  rewrite sforall_app, b64encode_chars. reflexivity.
Qed.

Lemma decode_vmess_link (obj : value) (d : dict) :
  utf8_valid (json_dumps obj) = true ->
  json_loads (json_dumps obj) = Ok (VDict d) ->
  decode_vmess_or_vless_line (vmess_link obj)
  = Ok (dict_set "_type" (VStr "vmess") d).
Proof.
  intros Hutf Hjson. unfold vmess_link, decode_vmess_or_vless_line. cbv zeta.
  generalize dependent (json_dumps obj). intros payload Hutf Hjson.
  rewrite strip_vmess_link.
  change (String.eqb ("vmess://" ++ b64encode payload) "") with false.
  rewrite startswith_app. cbv iota.
  change (drop 8 ("vmess://" ++ b64encode payload)) with (b64encode payload).
  unfold pad_len. rewrite b64encode_length.
  change (repeat_char "="%char (Nat.modulo (4 - 0) 4)) with "".
  rewrite sapp_nil_r.
  unfold encode_ascii.
  assert (Hascii : isascii (b64encode payload) = true).
  { apply (sforall_impl (fun c => is_ascii c && negb (is_space c))%bool).
    - intros c Hc. now apply andb_true_iff in Hc.
    - apply b64encode_chars. }
  rewrite Hascii, bind_ok, b64decode_b64encode, bind_ok.
  unfold decode_utf8. rewrite Hutf, bind_ok, Hjson, bind_ok. reflexivity.
Qed.

Lemma round_trip_vmess_ready (r : dict) :
  vmess_ready (normalize_vmess_entry r) ->
  round_trip (normalize_vmess_entry r) = Ok (normalize_vmess_entry r).
Proof.
  intros [Hutf Hjson]. unfold round_trip, encode_entry.
  assert (Hty : dict_get "_type" (normalize_vmess_entry r) = Some (VStr "vmess")).
  { rewrite normalize_vmess_normal_form. now apply dict_get_normal_form_type. }
  unfold dict_get_default. rewrite Hty.
  change (eq_str (VStr "vmess") "vmess") with true. cbv iota.
  rewrite bind_ok, (decode_vmess_link _ _ Hutf Hjson), bind_ok.
  rewrite (dict_set_same_value _ _ _ Hty).
  now rewrite normalize_entry_vmess_fixed.
Qed.



(** ** Properties: the JSON reader on what the JSON writer wrote *)

Lemma scanstring_escape_char (k : nat) (c : ascii) (r : string) :
  scanstring (S k) (json_escape_char c ++ r)
  = (tr <- scanstring k r ;;
     let (t, rest) := (tr : string * string) in Ok (String c t, rest)).
Proof. each_ascii c; reflexivity. Qed.

Lemma scanstring_escape (s : string) (fuel : nat) (rest : string) :
  (String.length s < fuel)%nat ->
  scanstring fuel (json_escape s ++ String quote_char rest) = Ok (s, rest).
Proof.
  revert fuel. induction s as [|c s IH]; intros fuel Hf.
  - destruct fuel as [|k]; [inversion Hf|]. reflexivity.
  - destruct fuel as [|k]; [inversion Hf|].
    cbn [json_escape]. rewrite sapp_assoc, scanstring_escape_char.
    rewrite IH by (cbn [String.length] in Hf; lia). reflexivity.
Qed.

Lemma json_escape_char_length (c : ascii) :
  (1 <= String.length (json_escape_char c))%nat.
Proof. each_ascii c; vm_compute; lia. Qed.

Lemma json_escape_length (s : string) :
  (String.length s <= String.length (json_escape s))%nat.
Proof.
  induction s as [|c s IH]; [reflexivity|].
  cbn [json_escape String.length]. rewrite slength_app.
  pose proof (json_escape_char_length c). lia.
Qed.


Lemma uint_head_nonzero (d : Decimal.uint) :
  Decimal.unorm d = d -> d <> Decimal.zero ->
  match d with
  | Decimal.D0 _ => False
  | _ => True
  end.
Proof.
  destruct d as [|d|d|d|d|d|d|d|d|d|d]; intros Hu Hz; try exact I.
  rewrite DecimalFacts.unorm_D0 in Hu.
  destruct d as [|d|d|d|d|d|d|d|d|d|d]; try (now apply Hz);
    match type of Hu with
    | Decimal.unorm ?u = _ =>
        assert (Hnb : (Decimal.nb_digits (Decimal.unorm u) <= Decimal.nb_digits u)%nat)
          by (apply DecimalFacts.nb_digits_unorm; discriminate);
        rewrite Hu in Hnb; cbn [Decimal.nb_digits] in Hnb; lia
    end.
Qed.

Lemma to_uint_normal (p : positive) : Decimal.unorm (Pos.to_uint p) = Pos.to_uint p.
Proof.
  rewrite <- (DecimalPos.Unsigned.to_of (Pos.to_uint p)).
  now rewrite DecimalPos.Unsigned.of_to.
Qed.

Lemma pos_text_head (p : positive) :
  exists c ds,
    NilEmpty.string_of_uint (Pos.to_uint p) = String c ds
    /\ in_range 49 57 c = true /\ sforall is_digit ds = true.
Proof.
  pose proof (uint_head_nonzero (Pos.to_uint p) (to_uint_normal p)
                (DecimalPos.Unsigned.to_uint_nonzero p)) as Hh.
  pose proof (DecimalPos.Unsigned.to_uint_nonnil p) as Hn.
  destruct (Pos.to_uint p) as [|d|d|d|d|d|d|d|d|d|d]; try contradiction;
    cbn [NilEmpty.string_of_uint]; eexists; eexists;
    (split; [reflexivity|]); (split; [reflexivity|]);
    apply digits_of_uint_are_digits.
Qed.

Lemma string_of_Z_neg (p : positive) :
  string_of_Z (Zneg p) = String "-"%char (NilEmpty.string_of_uint (Pos.to_uint p)).
Proof.
  unfold string_of_Z. simpl. unfold NilZero.string_of_uint.
  pose proof (DecimalPos.Unsigned.to_uint_nonnil p) as H.
  now destruct (Pos.to_uint p).
Qed.

Lemma scan_frac_stop (c : ascii) (r : string) :
  member_end c = true -> scan_frac (String c r) = (EmptyString, String c r).
Proof.
  intros H. unfold scan_frac.
  assert (E : Ascii.eqb c "."%char = false)
    by (revert H; each_ascii c; intros H; try discriminate H; reflexivity).
  rewrite E. now destruct r.
Qed.

Lemma scan_exp_stop (c : ascii) (r : string) :
  member_end c = true -> scan_exp (String c r) = (EmptyString, String c r).
Proof.
  intros H. unfold scan_exp.
  assert (E : (Ascii.eqb c "e"%char || Ascii.eqb c "E"%char)%bool = false)
    by (revert H; each_ascii c; intros H; try discriminate H; reflexivity).
  now rewrite E.
Qed.

Lemma member_end_not_digit (c : ascii) : member_end c = true -> is_digit c = false.
Proof. each_ascii c; intros H; try discriminate H; reflexivity. Qed.

Lemma scan_int_part_digits (c1 : ascii) (ds : string) (c : ascii) (r : string) :
  in_range 49 57 c1 = true -> sforall is_digit ds = true -> member_end c = true ->
  scan_int_part (String c1 (ds ++ String c r)) = Some (String c1 ds, String c r).
Proof.
  intros H1 Hds Hc. unfold scan_int_part. rewrite H1.
  rewrite span_app; [reflexivity | exact Hds | now apply member_end_not_digit].
Qed.

Lemma scan_number_digits (c1 : ascii) (ds : string) (c : ascii) (r : string) :
  in_range 49 57 c1 = true -> sforall is_digit ds = true -> member_end c = true ->
  scan_number (String c1 (ds ++ String c r))
  = Some (VInt (Z_of_digits (String c1 ds)), String c r)
  /\ scan_number (String "-"%char (String c1 (ds ++ String c r)))
     = Some (VInt (- Z_of_digits (String c1 ds)), String c r).
Proof.
  intros H1 Hds Hc.
  assert (E : Ascii.eqb c1 "-"%char = false)
    by (revert H1; each_ascii c1; intros H1; try discriminate H1; reflexivity).
  unfold scan_number. rewrite E. change (Ascii.eqb "-" "-") with true. cbv iota.
  rewrite (scan_int_part_digits c1 ds c r H1 Hds Hc).
  rewrite (scan_frac_stop c r Hc), (scan_exp_stop c r Hc). split; reflexivity.
Qed.

Lemma scan_number_int (z : Z) (c : ascii) (r : string) :
  member_end c = true ->
  scan_number (string_of_Z z ++ String c r) = Some (VInt z, String c r).
Proof.
  intros Hc. destruct z as [|p|p].
  - change (string_of_Z 0 ++ String c r) with (String "0"%char (String c r)).
    unfold scan_number. change (Ascii.eqb "0" "-") with false. cbv iota.
    change (scan_int_part (String "0"%char (String c r)))
      with (Some ("0", String c r)).
    cbv iota. rewrite (scan_frac_stop c r Hc), (scan_exp_stop c r Hc). reflexivity.
  - rewrite string_of_Z_pos.
    pose proof (digits_of_uint (Pos.to_uint p)) as Hv.
    rewrite DecimalPos.Unsigned.of_to in Hv.
    destruct (pos_text_head p) as [c1 [ds [E [H1 Hds]]]]. rewrite E in *.
    cbn [append].
    rewrite (proj1 (scan_number_digits c1 ds c r H1 Hds Hc)), Hv. reflexivity.
  - rewrite string_of_Z_neg.
    pose proof (digits_of_uint (Pos.to_uint p)) as Hv.
    rewrite DecimalPos.Unsigned.of_to in Hv.
    destruct (pos_text_head p) as [c1 [ds [E [H1 Hds]]]]. rewrite E in *.
    cbn [append].
    rewrite (proj2 (scan_number_digits c1 ds c r H1 Hds Hc)), Hv. reflexivity.
Qed.

Lemma scan_once_number (fuel : nat) (c : ascii) (s : string) :
  (is_digit c || Ascii.eqb c "-"%char)%bool = true ->
  scan_once (S fuel) (String c s)
  = match scan_number (String c s) with
    | Some vr => Ok vr
    | None =>
        if startswith (String c s) "NaN" then Ok (VFloat nan, drop 3 (String c s))
        else if startswith (String c s) "Infinity"
             then Ok (VFloat infinity, drop 8 (String c s))
        else if startswith (String c s) "-Infinity"
             then Ok (VFloat neg_infinity, drop 9 (String c s))
        else Raise JSONDecodeError
    end.
Proof. each_ascii c; intros H; try discriminate H; reflexivity. Qed.

Lemma string_of_Z_head (z : Z) :
  exists c s, string_of_Z z = String c s
              /\ (is_digit c || Ascii.eqb c "-"%char)%bool = true.
Proof.
  destruct z as [|p|p].
  - exists "0"%char, "". split; reflexivity.
  - rewrite string_of_Z_pos. destruct (pos_text_head p) as [c [ds [E [H1 _]]]].
    exists c, ds. split; [exact E|].
    revert H1. each_ascii c; intros H1; try discriminate H1; reflexivity.
  - rewrite string_of_Z_neg. eexists; eexists. split; reflexivity.
Qed.


Lemma scan_once_quote (fuel : nat) (r : string) :
  scan_once (S fuel) (String quote_char r)
  = (tr <- scanstring (String.length r) r ;;
     let (t, rest) := (tr : string * string) in Ok (VStr t, rest)).
Proof. reflexivity. Qed.

Lemma scan_once_plain (fuel : nat) (v : value) (c : ascii) (r : string) :
  plain_value v = true -> member_end c = true ->
  scan_once (S fuel) (json_dumps v ++ String c r) = Ok (v, String c r).
Proof.
  intros Hv Hc. destruct v as [|b|z|f|s|l|d]; try discriminate Hv.
  - reflexivity.
  - destruct b; reflexivity.
  - destruct (string_of_Z_head z) as [c1 [s [E Hc1]]].
    cbn [json_dumps].
    assert (Es : string_of_Z z ++ String c r = String c1 (s ++ String c r))
      by now rewrite E.
    rewrite Es, scan_once_number by exact Hc1.
    rewrite <- Es, scan_number_int by exact Hc. reflexivity.
  - cbn [json_dumps]. unfold json_string. cbn [append].
    rewrite sapp_assoc. cbn [str1 append].
    rewrite scan_once_quote, scanstring_escape; [reflexivity|].
    rewrite slength_app. cbn [String.length].
    pose proof (json_escape_length s). lia.
Qed.

Lemma json_dumps_plain_head (v : value) (t : string) :
  plain_value v = true ->
  skip_ws (json_dumps v ++ t) = json_dumps v ++ t.
Proof.
  intros Hv. destruct v as [|b|z|f|s|l|d]; try discriminate Hv.
  - reflexivity.
  - destruct b; reflexivity.
  - destruct (string_of_Z_head z) as [c1 [s [E Hc1]]].
    cbn [json_dumps]. rewrite E. cbn [append]. apply lstrip_chars_head.
    revert Hc1. each_ascii c1; intros Hc1; try discriminate Hc1; reflexivity.
  - reflexivity.
Qed.

Lemma skip_ws_member_end (c : ascii) (r : string) :
  member_end c = true -> skip_ws (String c r) = String c r.
Proof.
  intros H. apply lstrip_chars_head.
  revert H. each_ascii c; intros H; try discriminate H; reflexivity.
Qed.

Lemma object_items_member (fuel : nat) (k : string) (x : value) (c : ascii) (r : string) :
  plain_value x = true -> member_end c = true ->
  object_items (S (S fuel))
    (json_escape k ++ String quote_char (":" ++ json_dumps x ++ String c r))
  = if Ascii.eqb c "}"%char then Ok ([(k, x)], r)
    else match skip_ws r with
         | String c3 r3 =>
             if Ascii.eqb c3 quote_char then
               pr <- object_items (S fuel) r3 ;;
               let (pairs, rest) := (pr : list (string * value) * string) in
               Ok ((k, x) :: pairs, rest)
             else Raise JSONDecodeError
         | EmptyString => Raise JSONDecodeError
         end.
Proof.
  intros Hx Hc.
  cbn [object_items].
  rewrite scanstring_escape
    by (rewrite slength_app; cbn [String.length]; pose proof (json_escape_length k); lia).
  rewrite bind_ok. cbv iota beta.
  change (skip_ws (":" ++ json_dumps x ++ String c r))
    with (String ":"%char (json_dumps x ++ String c r)).
  cbv iota. change (Ascii.eqb ":" ":") with true. cbv iota.
  rewrite json_dumps_plain_head by exact Hx.
  rewrite (scan_once_plain fuel x c r Hx Hc), bind_ok. cbv iota beta.
  rewrite (skip_ws_member_end c r Hc).
  assert (E : Ascii.eqb c "}"%char = false -> Ascii.eqb c ","%char = true).
  { revert Hc. unfold member_end.
    destruct (Ascii.eqb c ","%char), (Ascii.eqb c "}"%char); simpl; congruence. }
  destruct (Ascii.eqb c "}"%char); [reflexivity|]. now rewrite E.
Qed.


Lemma lstrip_chars_head_quote (r : string) :
  skip_ws (String quote_char r) = String quote_char r.
Proof. reflexivity. Qed.

Lemma json_member_tail_cons (k : string) (x : value) (d : dict) (t : string) :
  json_member_tail ((k, x) :: d) ++ t
  = String ","%char
      (String quote_char
         (json_escape k ++ String quote_char (":" ++ json_dumps x ++ json_member_tail d ++ t))).
Proof.
  cbn [json_member_tail fold_right]. fold (json_member_tail d).
  unfold json_member, json_string. cbn [fst snd append str1].
  do 2 f_equal. rewrite !sapp_assoc. cbn [append str1]. now rewrite ?sapp_assoc.
Qed.

Lemma object_items_members (d : dict) :
  forall (fuel : nat) (k : string) (x : value) (rest : string),
    plain_value x = true ->
    forallb (fun kv => plain_value (snd kv)) d = true ->
    (List.length d + 1 < fuel)%nat ->
    object_items fuel
      (json_escape k
       ++ String quote_char
            (":" ++ json_dumps x ++ json_member_tail d ++ String "}"%char rest))
    = Ok ((k, x) :: d, rest).
Proof.
  induction d as [|[k' x'] d IH]; intros fuel k x rest Hx Hd Hf.
  - destruct fuel as [|[|fuel]]; [cbn in Hf; lia | cbn in Hf; lia |].
    change (json_member_tail [] ++ String "}"%char rest) with (String "}"%char rest).
    rewrite object_items_member by (try exact Hx; reflexivity).
    reflexivity.
  - destruct fuel as [|[|fuel]]; [cbn in Hf; lia | cbn in Hf; lia |].
    cbn [forallb snd] in Hd. apply andb_true_iff in Hd. destruct Hd as [Hx' Hd].
    rewrite json_member_tail_cons.
    rewrite object_items_member by (try exact Hx; reflexivity).
    change (Ascii.eqb "," "}") with false. cbv iota.
    rewrite lstrip_chars_head_quote.
    change (Ascii.eqb quote_char quote_char) with true. cbv iota.
    rewrite IH; [reflexivity | exact Hx' | exact Hd | cbn [List.length] in Hf; lia].
Qed.

Lemma dict_of_pairs_from (pairs acc : dict) :
  nodupb (keys (acc ++ pairs)%list) = true ->
  fold_left (fun d kv => dict_set (fst kv) (snd kv) d) pairs acc = (acc ++ pairs)%list.
Proof.
  revert acc. induction pairs as [|[k v] pairs IH]; intros acc H.
  - now rewrite app_nil_r.
  - cbn [fold_left fst snd].
    rewrite dict_set_fresh by exact (nodup_prefix_fresh acc pairs k v H).
    rewrite IH; rewrite <- app_assoc; [reflexivity | exact H].
Qed.

Lemma dict_of_pairs_distinct (d : dict) :
  nodupb (keys d) = true -> dict_of_pairs d = d.
Proof. intros H. unfold dict_of_pairs. now rewrite dict_of_pairs_from. Qed.

Lemma json_member_tail_length (d : dict) :
  (List.length d <= String.length (json_member_tail d))%nat.
Proof.
  induction d as [|kv d IH]; [reflexivity|].
  cbn [json_member_tail fold_right]. fold (json_member_tail d).
  cbn [append String.length List.length]. rewrite slength_app. lia.
Qed.

Lemma json_dumps_dict_text (k : string) (x : value) (d : dict) :
  json_dumps (VDict ((k, x) :: d))
  = String "{"%char
      (String quote_char
         (json_escape k
          ++ String quote_char (":" ++ json_dumps x ++ json_member_tail d ++ "}"))).
Proof.
  assert (H : forall kv d',
             join "," (map (fun kv : string * value =>
                              let (k, x) := kv in json_string k ++ ":" ++ json_dumps x)
                         (kv :: d'))
             = json_member kv ++ json_member_tail d').
  { intros kv d'. revert kv. induction d' as [|kv' d' IH]; intros [k0 x0].
    - cbn [map join json_member_tail fold_right]. unfold json_member. cbn [fst snd].
      now rewrite !sapp_assoc, sapp_nil_r.
    - change (map ?f ((k0, x0) :: kv' :: d')) with (f (k0, x0) :: map f (kv' :: d')).
      cbn [join]. rewrite IH. cbn [json_member_tail fold_right].
      unfold json_member at 2. cbn [fst snd]. now rewrite !sapp_assoc. }
  cbn [json_dumps]. rewrite H. unfold json_member, json_string. cbn [fst snd append str1].
  do 2 f_equal. rewrite !sapp_assoc. cbn [append str1]. now rewrite ?sapp_assoc.
Qed.

Lemma json_loads_dumps_dict (d : dict) :
  nodupb (keys d) = true ->
  forallb (fun kv => plain_value (snd kv)) d = true ->
  json_loads (json_dumps (VDict d)) = Ok (VDict d).
Proof.
  intros Hnd Hd. destruct d as [|[k x] d]; [reflexivity|].
  cbn [forallb snd] in Hd. apply andb_true_iff in Hd. destruct Hd as [Hx Hd].
  rewrite json_dumps_dict_text. unfold json_loads.
  set (body := json_escape k
               ++ String quote_char (":" ++ json_dumps x ++ json_member_tail d ++ "}")).
  change (startswith (String "{"%char (String quote_char body)) (utf8_of_codepoint 65279))
    with false.
  cbv iota.
  change (skip_ws (String "{"%char (String quote_char body)))
    with (String "{"%char (String quote_char body)).
  cbv zeta.
  assert (Hlen : (List.length d + 1 < 2 * String.length (String "{"%char (String quote_char body)))%nat).
  { unfold body. cbn [String.length]. rewrite !slength_app. cbn [String.length].
    rewrite !slength_app. pose proof (json_member_tail_length d). lia. }
  destruct (2 * String.length (String "{"%char (String quote_char body)))%nat as [|fuel] eqn:Ef;
    [lia|].
  change (scan_once (S (S fuel)) (String "{"%char (String quote_char body)))
    with (pr <- object_items (S fuel) body ;;
          let (pairs, rest) := (pr : list (string * value) * string) in
          Ok (VDict (dict_of_pairs pairs), rest)).
  unfold body. rewrite object_items_members by assumption.
  rewrite bind_ok. cbv iota beta. rewrite bind_ok. cbv iota beta.
  change (skip_ws "") with "". cbv iota.
  now rewrite dict_of_pairs_distinct.
Qed.


(** ** Properties: well-formed UTF-8 *)

Ltac split_andb :=
  repeat match goal with
    | H : (_ && _)%bool = true |- _ =>
        apply andb_true_iff in H; destruct H
    end.

Ltac use_true :=
  repeat match goal with
    | H : ?b = true |- context [?b] => rewrite H
    end;
  cbn [andb].

Lemma utf8_valid_app_bounded (n : nat) :
  forall a b, (String.length a <= n)%nat -> utf8_valid a = true ->
              utf8_valid (a ++ b) = utf8_valid b.
Proof.
  induction n as [|n IH]; intros a b Hlen Ha.
  - destruct a; [reflexivity | cbn in Hlen; lia].
  - destruct a as [|x a1]; [reflexivity|].
    cbn [append utf8_valid] in *. cbn [String.length] in Hlen.
    destruct (N.ltb (code x) 128); [apply IH; [lia | exact Ha]|].
    destruct (in_range 194 223 x).
    { destruct a1 as [|y a2]; [discriminate|].
      cbn [append String.length] in *. split_andb. use_true. apply IH; [lia | assumption]. }
    destruct (in_range 224 239 x).
    { destruct a1 as [|y [|z a3]]; try discriminate.
      cbn [append String.length] in *. split_andb. use_true. apply IH; [lia | assumption]. }
    destruct (in_range 240 244 x); [|discriminate].
    destruct a1 as [|y [|z [|w a4]]]; try discriminate.
    cbn [append String.length] in *. split_andb. use_true. apply IH; [lia | assumption].
Qed.

Lemma utf8_valid_app (a b : string) :
  utf8_valid a = true -> utf8_valid b = true -> utf8_valid (a ++ b) = true.
Proof.
  intros Ha Hb. now rewrite (utf8_valid_app_bounded (String.length a) a b (le_n _) Ha).
Qed.

Lemma utf8_valid_ascii (s : string) : isascii s = true -> utf8_valid s = true.
Proof.
  unfold isascii. induction s as [|c s IH]; [reflexivity|].
  cbn [sforall utf8_valid]. intros H. apply andb_true_iff in H. destruct H as [Hc Hs].
  unfold is_ascii in Hc. rewrite Hc. now apply IH.
Qed.

Lemma json_escape_char_ascii (c : ascii) :
  is_ascii c = true -> isascii (json_escape_char c) = true.
Proof. each_ascii c; intros H; try discriminate H; reflexivity. Qed.

Lemma json_escape_char_high (c : ascii) :
  is_ascii c = false -> json_escape_char c = str1 c.
Proof. each_ascii c; intros H; try discriminate H; reflexivity. Qed.

Lemma in_range_high (lo hi : N) (c : ascii) :
  (128 <= lo)%N -> in_range lo hi c = true -> is_ascii c = false.
Proof.
  unfold in_range, is_ascii. intros Hlo H.
  apply andb_true_iff in H. destruct H as [H _].
  apply N.leb_le in H. apply N.ltb_ge. lia.
Qed.

Ltac high_byte y :=
  assert (is_ascii y = false)
    by (repeat match goal with
               | H : context [if ?c then _ else _] |- _ => destruct c
               end;
        (eapply in_range_high; [|eassumption]; lia)).

Lemma utf8_valid_escape_bounded (n : nat) :
  forall s, (String.length s <= n)%nat -> utf8_valid s = true ->
            utf8_valid (json_escape s) = true.
Proof.
  induction n as [|n IH]; intros s Hlen Hs.
  - destruct s; [reflexivity | cbn in Hlen; lia].
  - destruct s as [|x s1]; [reflexivity|].
    cbn [json_escape]. cbn [utf8_valid] in Hs. cbn [String.length] in Hlen.
    destruct (N.ltb (code x) 128) eqn:Ex.
    { apply utf8_valid_app.
      - apply utf8_valid_ascii. now apply json_escape_char_ascii.
      - apply IH; [lia | exact Hs]. }
    rewrite (json_escape_char_high x Ex). cbn [str1 append utf8_valid]. rewrite Ex.
    destruct (in_range 194 223 x).
    { destruct s1 as [|y s2]; [discriminate|].
      cbn [String.length] in Hlen. split_andb. high_byte y.
      cbn [json_escape]. rewrite !json_escape_char_high by assumption.
      cbn [str1 append]. use_true. apply IH; [lia | assumption]. }
    destruct (in_range 224 239 x).
    { destruct s1 as [|y [|z s3]]; try discriminate.
      cbn [String.length] in Hlen. split_andb. high_byte y. high_byte z.
      cbn [json_escape]. rewrite !json_escape_char_high by assumption.
      cbn [str1 append]. use_true. apply IH; [lia | assumption]. }
    destruct (in_range 240 244 x); [|discriminate].
    destruct s1 as [|y [|z [|w s4]]]; try discriminate.
    cbn [String.length] in Hlen. split_andb. high_byte y. high_byte z. high_byte w.
    cbn [json_escape]. rewrite !json_escape_char_high by assumption.
    cbn [str1 append]. use_true. apply IH; [lia | assumption].
Qed.

Lemma utf8_valid_json_escape (s : string) :
  utf8_valid s = true -> utf8_valid (json_escape s) = true.
Proof. apply (utf8_valid_escape_bounded (String.length s)). apply le_n. Qed.

Lemma isascii_string_of_Z (z : Z) : isascii (string_of_Z z) = true.
Proof.
  assert (H : forall d, isascii (NilEmpty.string_of_uint d) = true).
  { intros d. apply (sforall_impl is_digit); [|apply digits_of_uint_are_digits].
    intros c Hc. now apply digit_classes. }
  destruct z as [|p|p].
  - reflexivity.
  - rewrite string_of_Z_pos. apply H.
  - rewrite string_of_Z_neg. unfold isascii. cbn [sforall]. apply H.
Qed.

Lemma utf8_valid_json_string (s : string) :
  utf8_valid s = true -> utf8_valid (json_string s) = true.
Proof.
  intros H. unfold json_string.
  change (String quote_char (json_escape s ++ str1 quote_char))
    with (str1 quote_char ++ json_escape s ++ str1 quote_char).
  apply utf8_valid_app; [reflexivity|].
  apply utf8_valid_app; [now apply utf8_valid_json_escape | reflexivity].
Qed.

Lemma utf8_valid_json_plain (v : value) :
  plain_value v = true -> utf8_valid (json_dumps v) = true.
Proof.
  destruct v as [|b|z|f|s|l|d]; intros H; try discriminate H.
  - reflexivity.
  - destruct b; reflexivity.
  - apply utf8_valid_ascii, isascii_string_of_Z.
  - now apply utf8_valid_json_string.
Qed.

Lemma utf8_valid_json_member (kv : string * value) :
  utf8_valid (fst kv) = true -> plain_value (snd kv) = true ->
  utf8_valid (json_member kv) = true.
Proof.
  intros Hk Hv. unfold json_member.
  apply utf8_valid_app; [now apply utf8_valid_json_string|].
  apply utf8_valid_app; [reflexivity | now apply utf8_valid_json_plain].
Qed.

Lemma utf8_valid_json_member_tail (d : dict) (t : string) :
  forallb (fun kv => utf8_valid (fst kv) && plain_value (snd kv))%bool d = true ->
  utf8_valid t = true ->
  utf8_valid (json_member_tail d ++ t) = true.
Proof.
  intros Hd Ht. induction d as [|kv d IH]; [exact Ht|].
  cbn [forallb] in Hd. apply andb_true_iff in Hd. destruct Hd as [Hkv Hd].
  apply andb_true_iff in Hkv. destruct Hkv as [Hk Hv].
  cbn [json_member_tail fold_right]. fold (json_member_tail d).
  rewrite !sapp_assoc.
  apply utf8_valid_app; [reflexivity|].
  apply utf8_valid_app; [now apply utf8_valid_json_member | now apply IH].
Qed.

Lemma utf8_valid_json_dict (d : dict) :
  forallb (fun kv => utf8_valid (fst kv) && plain_value (snd kv))%bool d = true ->
  utf8_valid (json_dumps (VDict d)) = true.
Proof.
  intros Hd. destruct d as [|[k x] d]; [reflexivity|].
  cbn [forallb fst snd] in Hd. apply andb_true_iff in Hd. destruct Hd as [Hkv Hd].
  apply andb_true_iff in Hkv. destruct Hkv as [Hk Hv].
  rewrite json_dumps_dict_text.
  change (String "{"%char (String quote_char ?b)) with ("{" ++ str1 quote_char ++ b).
  apply utf8_valid_app; [reflexivity|].
  apply utf8_valid_app; [reflexivity|].
  apply utf8_valid_app; [now apply utf8_valid_json_escape|].
  change (String quote_char (":" ++ ?b)) with (String quote_char ":" ++ b).
  apply utf8_valid_app; [reflexivity|].
  apply utf8_valid_app; [now apply utf8_valid_json_plain|].
  now apply utf8_valid_json_member_tail.
Qed.

(** * Further properties of the pipeline *)

(** ** Scheme A links and the JSON layer *)

Lemma plain_record_round_trips (d : dict) :
  nodupb (keys d) = true ->
  plain_record d = true ->
  utf8_valid (json_dumps (VDict d)) = true
  /\ json_loads (json_dumps (VDict d)) = Ok (VDict d).
Proof.
  intros Hnd Hp. split; [now apply utf8_valid_json_dict|].
  apply json_loads_dumps_dict; [exact Hnd|].
  unfold plain_record in Hp. rewrite forallb_forall in Hp. apply forallb_forall.
  intros kv Hin. specialize (Hp kv Hin). now apply andb_true_iff in Hp.
Qed.

(** X1.  The line scheme-A generation writes for a record of plain fields
    decodes to that record, with the discriminator set to vmess. *)
Theorem vmess_link_decodes (d : dict) :
  nodupb (keys d) = true ->
  plain_record d = true ->
  decode_vmess_or_vless_line (vmess_link (VDict d))
  = Ok (dict_set "_type" (VStr "vmess") d).
Proof.
  intros Hnd Hp. destruct (plain_record_round_trips d Hnd Hp) as [Hutf Hjson].
  now apply decode_vmess_link.
Qed.

Lemma keys_normal_form (order : list string) (defaults : dict) (tag : string) (d : dict) :
  keys (normal_form order defaults tag d) = (order ++ ["_type"])%list.
Proof.
  unfold keys, normal_form. rewrite map_app, map_map. cbn [map fst].
  now rewrite map_id.
Qed.

Lemma utf8_valid_py_str (v : value) :
  plain_value v = true -> utf8_valid (py_str v) = true.
Proof.
  destruct v as [|b|z|f|s|l|d]; intros H; try discriminate H.
  - reflexivity.
  - destruct b; reflexivity.
  - apply utf8_valid_ascii, isascii_string_of_Z.
  - exact H.
Qed.

Lemma dict_get_plain (d : dict) (k : string) (v : value) :
  forallb (fun kv => plain_value (snd kv)) d = true ->
  dict_get k d = Some v -> plain_value v = true.
Proof.
  induction d as [|[k' v'] d IH]; [discriminate|].
  cbn [forallb snd dict_get]. intros H. apply andb_true_iff in H. destruct H as [Hv Hd].
  destruct (String.eqb k' k); [now intros [= <-] | now apply IH].
Qed.

Lemma norm_field_plain (defaults d : dict) (k : string) :
  forallb (fun kv => plain_value (snd kv)) defaults = true ->
  forallb (fun kv => plain_value (snd kv)) d = true ->
  plain_value (norm_field defaults d k) = true.
Proof.
  intros Hdef Hd. unfold norm_field, coerced_get.
  destruct (dict_get k d) as [v|] eqn:E.
  - pose proof (dict_get_plain d k v Hd E) as Hv.
    destruct (String.eqb k "port"); [now apply utf8_valid_py_str|].
    destruct (String.eqb k "allowInsecure"); [reflexivity | exact Hv].
  - unfold dict_get_default. destruct (dict_get k defaults) as [v|] eqn:E';
      [now apply (dict_get_plain defaults k v) | reflexivity].
Qed.

Lemma normal_form_plain (order : list string) (defaults : dict) (tag : string) (d : dict) :
  forallb utf8_valid order = true -> utf8_valid tag = true ->
  forallb (fun kv => plain_value (snd kv)) defaults = true ->
  forallb (fun kv => plain_value (snd kv)) d = true ->
  plain_record (normal_form order defaults tag d) = true.
Proof.
  intros Ho Ht Hdef Hd. unfold plain_record, normal_form.
  rewrite forallb_app. cbn [forallb fst snd plain_value]. rewrite Ht.
  rewrite andb_true_r. apply forallb_forall. intros kv Hin.
  apply in_map_iff in Hin. destruct Hin as [k [<- Hk]]. cbn [fst snd].
  rewrite forallb_forall in Ho. rewrite (Ho k Hk).
  now rewrite norm_field_plain.
Qed.

Lemma nodupb_keys_normal_form (order : list string) (defaults : dict) (tag : string)
  (d : dict) :
  nodupb (order ++ ["_type"])%list = true ->
  nodupb (keys (normal_form order defaults tag d)) = true.
Proof. now rewrite keys_normal_form. Qed.

(** X2.  A raw record whose fields are None, booleans, integers or well-formed
    texts, normalised as scheme A, survives encoding, decoding and
    normalising again, whatever its keys are. *)
Theorem plain_vmess_round_trip (r : dict) :
  forallb (fun kv => plain_value (snd kv)) r = true ->
  round_trip (normalize_vmess_entry r) = Ok (normalize_vmess_entry r).
Proof.
  intros Hr. apply round_trip_vmess_ready. unfold vmess_ready.
  rewrite normalize_vmess_normal_form.
  apply plain_record_round_trips.
  - now apply nodupb_keys_normal_form.
  - now apply normal_form_plain.
Qed.

(** ** The decoder on a line of structured text *)

Lemma rstrip_ascii_last (s : string) (c : ascii) :
  is_ascii c = true -> is_space c = false -> rstrip (s ++ str1 c) = s ++ str1 c.
Proof.
  intros Ha Hs. unfold rstrip. rewrite srev_append.
  change (srev (str1 c) ++ srev s) with (String c (srev s)).
  rewrite lstrip_rev_ascii_head by assumption.
  change (String c (srev s)) with (srev (str1 c) ++ srev s).
  now rewrite <- srev_append, srev_involutive.
Qed.

Lemma endswith_last (s : string) (c : ascii) : endswith (s ++ str1 c) (str1 c) = true.
Proof.
  unfold endswith. rewrite srev_append.
  change (srev (str1 c) ++ srev s) with (String c (srev s)).
  change (srev (str1 c)) with (String c "").
  cbn [startswith]. rewrite Ascii.eqb_refl. now destruct (srev s).
Qed.

Lemma json_dumps_dict_braces (d : dict) :
  exists body, json_dumps (VDict d) = String "{"%char (body ++ "}").
Proof. eexists. cbn [json_dumps]. reflexivity. Qed.

Lemma strip_json_dict (d : dict) : strip (json_dumps (VDict d)) = json_dumps (VDict d).
Proof.
  destruct (json_dumps_dict_braces d) as [body E]. rewrite E. unfold strip.
  rewrite lstrip_ascii_head by reflexivity.
  change (String "{"%char (body ++ "}")) with (("{" ++ body) ++ str1 "}"%char).
  now apply rstrip_ascii_last.
Qed.

Lemma json_line_decodes_lemma (d : dict) :
  nodupb (keys d) = true ->
  plain_record d = true ->
  decode_vmess_or_vless_line (json_dumps (VDict d))
  = Ok (dict_set "_type" (dict_get_default "_type" (VStr "vmess") d) d).
Proof.
  intros Hnd Hp. destruct (plain_record_round_trips d Hnd Hp) as [_ Hjson].
  unfold decode_vmess_or_vless_line. rewrite strip_json_dict. cbv zeta.
  revert Hjson. destruct (json_dumps_dict_braces d) as [body E]. rewrite E.
  intros Hjson.
  change (String.eqb (String "{"%char (body ++ "}")) "") with false.
  change (startswith (String "{"%char (body ++ "}")) "vmess://") with false.
  change (startswith (String "{"%char (body ++ "}")) "vless://") with false.
  replace (startswith (String "{"%char (body ++ "}")) "{") with true
    by (symmetry; apply (startswith_app "{" (body ++ "}"))).
  cbv iota.
  change (String "{"%char (body ++ "}")) with (("{" ++ body) ++ str1 "}"%char) at 1.
  rewrite endswith_last. cbn [andb]. cbv iota.
  rewrite Hjson, bind_ok. reflexivity.
Qed.

(** X3.  A line that is the compact serialisation of a record of plain fields
    decodes to that record; the discriminator it had is kept, and vmess is
    put in when it had none. *)
Theorem json_line_decodes (d : dict) :
  nodupb (keys d) = true ->
  plain_record d = true ->
  decode_vmess_or_vless_line (json_dumps (VDict d))
  = Ok (dict_set "_type" (dict_get_default "_type" (VStr "vmess") d) d).
Proof. exact (json_line_decodes_lemma d). Qed.

Lemma normalize_entry_cases (r : dict) :
  normalize_entry r = normal_form WANTED_ORDER_VMESS DEFAULTS_IF_MISSING_VMESS "vmess" r
  \/ normalize_entry r = normal_form WANTED_ORDER_VLESS DEFAULTS_IF_MISSING_VLESS "vless" r.
Proof.
  unfold normalize_entry.
  destruct (dict_get "_type" r) as [t|]; [destruct (eq_str t "vless")|];
    rewrite ?normalize_vless_normal_form, ?normalize_vmess_normal_form; auto.
Qed.

Lemma normalize_entry_plain (r : dict) :
  forallb (fun kv => plain_value (snd kv)) r = true ->
  nodupb (keys (normalize_entry r)) = true
  /\ plain_record (normalize_entry r) = true
  /\ exists tag, dict_get "_type" (normalize_entry r) = Some (VStr tag).
Proof.
  intros Hr. destruct (normalize_entry_cases r) as [E|E]; rewrite E.
  - split; [now apply nodupb_keys_normal_form|].
    split; [now apply normal_form_plain|].
    exists "vmess". now apply dict_get_normal_form_type.
  - split; [now apply nodupb_keys_normal_form|].
    split; [now apply normal_form_plain|].
    exists "vless". now apply dict_get_normal_form_type.
Qed.

Lemma normalize_entry_fixed (r : dict) :
  normalize_entry (normalize_entry r) = normalize_entry r.
Proof.
  unfold normalize_entry at 2 3.
  destruct (dict_get "_type" r) as [t|]; [destruct (eq_str t "vless")|].
  - apply normalize_entry_vless_fixed.
  - apply normalize_entry_vmess_fixed.
  - apply normalize_entry_vmess_fixed.
Qed.

Lemma decoder_output_stable_lemma (r : dict) :
  forallb (fun kv => plain_value (snd kv)) r = true ->
  let n := normalize_entry r in
  decode_vmess_or_vless_line (json_dumps (VDict n)) = Ok n
  /\ process_line (json_dumps (VDict n))
     = Written (json_dumps (VDict n)) (eq_str (dict_get_default "_type" VNone n) "vmess").
Proof.
  intros Hr n. destruct (normalize_entry_plain r Hr) as [Hnd [Hp [tag Htag]]]. fold n in Hnd, Hp, Htag.
  assert (Hdec : decode_vmess_or_vless_line (json_dumps (VDict n)) = Ok n).
  { rewrite json_line_decodes_lemma by assumption.
    unfold dict_get_default. rewrite Htag. now rewrite dict_set_same_value. }
  split; [exact Hdec|].
  unfold process_line. rewrite strip_json_dict. cbv zeta.
  destruct (json_dumps_dict_braces n) as [body E].
  assert (Hne : String.eqb (json_dumps (VDict n)) "" = false) by now rewrite E.
  rewrite Hne, Hdec. unfold n. now rewrite normalize_entry_fixed.
Qed.

(** X4.  What the batch decoder writes for a record of plain fields, it reads
    back as the same record and writes again unchanged: a second run over
    its own output changes no line. *)
Theorem decoder_output_stable (r : dict) :
  forallb (fun kv => plain_value (snd kv)) r = true ->
  let n := normalize_entry r in
  decode_vmess_or_vless_line (json_dumps (VDict n)) = Ok n
  /\ process_line (json_dumps (VDict n))
     = Written (json_dumps (VDict n)) (eq_str (dict_get_default "_type" VNone n) "vmess").
Proof. exact (decoder_output_stable_lemma r). Qed.

(** ** The batch decoder on any source *)

Lemma loop_reports_failures (tmp : string) (idx : nat) (lines : list string) :
  reports (loop_effects tmp idx lines) = failures idx lines.
Proof.
  revert idx. induction lines as [|l r IH]; intros idx; [reflexivity|].
  cbn [loop_effects failures]. unfold reports in *. rewrite flat_map_app, IH.
  unfold line_effects. now destruct (process_line l).
Qed.

Lemma count_written_total (lines : list string) :
  (count_written true lines + count_written false lines)%nat
  = List.length (written_records lines).
Proof.
  unfold count_written, written_records.
  induction lines as [|l r IH]; [reflexivity|].
  cbn [filter flat_map]. rewrite length_app, <- IH.
  destruct (process_line l) as [|c v|e]; cbn [List.length]; try lia.
  destruct v; cbn [Bool.eqb List.length]; lia.
Qed.

Lemma decode_file_inplace_result_lemma (src tmp : string) (fs : fsys) (lines : list string) :
  tmp <> src ->
  fs src = Some lines ->
  let script := decode_file_inplace src tmp fs in
  run script fs src = Some (written_records lines)
  /\ run script fs tmp = None
  /\ (forall p, p <> src -> p <> tmp -> run script fs p = fs p)
  /\ reports script = failures 1 lines
  /\ exists vmess_count vless_count,
       last script (Exit 0)
       = Summary (List.length (written_records lines)) vmess_count vless_count
       /\ (vmess_count + vless_count)%nat = List.length (written_records lines).
Proof.
  intros Hne Hsrc script. unfold script, decode_file_inplace. rewrite Hsrc. cbv zeta.
  set (loop := loop_effects tmp 1 lines).
  set (fs1 := fs_set tmp (Some []) fs).
  assert (Hrun : forall p,
             run ([CreateTemp tmp] ++ loop
                  ++ [CloseTemp tmp; Replace tmp src;
                      Summary (count_written true lines + count_written false lines)
                        (count_written true lines) (count_written false lines)])%list fs p
             = fs_set tmp None (fs_set src (run loop fs1 tmp) (run loop fs1)) p).
  { intros p. rewrite !run_app. reflexivity. }
  assert (Htmp : run loop fs1 tmp = Some (written_records lines)).
  { unfold loop. rewrite (loop_writes tmp 1 lines [] fs1); [reflexivity|].
    apply fs_set_same. }
  split; [|split; [|split; [|split]]].
  - rewrite Hrun, fs_set_other by (intros E; now apply Hne).
    now rewrite fs_set_same.
  - rewrite Hrun. apply fs_set_same.
  - intros p Hp1 Hp2. rewrite Hrun, !fs_set_other by assumption.
    unfold loop. rewrite run_untouched.
    + unfold fs1. now apply fs_set_other.
    + apply loop_untouched. intros E. now apply Hp2.
  - unfold reports. rewrite !flat_map_app. cbn [flat_map app].
    rewrite app_nil_r. apply loop_reports_failures.
  - exists (count_written true lines), (count_written false lines).
    rewrite <- count_written_total. split; [|reflexivity].
    match goal with
    | |- context [[CloseTemp tmp; Replace tmp src; ?s]] =>
        change [CloseTemp tmp; Replace tmp src; s]
          with ([CloseTemp tmp; Replace tmp src] ++ [s])%list
    end.
    rewrite !app_assoc. apply last_last.
Qed.


Lemma written_records_stable (rs : list dict) :
  (forall r, In r rs -> forallb (fun kv => plain_value (snd kv)) r = true) ->
  written_records (map (fun r => json_dumps (VDict (normalize_entry r))) rs)
  = map (fun r => json_dumps (VDict (normalize_entry r))) rs
  /\ failures 1 (map (fun r => json_dumps (VDict (normalize_entry r))) rs) = [].
Proof.
  intros H. generalize 1%nat as idx.
  unfold written_records.
  induction rs as [|r rs IH]; intros idx; [split; reflexivity|].
  cbn [map flat_map failures].
  destruct (decoder_output_stable_lemma r (H r (or_introl eq_refl))) as [_ Hp].
  cbv zeta in Hp. rewrite Hp.
  destruct (IH (fun x Hx => H x (or_intror Hx)) (S idx)) as [IH1 IH2].
  split; [cbn [app]; now rewrite (proj1 (IH (fun x Hx => H x (or_intror Hx)) idx)) | exact IH2].
Qed.

(** X6.  A source that holds the serialisations of normalised records of plain
    fields, which is what a run leaves behind for such records, is
    rewritten by another run with the same lines, and nothing is
    reported. *)
Theorem decode_file_inplace_idempotent (src tmp : string) (fs : fsys) (rs : list dict) :
  tmp <> src ->
  (forall r, In r rs -> forallb (fun kv => plain_value (snd kv)) r = true) ->
  fs src = Some (map (fun r => json_dumps (VDict (normalize_entry r))) rs) ->
  run (decode_file_inplace src tmp fs) fs src = fs src
  /\ reports (decode_file_inplace src tmp fs) = [].
Proof.
  intros Hne Hrs Hsrc.
  destruct (decode_file_inplace_result_lemma src tmp fs _ Hne Hsrc) as [H1 [_ [_ [H4 _]]]].
  destruct (written_records_stable rs Hrs) as [Hw Hf].
  rewrite H1, H4, Hw, Hf, Hsrc. split; reflexivity.
Qed.

(** ** The discriminator of a decoded line *)

Ltac bind_cases H :=
  repeat match type of H with
    | bind ?m _ = Ok _ =>
        let E := fresh "E" in
        destruct m eqn:E; [rewrite bind_ok in H | discriminate H]
    end.

Ltac set_discriminator :=
  match goal with
  | E : py_setitem ?v _ _ = Ok _ |- _ =>
      destruct v; try discriminate E; cbn [py_setitem] in E; injection E as <-
  end.

(** X7.  A line that decodes gives a record that carries a discriminator: vmess
    for a vmess link and vless for a vless link, whatever the payload
    says. *)
Theorem decoded_discriminator (line : string) (d : dict) :
  decode_vmess_or_vless_line line = Ok d ->
  (exists t, dict_get "_type" d = Some t)
  /\ (startswith (strip line) "vmess://" = true ->
      dict_get "_type" d = Some (VStr "vmess"))
  /\ (startswith (strip line) "vmess://" = false ->
      startswith (strip line) "vless://" = true ->
      dict_get "_type" d = Some (VStr "vless")).
Proof.
  unfold decode_vmess_or_vless_line. cbv zeta. intros H.
  destruct (String.eqb (strip line) ""); [discriminate H|].
  destruct (startswith (strip line) "vmess://").
  { bind_cases H. set_discriminator. cbn [as_dict] in H. injection H as <-.
    rewrite dict_get_set_same. split; [eauto|]. split; [reflexivity | discriminate]. }
  destruct (startswith (strip line) "vless://").
  { bind_cases H. injection H as <-.
    rewrite dict_get_set_same. split; [eauto|]. split; [discriminate | reflexivity]. }
  destruct (startswith (strip line) "{" && endswith (strip line) "}")%bool;
    [|discriminate H].
  bind_cases H. set_discriminator. cbn [as_dict] in H. injection H as <-.
  rewrite dict_get_set_same. split; [eauto|]. split; discriminate.
Qed.

(** ** The fields of a normalised record *)

Lemma normalize_entry_normal_form (r : dict) :
  normalize_entry r
  = normal_form (canonical_order r) (canonical_defaults r) (canonical_tag r) r.
Proof.
  unfold normalize_entry, canonical_order, canonical_defaults, canonical_tag.
  destruct (dict_get "_type" r) as [t|]; [destruct (eq_str t "vless")|];
    auto using normalize_vless_normal_form, normalize_vmess_normal_form.
Qed.

Lemma canonical_tables (r : dict) :
  In "port" (canonical_order r) /\ In "allowInsecure" (canonical_order r)
  /\ ~ In "_type" (canonical_order r)
  /\ dict_get "port" (canonical_defaults r) = None
  /\ dict_get "allowInsecure" (canonical_defaults r) = Some (VInt 1).
Proof.
  unfold canonical_order, canonical_defaults.
  destruct (dict_get "_type" r) as [t|]; [destruct (eq_str t "vless")|];
    (split; [cbv; tauto|]); (split; [cbv; tauto|]);
    (split; [|split; reflexivity]);
    intros H; cbv [In WANTED_ORDER_VMESS WANTED_ORDER_VLESS] in H;
    repeat (destruct H as [H|H]; [discriminate H|]); exact H.
Qed.

Lemma existsb_eqb_not_In (k : string) (l : list string) :
  ~ In k l -> existsb (String.eqb k) l = false.
Proof.
  intros H. destruct (existsb (String.eqb k) l) eqn:E; [|reflexivity].
  apply existsb_exists in E. destruct E as [x [Hx E]].
  apply String.eqb_eq in E. subst x. contradiction.
Qed.

Lemma dict_get_normal_form_other (order : list string) (defaults : dict) (tag : string)
  (d : dict) (k : string) :
  ~ In k order -> k <> "_type" ->
  dict_get k (normal_form order defaults tag d) = None.
Proof.
  intros Hk Ht. unfold normal_form.
  rewrite dict_get_app, dict_get_map, (existsb_eqb_not_In k order Hk).
  cbn [dict_get]. destruct (String.eqb "_type" k) eqn:E; [|reflexivity].
  apply String.eqb_eq in E. now subst k.
Qed.

(** X8.  In a normalised record the port is always a text, the text form of the
    raw port or the empty text when the raw record has none, and
    allowInsecure is always the integer 0 or 1, the truthy coercion of the
    raw value or 1 when the raw record has none. *)
Theorem normalized_port_and_flag (r : dict) :
  dict_get "port" (normalize_entry r)
  = Some (VStr match dict_get "port" r with
               | Some v => py_str v
               | None => ""
               end)
  /\ dict_get "allowInsecure" (normalize_entry r)
     = Some (VInt match dict_get "allowInsecure" r with
                  | Some v => truthy_to_int v
                  | None => 1
                  end)
  /\ (dict_get "allowInsecure" (normalize_entry r) = Some (VInt 0)
      \/ dict_get "allowInsecure" (normalize_entry r) = Some (VInt 1)).
Proof.
  destruct (canonical_tables r) as [Hp [Ha [_ [Hdp Hda]]]].
  rewrite normalize_entry_normal_form.
  rewrite !dict_get_normal_form by now apply existsb_eqb_In.
  unfold norm_field, coerced_get, dict_get_default. rewrite Hdp, Hda.
  change (String.eqb "port" "port") with true.
  change (String.eqb "allowInsecure" "port") with false.
  change (String.eqb "allowInsecure" "allowInsecure") with true.
  cbv iota.
  split; [now destruct (dict_get "port" r)|].
  split; [now destruct (dict_get "allowInsecure" r)|].
  destruct (dict_get "allowInsecure" r) as [v|]; [|now right].
  destruct (truthy_to_int_range v) as [E|E]; rewrite E; auto.
Qed.

(** X9.  Normalisation keeps the value of every canonical field of the scheme
    that the raw record has, port and allowInsecure apart; gives a missing
    canonical field the default of the scheme, or the empty text; and
    drops every field that is not canonical. *)
Theorem normalized_other_fields (r : dict) (k : string) :
  (In k (canonical_order r) -> k <> "port" -> k <> "allowInsecure" ->
   dict_get k (normalize_entry r)
   = Some match dict_get k r with
          | Some v => v
          | None => dict_get_default k (VStr "") (canonical_defaults r)
          end)
  /\ (~ In k (canonical_order r) -> k <> "_type" ->
      dict_get k (normalize_entry r) = None)
  /\ dict_get "_type" (normalize_entry r) = Some (VStr (canonical_tag r)).
Proof.
  rewrite normalize_entry_normal_form.
  split; [|split].
  - intros Hk Hp Ha. rewrite dict_get_normal_form by now apply existsb_eqb_In.
    unfold norm_field, coerced_get.
    apply String.eqb_neq in Hp, Ha. rewrite Hp, Ha.
    now destruct (dict_get k r).
  - apply dict_get_normal_form_other.
  - apply dict_get_normal_form_type. apply existsb_eqb_not_In.
    apply (canonical_tables r).
Qed.

(** ** What a substitution changes *)

Lemma keys_put_if_present (key rep : string) (d : dict) :
  keys (put_if_present key rep d) = keys d.
Proof.
  unfold put_if_present. destruct (dict_has key d) eqn:E; [|reflexivity].
  now rewrite keys_dict_set, E.
Qed.

Lemma keys_put_label (rep : string) (d : dict) : keys (put_label rep d) = keys d.
Proof.
  unfold put_label. destruct (dict_get "ps" d) as [old|] eqn:E; [|reflexivity].
  rewrite keys_dict_set. unfold dict_has. now rewrite E.
Qed.

Lemma dict_get_put_if_present_same (key rep : string) (d : dict) :
  dict_get key (put_if_present key rep d)
  = if dict_has key d then Some (VStr rep) else None.
Proof.
  unfold put_if_present, dict_has.
  destruct (dict_get key d) eqn:E; [apply dict_get_set_same | exact E].
Qed.

Lemma dict_get_put_label_same (rep : string) (d : dict) :
  dict_get "ps" (put_label rep d)
  = option_map (fun old => VStr (py_str old ++ " (" ++ rep ++ ")")) (dict_get "ps" d).
Proof.
  unfold put_label.
  destruct (dict_get "ps" d) eqn:E; [apply dict_get_set_same | exact E].
Qed.

Lemma vless_subst_dict (d : dict) (rep : string) (t : value) :
  (dict_has "host" d = true -> dict_get "type" d = Some t) ->
  vless_subst (VDict d) rep
  = Ok (VDict (put_label rep
                 (if (dict_has "host" d && negb (host_exempt t))%bool
                  then dict_set "host" (VStr rep) (put_if_present "sni" rep d)
                  else put_if_present "sni" rep d))).
Proof.
  intros Ht. unfold vless_subst.
  rewrite set_if_present_dict, bind_ok, set_host_vless_dict.
  assert (Hh : dict_has "host" (put_if_present "sni" rep d) = dict_has "host" d).
  { unfold dict_has. now rewrite dict_get_put_if_present by discriminate. }
  assert (Hty : dict_get "type" (put_if_present "sni" rep d) = dict_get "type" d)
    by now rewrite dict_get_put_if_present by discriminate.
  rewrite Hh, Hty.
  destruct (dict_has "host" d); cbn [andb].
  - rewrite (Ht eq_refl), bind_ok, label_if_present_dict.
    now destruct (host_exempt t).
  - now rewrite bind_ok, label_if_present_dict.
Qed.

Lemma substitution_frame_lemma (d : dict) (rep : string) :
  let framed (d' : dict) :=
    keys d' = keys d
    /\ (forall k, k <> "sni" -> k <> "host" -> k <> "ps" -> dict_get k d' = dict_get k d)
    /\ dict_get "sni" d' = (if dict_has "sni" d then Some (VStr rep) else None)
    /\ dict_get "ps" d'
       = option_map (fun old => VStr (py_str old ++ " (" ++ rep ++ ")")) (dict_get "ps" d) in
  (exists d', vmess_subst (VDict d) rep = Ok (VDict d') /\ framed d')
  /\ (forall v, vless_subst (VDict d) rep = Ok v -> exists d', v = VDict d' /\ framed d').
Proof.
  intros framed.
  assert (Hsni : forall d0, keys d0 = keys (put_if_present "sni" rep d)
             -> (forall k, k <> "host" -> dict_get k d0 = dict_get k (put_if_present "sni" rep d))
             -> framed (put_label rep d0)).
  { intros d0 Hk Hg. unfold framed. split; [|split; [|split]].
    - now rewrite keys_put_label, Hk, keys_put_if_present.
    - intros k H1 H2 H3.
      rewrite dict_get_put_label, Hg, dict_get_put_if_present by assumption. reflexivity.
    - rewrite dict_get_put_label, Hg by discriminate.
      apply dict_get_put_if_present_same.
    - rewrite dict_get_put_label_same, Hg by discriminate.
      now rewrite dict_get_put_if_present by discriminate. }
  split.
  - eexists. split; [apply vmess_subst_dict|]. apply Hsni.
    + apply keys_put_if_present.
    + intros k Hk. now apply dict_get_put_if_present.
  - intros v Hv.
    destruct (dict_has "host" d) eqn:Eh.
    + destruct (dict_get "type" d) as [t|] eqn:Et.
      * rewrite (vless_subst_dict d rep t) in Hv by (intros _; exact Et).
        injection Hv as <-. eexists. split; [reflexivity|]. rewrite Eh. apply Hsni.
        -- destruct (true && negb (host_exempt t))%bool; [|reflexivity].
           rewrite keys_dict_set.
           assert (Hh : dict_has "host" (put_if_present "sni" rep d) = true)
             by (unfold dict_has in *; now rewrite dict_get_put_if_present by discriminate).
           now rewrite Hh.
        -- intros k Hk. destruct (true && negb (host_exempt t))%bool; [|reflexivity].
           apply dict_get_set_other. congruence.
      * exfalso. revert Hv. unfold vless_subst.
        rewrite set_if_present_dict, bind_ok, set_host_vless_dict.
        assert (Hh : dict_has "host" (put_if_present "sni" rep d) = true)
          by (unfold dict_has in *; now rewrite dict_get_put_if_present by discriminate).
        rewrite Hh, dict_get_put_if_present, Et by discriminate.
        unfold bind. discriminate.
    + rewrite (vless_subst_dict d rep VNone) in Hv by congruence.
      injection Hv as <-. eexists. split; [reflexivity|]. rewrite Eh.
      apply Hsni; reflexivity.
Qed.

(** X10.  A substitution into a template record adds no field, removes none and
    keeps their order; it leaves every field other than sni, host and ps
    as it was; it sets sni to the substitution value when the template has
    one; and it turns a label into the text of the old label followed by
    the substitution value in parentheses.  This holds for a scheme-A
    substitution, which always succeeds, and for a scheme-B substitution
    whenever it succeeds. *)
Theorem substitution_frame (d : dict) (rep : string) :
  let framed (d' : dict) :=
    keys d' = keys d
    /\ (forall k, k <> "sni" -> k <> "host" -> k <> "ps" -> dict_get k d' = dict_get k d)
    /\ dict_get "sni" d' = (if dict_has "sni" d then Some (VStr rep) else None)
    /\ dict_get "ps" d'
       = option_map (fun old => VStr (py_str old ++ " (" ++ rep ++ ")")) (dict_get "ps" d) in
  (exists d', vmess_subst (VDict d) rep = Ok (VDict d') /\ framed d')
  /\ (forall v, vless_subst (VDict d) rep = Ok v -> exists d', v = VDict d' /\ framed d').
Proof. exact (substitution_frame_lemma d rep). Qed.

(** ** Templates that are not structured text *)

Lemma flat_map_nil {A B : Type} (l : list A) : flat_map (fun _ : A => @nil B) l = [].
Proof. induction l; auto. Qed.

Lemma flat_map_singleton {A B : Type} (f : A -> B) (l : list A) :
  flat_map (fun x => [f x]) l = map f l.
Proof. induction l as [|x l IH]; [reflexivity|]. cbn. now rewrite IH. Qed.

(** X11.  When the template does not parse as JSON, generation goes by its
    prefix: a template that starts with the scheme-B prefix yields no line
    at all, only the parse error once for each substitution; any other
    template yields for each substitution the scheme-A line of the
    template text with the legacy host name replaced. *)
Theorem raw_template_lines (template : string) (replacements : list string) (e : exn) :
  json_loads template = Raise e ->
  make_proxy_lines template replacements
  = if startswith template "vless://"
    then ([], map (fun _ => e) replacements)
    else (map (fun rep => "vmess://" ++ b64encode (replace "vk.com" rep template))
            replacements, []).
Proof.
  intros H. unfold make_proxy_lines, proxy_type. rewrite H. unfold bind at 1.
  destruct (startswith template "vless://").
  - change (eq_str (VStr "vless") "vmess") with false. cbv iota.
    rewrite make_vless_lines_split. unfold vless_try. rewrite H. unfold bind.
    now rewrite flat_map_nil, flat_map_singleton.
  - change (eq_str (VStr "vmess") "vmess") with true. cbv iota.
    rewrite make_vmess_lines_map. f_equal. apply map_ext. intros rep.
    unfold vmess_line, vmess_try. rewrite H. reflexivity.
Qed.

(** ** The scheme B encoder *)

Lemma urlunparse_vless_text (nl qry t : string) :
  String.eqb nl "" = false ->
  urlunparse "vless" nl qry (VStr t) = Ok (vless_url nl qry t).
Proof.
  intros Hnl. unfold urlunparse, vless_url. rewrite bind_ok, Hnl. f_equal.
  change (truthy (VStr t)) with (negb (String.eqb t "")).
  destruct (String.eqb qry ""), (String.eqb t ""); simpl;
    rewrite ?sapp_assoc, ?sapp_nil_r; reflexivity.
Qed.

Lemma urlunparse_vless_other (nl qry : string) (f : value) :
  match f with VStr _ => False | _ => True end ->
  String.eqb nl "" = false ->
  urlunparse "vless" nl qry f
  = if truthy f then Raise TypeError else Ok (vless_url nl qry "").
Proof.
  intros Hf Hnl. unfold urlunparse, vless_url.
  destruct f as [|b|z|x|t|l|d0]; try contradiction;
    match goal with
    | |- context [truthy ?v] => destruct (truthy v); [reflexivity|]
    end;
    rewrite bind_ok, Hnl; f_equal;
    destruct (String.eqb qry ""); cbn [negb String.eqb];
    rewrite ?sapp_assoc, ?sapp_nil_r; reflexivity.
Qed.

Lemma vless_netloc_nonempty (i a p : string) :
  String.eqb (i ++ "@" ++ a ++ ":" ++ p) "" = false.
Proof.
  change (i ++ "@" ++ a ++ ":" ++ p) with (i ++ String "@"%char (a ++ ":" ++ p)).
  apply eqb_app_nonempty.
Qed.

Lemma encode_vless_url_result_lemma (d : dict) :
  encode_vless_url (VDict d)
  = match dict_get "id" d, dict_get "add" d, dict_get "port" d with
    | None, _, _ => Raise (KeyError "id")
    | Some _, None, _ => Raise (KeyError "add")
    | Some _, Some _, None => Raise (KeyError "port")
    | Some i, Some a, Some p =>
        let nl := py_str i ++ "@" ++ py_str a ++ ":" ++ py_str p in
        let qry := urlencode (vless_query_params d) in
        match dict_get_default "ps" (VStr "") d with
        | VStr t => Ok (vless_url nl qry t)
        | f => if truthy f then Raise TypeError else Ok (vless_url nl qry "")
        end
    end.
Proof.
  unfold encode_vless_url, py_getitem, dict_item.
  destruct (dict_get "id" d) as [i|]; [rewrite bind_ok | reflexivity].
  destruct (dict_get "add" d) as [a|]; [rewrite bind_ok | reflexivity].
  destruct (dict_get "port" d) as [p|]; [rewrite bind_ok | reflexivity].
  cbv zeta.
  generalize (vless_netloc_nonempty (py_str i) (py_str a) (py_str p)).
  generalize (py_str i ++ "@" ++ py_str a ++ ":" ++ py_str p) as nl.
  generalize (urlencode (vless_query_params d)) as qry.
  intros qry nl Hnl.
  destruct (dict_get_default "ps" (VStr "") d) as [|b|z|f|t|l|d0].
  - exact (urlunparse_vless_other nl qry VNone I Hnl).
  - exact (urlunparse_vless_other nl qry (VBool b) I Hnl).
  - exact (urlunparse_vless_other nl qry (VInt z) I Hnl).
  - exact (urlunparse_vless_other nl qry (VFloat f) I Hnl).
  - exact (urlunparse_vless_text nl qry t Hnl).
  - exact (urlunparse_vless_other nl qry (VList l) I Hnl).
  - exact (urlunparse_vless_other nl qry (VDict d0) I Hnl).
Qed.


Lemma normal_form_has (order : list string) (defaults : dict) (tag : string) (d : dict)
  (k : string) :
  In k order -> exists v, dict_get k (normal_form order defaults tag d) = Some v.
Proof.
  intros H. eexists. apply dict_get_normal_form. now apply existsb_eqb_In.
Qed.

Lemma vless_try_normalised (r : dict) (rep : string) :
  exists n' line,
    vless_subst (VDict (normalize_vless_entry r)) rep = Ok (VDict n')
    /\ encode_vless_url (VDict n') = Ok line
    /\ startswith line "vless://" = true.
Proof.
  set (n := normalize_vless_entry r).
  assert (Hhas : forall k, In k WANTED_ORDER_VLESS -> exists v, dict_get k n = Some v).
  { intros k Hk. unfold n. rewrite normalize_vless_normal_form. now apply normal_form_has. }
  destruct (Hhas "type" ltac:(cbv; tauto)) as [ty Hty].
  destruct (Hhas "id" ltac:(cbv; tauto)) as [i Hi].
  destruct (Hhas "add" ltac:(cbv; tauto)) as [a Ha].
  destruct (Hhas "port" ltac:(cbv; tauto)) as [p Hp].
  destruct (Hhas "ps" ltac:(cbv; tauto)) as [old Hps].
  destruct (proj2 (substitution_frame_lemma n rep) _
              (vless_subst_dict n rep ty (fun _ => Hty)))
    as [n' [E [_ [Hframe [_ Hlabel]]]]].
  eexists. eexists. split; [rewrite (vless_subst_dict n rep ty (fun _ => Hty)), E; reflexivity|].
  rewrite encode_vless_url_result_lemma.
  rewrite !Hframe by discriminate. rewrite Hi, Ha, Hp. cbv zeta.
  unfold dict_get_default. rewrite Hlabel, Hps. cbn [option_map].
  split; [reflexivity|]. unfold vless_url. apply startswith_app.
Qed.


(** ** The encoder of files and the whole run *)

Lemma rstrip_chars_last (p : ascii -> bool) (s : string) (c : ascii) :
  p c = false -> rstrip_chars p (s ++ str1 c) = s ++ str1 c.
Proof.
  intros H. unfold rstrip_chars. rewrite srev_append.
  change (srev (str1 c) ++ srev s) with (String c (srev s)).
  rewrite lstrip_chars_head by exact H.
  change (String c (srev s)) with (srev (str1 c) ++ srev s).
  now rewrite <- srev_append, srev_involutive.
Qed.

Lemma read_first_json_dict (d : dict) (rest : list string) :
  read_first_nonempty_line (json_dumps (VDict d) :: rest) = json_dumps (VDict d).
Proof.
  cbn [read_first_nonempty_line]. cbv zeta.
  assert (E : rstrip_chars is_newline (json_dumps (VDict d)) = json_dumps (VDict d)).
  { destruct (json_dumps_dict_braces d) as [body E]. rewrite E.
    change (String "{"%char (body ++ "}")) with (("{" ++ body) ++ str1 "}"%char).
    now apply rstrip_chars_last. }
  rewrite E, strip_json_dict.
  destruct (json_dumps_dict_braces d) as [body E']. now rewrite E'.
Qed.

Lemma written_record_json (line compact : string) (v : bool) :
  process_line line = Written compact v -> exists d, compact = json_dumps (VDict d).
Proof.
  unfold process_line. cbv zeta.
  destruct (String.eqb (strip line) ""); [discriminate|].
  destruct (decode_vmess_or_vless_line (strip line)); [|discriminate].
  intros [= <- _]. eexists. reflexivity.
Qed.

Lemma written_records_json (lines : list string) (rec : string) (recs : list string) :
  written_records lines = rec :: recs -> exists d, rec = json_dumps (VDict d).
Proof.
  unfold written_records. induction lines as [|l r IH]; [discriminate|].
  cbn [flat_map]. destruct (process_line l) as [|c v|e] eqn:E; cbn [app]; auto.
  intros [= <- _]. now apply (written_record_json l c v).
Qed.

Lemma decode_script_no_exit (tmpl tmp : string) (fs : fsys) (lines : list string) :
  fs tmpl = Some lines -> exit_status (decode_file_inplace tmpl tmp fs) = None.
Proof.
  intros H. unfold decode_file_inplace. rewrite H. cbv zeta.
  assert (Hloop : forall idx ls tail,
             exit_status (loop_effects tmp idx ls ++ tail)%list = exit_status tail).
  { intros idx ls tail. revert idx. induction ls as [|l r IH]; intros idx; [reflexivity|].
    cbn [loop_effects]. rewrite <- app_assoc. unfold line_effects.
    destruct (process_line l); cbn [app exit_status]; apply IH. }
  cbn [app exit_status]. now rewrite Hloop.
Qed.

Lemma main_generates_from_first_record_lemma
  (tmpl sni out tmp : string) (fs : fsys) (lines sni_lines : list string) :
  tmp <> tmpl -> sni <> tmpl -> sni <> tmp ->
  fs tmpl = Some lines -> fs sni = Some sni_lines ->
  let '(final, _, status) := snd (main tmpl sni out tmp fs) in
  match written_records lines with
  | [] => status = Some 1 /\ final = run (decode_file_inplace tmpl tmp fs) fs
  | rec :: _ =>
      status = None
      /\ final out = Some (fst (make_proxy_lines rec (read_lines sni_lines)))
      /\ forall p, p <> out -> final p = run (decode_file_inplace tmpl tmp fs) fs p
  end.
Proof.
  intros Hne Hs1 Hs2 Htmpl Hsni. unfold main. cbv zeta. cbn [snd].
  rewrite (decode_script_no_exit tmpl tmp fs lines Htmpl).
  destruct (decode_file_inplace_result_lemma tmpl tmp fs lines Hne Htmpl)
    as [H1 [_ [H3 _]]].
  unfold encode_files. rewrite H1, (H3 sni Hs1 Hs2), Hsni.
  destruct (written_records lines) as [|rec recs] eqn:Ew.
  - cbn [read_first_nonempty_line]. change (String.eqb "" "") with true. cbv iota.
    split; reflexivity.
  - destruct (written_records_json lines rec recs Ew) as [d ->].
    rewrite read_first_json_dict.
    destruct (json_dumps_dict_braces d) as [body E].
    assert (Hne' : String.eqb (json_dumps (VDict d)) "" = false) by now rewrite E.
    rewrite Hne'. cbv zeta.
    destruct (read_lines sni_lines) as [|rep reps] eqn:Er.
    + split; [reflexivity|]. split.
      * rewrite fs_set_same. unfold make_proxy_lines.
        destruct (eq_str (proxy_type (json_dumps (VDict d))) "vmess"); reflexivity.
      * intros p Hp. now apply fs_set_other.
    + destruct (make_proxy_lines (json_dumps (VDict d)) (rep :: reps)) as [pl errs].
      split; [reflexivity|]. split.
      * now rewrite fs_set_same.
      * intros p Hp. now apply fs_set_other.
Qed.


Lemma norm_field_set_type (defaults d : dict) (v : value) (k : string) :
  k <> "_type" ->
  norm_field defaults (dict_set "_type" v d) k = norm_field defaults d k.
Proof.
  intros H. unfold norm_field, coerced_get.
  rewrite dict_get_set_other by congruence. reflexivity.
Qed.

Lemma normalize_vmess_set_type (d : dict) :
  normalize_entry (dict_set "_type" (VStr "vmess") d) = normalize_vmess_entry d.
Proof.
  unfold normalize_entry. rewrite dict_get_set_same.
  change (eq_str (VStr "vmess") "vless") with false. cbv iota.
  rewrite !normalize_vmess_normal_form. unfold normal_form. f_equal.
  apply map_ext_in. intros k Hk. f_equal. apply norm_field_set_type.
  intros ->. cbv [In WANTED_ORDER_VMESS] in Hk.
  repeat (destruct Hk as [Hk|Hk]; [discriminate Hk|]). exact Hk.
Qed.

Lemma plain_record_values (d : dict) :
  plain_record d = true -> forallb (fun kv => plain_value (snd kv)) d = true.
Proof.
  unfold plain_record. intros H. rewrite forallb_forall in H. apply forallb_forall.
  intros kv Hin. specialize (H kv Hin). now apply andb_true_iff in H.
Qed.

Lemma process_vmess_link (d : dict) :
  nodupb (keys d) = true -> plain_record d = true ->
  process_line (vmess_link (VDict d))
  = Written (json_dumps (VDict (normalize_vmess_entry d))) true.
Proof.
  intros Hnd Hp. destruct (plain_record_round_trips d Hnd Hp) as [Hutf Hjson].
  pose proof (decode_vmess_link (VDict d) d Hutf Hjson) as Hdec.
  unfold process_line. cbv zeta. revert Hdec. unfold vmess_link. cbv zeta.
  rewrite strip_vmess_link. intros Hdec.
  change (String.eqb ("vmess://" ++ b64encode (json_dumps (VDict d))) "") with false.
  cbv iota. rewrite Hdec, normalize_vmess_set_type.
  assert (Hty : dict_get_default "_type" VNone (normalize_vmess_entry d) = VStr "vmess").
  { unfold dict_get_default. rewrite normalize_vmess_normal_form.
    now rewrite dict_get_normal_form_type. }
  now rewrite Hty.
Qed.

Lemma vmess_lines_of_normalised (r : dict) (replacements : list string) :
  forallb (fun kv => plain_value (snd kv)) r = true ->
  let n := normalize_vmess_entry r in
  make_proxy_lines (json_dumps (VDict n)) replacements
  = (map (fun rep =>
            vmess_link
              (VDict (dict_set "ps"
                        (VStr (py_str (dict_get_default "ps" VNone n) ++ " (" ++ rep ++ ")"))
                        (dict_set "host" (VStr rep) (dict_set "sni" (VStr rep) n)))))
       replacements, []).
Proof.
  intros Hr. cbv zeta.
  pose proof (normalize_vmess_normal_form r) as Hn.
  revert Hn. generalize (normalize_vmess_entry r) as n. intros n Hn.
  assert (Hjson : json_loads (json_dumps (VDict n)) = Ok (VDict n)).
  { rewrite Hn. apply plain_record_round_trips.
    - now apply nodupb_keys_normal_form.
    - now apply normal_form_plain. }
  assert (Hhas : forall k, In k WANTED_ORDER_VMESS -> exists v, dict_get k n = Some v).
  { intros k Hk. rewrite Hn. now apply normal_form_has. }
  assert (Hty : dict_get "_type" n = Some (VStr "vmess")).
  { rewrite Hn. now apply dict_get_normal_form_type. }
  unfold make_proxy_lines, proxy_type. rewrite Hjson, bind_ok.
  cbn [py_get]. unfold dict_get_default at 1. rewrite Hty.
  change (eq_str (VStr "vmess") "vmess") with true. cbv iota.
  rewrite make_vmess_lines_map. f_equal. apply map_ext. intros rep.
  unfold vmess_line, vmess_try. rewrite Hjson, bind_ok, vmess_subst_dict, bind_ok.
  do 2 f_equal.
  destruct (Hhas "sni" ltac:(cbv; tauto)) as [s Hs].
  destruct (Hhas "host" ltac:(cbv; tauto)) as [h Hh].
  destruct (Hhas "ps" ltac:(cbv; tauto)) as [l Hl].
  unfold put_label, put_if_present, dict_has.
  rewrite Hs. rewrite (dict_get_set_other "host" "sni") by discriminate. rewrite Hh.
  rewrite !(dict_get_set_other "ps") by discriminate.
  unfold dict_get_default. now rewrite Hl.
Qed.

(** X15.  When the first line of the template file is the scheme-A link of a
    record of plain fields, the whole run does not exit and leaves in the
    output file, for each non-blank line of the substitution file, trimmed
    and in order, the scheme-A link of the normalised record with sni and
    host set to that value and the label extended by it in parentheses. *)
Theorem main_vmess_pipeline
  (tmpl sni out tmp : string) (fs : fsys) (d : dict) (rest sni_lines : list string) :
  tmp <> tmpl -> sni <> tmpl -> sni <> tmp ->
  nodupb (keys d) = true -> plain_record d = true ->
  fs tmpl = Some (vmess_link (VDict d) :: rest) -> fs sni = Some sni_lines ->
  let n := normalize_vmess_entry d in
  let '(final, _, status) := snd (main tmpl sni out tmp fs) in
  status = None
  /\ final out
     = Some (map (fun rep =>
                    vmess_link
                      (VDict (dict_set "ps"
                                (VStr (py_str (dict_get_default "ps" VNone n)
                                       ++ " (" ++ rep ++ ")"))
                                (dict_set "host" (VStr rep)
                                   (dict_set "sni" (VStr rep) n)))))
               (read_lines sni_lines)).
Proof.
  intros Hne Hs1 Hs2 Hnd Hp Htmpl Hsni n.
  pose proof (main_generates_from_first_record_lemma tmpl sni out tmp fs _ sni_lines
                Hne Hs1 Hs2 Htmpl Hsni) as H.
  destruct (snd (main tmpl sni out tmp fs)) as [[final notices] status].
  unfold written_records in H. cbn [flat_map] in H.
  rewrite (process_vmess_link d Hnd Hp) in H. cbn [app] in H.
  destruct H as [Hst [Hout _]]. split; [exact Hst|].
  rewrite Hout.
  now rewrite (vmess_lines_of_normalised d (read_lines sni_lines)
                 (plain_record_values d Hp)).
Qed.

(** ** The parts of a scheme B link *)

Lemma parse_vless_url_port_error (url : string) (parsed : ParseResult) (e : exn) :
  urlparse url = Ok parsed -> port parsed = Raise e -> parse_vless_url url = Raise e.
Proof.
  intros Hu Hp. unfold parse_vless_url. rewrite Hu, bind_ok, Hp. reflexivity.
Qed.

Lemma parse_vless_url_no_port (url : string) (parsed : ParseResult) (u h : string) :
  urlparse url = Ok parsed ->
  port parsed = Ok None ->
  username parsed = Some u ->
  hostname parsed = Some h ->
  query parsed = "" ->
  parse_vless_url url
  = Ok [("id", VStr u); ("add", VStr h); ("port", VStr "None");
        ("ps", VStr (fragment parsed))].
Proof.
  intros Hu Hp Hn Hh Hq. unfold parse_vless_url.
  rewrite Hu, bind_ok, Hp, bind_ok, Hn, Hh, Hq. reflexivity.
Qed.

Lemma Z_of_digits_from_nonneg (s : string) (acc : Z) :
  0 <= acc -> sforall is_digit s = true -> 0 <= Z_of_digits_from acc s.
Proof.
  revert acc. induction s as [|c s IH]; intros acc Hacc Hs; [exact Hacc|].
  cbn [sforall Z_of_digits_from] in *. apply andb_true_iff in Hs. destruct Hs as [Hc Hs].
  apply IH; [|exact Hs].
  assert (0 <= digit_val c); [|lia].
  unfold digit_val. unfold is_digit, in_range in Hc.
  apply andb_true_iff in Hc. destruct Hc as [Hc _]. apply N.leb_le in Hc. lia.
Qed.

Section NetlocEdges.

Variables (i a ptxt t : string).
Hypothesis Hi : sforall netloc_char i = true.
Hypothesis Ha : sforall netloc_char a = true.
Hypothesis Ha_nonempty : a <> "".
Hypothesis Ha_lower : sforall (fun c => negb (is_upper c)) a = true.
Hypothesis Hp : sforall netloc_char ptxt = true.
Hypothesis Hp_nonempty : ptxt <> "".
Hypothesis Ht : sforall label_char t = true.

Lemma netloc_not_mem (c : ascii) (s : string) :
  netloc_char c = false -> sforall netloc_char s = true -> smem c s = false.
Proof. apply sforall_not_mem. Qed.

Lemma hostname_of_hostinfo (parsed : ParseResult) (po : option string) :
  hostinfo parsed = (a, po) -> hostname parsed = Some a.
Proof.
  intros H. unfold hostname. rewrite H. cbn [fst].
  destruct a as [|c a']; [contradiction|].
  set (host := String c a') in *.
  destruct (partition "%"%char host) as [[h zone]|] eqn:P.
  - apply partition_spec in P. destruct P as [Pa _].
    rewrite lower_fixed.
    + now rewrite Pa.
    + rewrite Pa, sforall_app in Ha_lower.
      now apply andb_true_iff in Ha_lower.
  - now rewrite lower_fixed.
Qed.

Lemma hostinfo_with_port (qry : string) :
  hostinfo {| scheme := "vless"; netloc := i ++ "@" ++ a ++ ":" ++ ptxt;
              path := ""; query := qry; fragment := t |}
  = (a, Some ptxt).
Proof.
  unfold hostinfo, py_rpartition, py_partition. cbn [netloc].
  change (i ++ "@" ++ a ++ ":" ++ ptxt)
    with (i ++ String "@"%char (a ++ String ":"%char ptxt)).
  rewrite rpartition_app.
  - rewrite (partition_none "["%char).
    + rewrite partition_app by (now apply netloc_not_mem).
      destruct ptxt; [contradiction | reflexivity].
    + rewrite smem_app, smem_cons.
      rewrite !netloc_not_mem by (reflexivity || assumption). reflexivity.
  - rewrite smem_app, smem_cons.
    rewrite !netloc_not_mem by (reflexivity || assumption). reflexivity.
Qed.

Lemma username_with_port (qry : string) :
  username {| scheme := "vless"; netloc := i ++ "@" ++ a ++ ":" ++ ptxt;
              path := ""; query := qry; fragment := t |} = Some i.
Proof.
  unfold username, py_rpartition, py_partition. cbn [netloc].
  change (i ++ "@" ++ a ++ ":" ++ ptxt)
    with (i ++ String "@"%char (a ++ String ":"%char ptxt)).
  rewrite rpartition_app.
  - rewrite (partition_none ":"%char i); auto. now apply netloc_not_mem.
  - rewrite smem_app, smem_cons.
    rewrite !netloc_not_mem by (reflexivity || assumption). reflexivity.
Qed.

Lemma hostinfo_without_port (qry : string) :
  hostinfo {| scheme := "vless"; netloc := i ++ "@" ++ a;
              path := ""; query := qry; fragment := t |}
  = (a, None).
Proof.
  unfold hostinfo, py_rpartition, py_partition. cbn [netloc].
  change (i ++ "@" ++ a) with (i ++ String "@"%char a).
  rewrite rpartition_app by (now apply netloc_not_mem).
  rewrite (partition_none "["%char) by (now apply netloc_not_mem).
  rewrite (partition_none ":"%char) by (now apply netloc_not_mem).
  reflexivity.
Qed.

Lemma username_without_port (qry : string) :
  username {| scheme := "vless"; netloc := i ++ "@" ++ a;
              path := ""; query := qry; fragment := t |} = Some i.
Proof.
  unfold username, py_rpartition, py_partition. cbn [netloc].
  change (i ++ "@" ++ a) with (i ++ String "@"%char a).
  rewrite rpartition_app by (now apply netloc_not_mem).
  rewrite (partition_none ":"%char i); auto. now apply netloc_not_mem.
Qed.

Lemma authority_with_port : sforall authority_char (i ++ "@" ++ a ++ ":" ++ ptxt) = true.
Proof.
  change (i ++ "@" ++ a ++ ":" ++ ptxt)
    with (i ++ String "@"%char (a ++ String ":"%char ptxt)).
  rewrite sforall_app. cbn [sforall]. rewrite sforall_app. cbn [sforall].
  rewrite (sforall_impl netloc_char authority_char i netloc_char_authority Hi).
  rewrite (sforall_impl netloc_char authority_char a netloc_char_authority Ha).
  rewrite (sforall_impl netloc_char authority_char ptxt netloc_char_authority Hp).
  reflexivity.
Qed.

Lemma authority_without_port : sforall authority_char (i ++ "@" ++ a) = true.
Proof.
  change (i ++ "@" ++ a) with (i ++ String "@"%char a).
  rewrite sforall_app. cbn [sforall].
  rewrite (sforall_impl netloc_char authority_char i netloc_char_authority Hi).
  rewrite (sforall_impl netloc_char authority_char a netloc_char_authority Ha).
  reflexivity.
Qed.

End NetlocEdges.

Lemma port_of_hostinfo (parsed : ParseResult) (h ptxt : string) :
  hostinfo parsed = (h, Some ptxt) ->
  sforall netloc_char ptxt = true ->
  port parsed
  = if (isdigit ptxt && Z.leb (Z_of_digits ptxt) 65535)%bool
    then Ok (Some (Z_of_digits ptxt)) else Raise ValueError.
Proof.
  intros H Hp. unfold port. rewrite H. cbn [snd].
  assert (Hascii : isascii ptxt = true).
  { apply (sforall_impl netloc_char); [|exact Hp].
    intros c Hc. now apply netloc_char_classes. }
  rewrite Hascii, andb_true_r.
  destruct (isdigit ptxt) eqn:Ed; [|reflexivity]. cbn [andb].
  assert (H0 : Z.leb 0 (Z_of_digits ptxt) = true).
  { apply Z.leb_le. apply Z_of_digits_from_nonneg; [lia|].
    unfold isdigit in Ed. now destruct ptxt. }
  now rewrite H0.
Qed.

(** X16.  How the decoder of scheme-B links reads the port.  A link with no port
    decodes to a record whose port is the text None.  A link with a port
    text is rejected with ValueError unless the text is all digits and at
    most 65535 as a number, and then the port of the record is the decimal
    text of that number, leading zeros gone. *)
Theorem vless_port_reading (i a t : string) :
  sforall netloc_char i = true ->
  sforall netloc_char a = true -> a <> "" ->
  sforall (fun c => negb (is_upper c)) a = true ->
  sforall label_char t = true ->
  parse_vless_url (vless_url (i ++ "@" ++ a) "" t)
  = Ok [("id", VStr i); ("add", VStr a); ("port", VStr "None"); ("ps", VStr t)]
  /\ forall ptxt,
       sforall netloc_char ptxt = true -> ptxt <> "" ->
       parse_vless_url (vless_url (i ++ "@" ++ a ++ ":" ++ ptxt) "" t)
       = if (isdigit ptxt && Z.leb (Z_of_digits ptxt) 65535)%bool
         then Ok [("id", VStr i); ("add", VStr a);
                  ("port", VStr (string_of_Z (Z_of_digits ptxt))); ("ps", VStr t)]
         else Raise ValueError.
Proof.
  intros Hi Ha Hne Hlow Ht. split.
  - assert (Hu : urlparse (vless_url (i ++ "@" ++ a) "" t)
                 = Ok {| scheme := "vless"; netloc := i ++ "@" ++ a; path := "";
                         query := ""; fragment := t |}).
    { apply urlparse_vless_url; [now apply authority_without_port | reflexivity | exact Ht]. }
    assert (Hh : hostinfo {| scheme := "vless"; netloc := i ++ "@" ++ a; path := "";
                             query := ""; fragment := t |} = (a, None))
      by now apply hostinfo_without_port.
    apply (parse_vless_url_no_port _ _ i a Hu).
    + unfold port. now rewrite Hh.
    + now apply username_without_port.
    + eapply hostname_of_hostinfo; eassumption.
    + reflexivity.
  - intros ptxt Hp Hpne.
    assert (Hu : urlparse (vless_url (i ++ "@" ++ a ++ ":" ++ ptxt) "" t)
                 = Ok {| scheme := "vless"; netloc := i ++ "@" ++ a ++ ":" ++ ptxt;
                         path := ""; query := ""; fragment := t |}).
    { apply urlparse_vless_url; [now apply authority_with_port | reflexivity | exact Ht]. }
    assert (Hh : hostinfo {| scheme := "vless"; netloc := i ++ "@" ++ a ++ ":" ++ ptxt;
                             path := ""; query := ""; fragment := t |} = (a, Some ptxt))
      by now apply hostinfo_with_port.
    pose proof (port_of_hostinfo _ a ptxt Hh Hp) as Hport.
    destruct (isdigit ptxt && Z.leb (Z_of_digits ptxt) 65535)%bool.
    + rewrite (parse_vless_url_parts _ _ i a (Z_of_digits ptxt) Hu Hport).
      * reflexivity.
      * now apply username_with_port.
      * eapply hostname_of_hostinfo; eassumption.
    + exact (parse_vless_url_port_error _ _ _ Hu Hport).
Qed.


(** ** The files a run touches *)

Lemma encode_files_frame (tmpl sni out : string) (fs : fsys) :
  let '(final, _, status) := encode_files tmpl sni out fs in
  (forall p, p <> out -> final p = fs p)
  /\ (status <> None -> final = fs).
Proof.
  unfold encode_files.
  destruct (fs tmpl) as [tl|]; [|split; [reflexivity | reflexivity]].
  destruct (fs sni) as [sl|]; [|split; [reflexivity | reflexivity]].
  cbv zeta.
  destruct (String.eqb (read_first_nonempty_line tl) "");
    [split; [reflexivity | reflexivity]|].
  destruct (read_lines sl) as [|rep reps].
  - split; [intros p Hp; now apply fs_set_other | intros H; now contradiction H].
  - destruct (make_proxy_lines (read_first_nonempty_line tl) (rep :: reps)) as [pl errs].
    split; [intros p Hp; now apply fs_set_other | intros H; now contradiction H].
Qed.

Lemma decode_file_inplace_frame (src tmp : string) (fs : fsys) (p : string) :
  p <> src -> p <> tmp -> run (decode_file_inplace src tmp fs) fs p = fs p.
Proof.
  intros H1 H2. apply run_untouched. unfold decode_file_inplace.
  destruct (fs src) as [lines|]; [|reflexivity]. cbv zeta.
  rewrite !forallb_app. cbn [forallb touches].
  rewrite loop_untouched by congruence.
  assert (E1 : String.eqb tmp p = false) by (apply String.eqb_neq; congruence).
  assert (E2 : String.eqb src p = false) by (apply String.eqb_neq; congruence).
  now rewrite E1, E2.
Qed.

(** X18.  A run of [encode_files] changes no file other than the output file,
    and none at all when it exits with a status; the whole run changes no
    file other than the template file, the temporary file of the batch
    decoder and the output file. *)
Theorem run_touches_only (tmpl sni out tmp : string) (fs : fsys) :
  (let '(final, _, status) := encode_files tmpl sni out fs in
   (forall p, p <> out -> final p = fs p) /\ (status <> None -> final = fs))
  /\ (let '(final, _, _) := snd (main tmpl sni out tmp fs) in
      forall p, p <> tmpl -> p <> tmp -> p <> out -> final p = fs p).
Proof.
  split; [apply encode_files_frame|].
  unfold main. cbv zeta. cbn [snd].
  destruct (exit_status (decode_file_inplace tmpl tmp fs)).
  - intros p H1 H2 _. now apply decode_file_inplace_frame.
  - pose proof (encode_files_frame tmpl sni out
                  (run (decode_file_inplace tmpl tmp fs) fs)) as H.
    destruct (encode_files tmpl sni out (run (decode_file_inplace tmpl tmp fs) fs))
      as [[final notices] status].
    destruct H as [H _]. intros p H1 H2 H3.
    rewrite H by exact H3. now apply decode_file_inplace_frame.
Qed.

(** ** The whole run on a scheme B link *)

Lemma vless_lines_of_normalised (template : string) (r : dict)
  (replacements : list string) :
  json_loads template = Ok (VDict (normalize_vless_entry r)) ->
  exists lines,
    make_proxy_lines template replacements = (lines, [])
    /\ Forall2 (fun rep line =>
                  exists n',
                    vless_subst (VDict (normalize_vless_entry r)) rep = Ok (VDict n')
                    /\ encode_vless_url (VDict n') = Ok line
                    /\ startswith line "vless://" = true)
         replacements lines.
Proof.
  intros H.
  assert (Hty : dict_get "_type" (normalize_vless_entry r) = Some (VStr "vless")).
  { rewrite normalize_vless_normal_form. now apply dict_get_normal_form_type. }
  unfold make_proxy_lines, proxy_type. rewrite H, bind_ok. cbn [py_get].
  unfold dict_get_default. rewrite Hty.
  change (eq_str (VStr "vless") "vmess") with false. cbv iota.
  rewrite make_vless_lines_split.
  induction replacements as [|rep reps IH].
  - exists []. split; [reflexivity | constructor].
  - destruct IH as [lines [E Hall]].
    destruct (vless_try_normalised r rep) as [n' [line [Hs [He Hl]]]].
    assert (Htry : vless_try template rep = Ok line).
    { unfold vless_try. now rewrite H, bind_ok, Hs, bind_ok. }
    exists (line :: lines). cbn [flat_map]. rewrite Htry.
    injection E as E1 E2. rewrite E1, E2. split; [reflexivity|].
    constructor; [|exact Hall]. exists n'. auto.
Qed.

Lemma process_line_decoded (line : string) (d : dict) :
  strip line = line -> String.eqb line "" = false ->
  decode_vmess_or_vless_line line = Ok d ->
  process_line line
  = Written (json_dumps (VDict (normalize_entry d)))
      (eq_str (dict_get_default "_type" VNone (normalize_entry d)) "vmess").
Proof.
  intros Hs Hne Hd. unfold process_line. cbv zeta. now rewrite Hs, Hne, Hd.
Qed.

Lemma process_vless_link (r n : dict) (line : string) :
  n = normalize_vless_entry r ->
  vless_ready n ->
  encode_vless_url (VDict n) = Ok line ->
  process_line line = Written (json_dumps (VDict n)) false.
Proof.
  intros Hn [i [a [z [t H]]]] Henc.
  destruct H as [Hid [Hi [Hadd [Hne [Ha [Hlow [Hport [Hz [Hps [Ht [Hclean Hfields]]]]]]]]]]].
  rewrite (encode_vless_url_ready n i a t z Hid Hadd Hport Hz Hps Hfields) in Henc.
  injection Henc as <-.
  rewrite (process_line_decoded _ (decoded_vless i a (string_of_Z z) t (vless_query_params n))).
  - rewrite (normalize_decoded_vless r n i a t z Hn Hid Hadd Hport Hz Hps Hfields).
    assert (Hty : dict_get_default "_type" VNone n = VStr "vless").
    { unfold dict_get_default. rewrite Hn, normalize_vless_normal_form.
      now rewrite dict_get_normal_form_type. }
    now rewrite Hty.
  - apply strip_vless_url;
      [exact (vless_query_nonempty n z Hz Hfields) | apply urlencode_query_chars
      | exact Hclean].
  - reflexivity.
  - exact (decode_vless_ready r n i a t z Hn Hid Hi Hadd Hne Ha Hlow Hport Hz Hps Ht
             Hclean Hfields).
Qed.

(** X19.  When the first line of the template file is the scheme-B link of a
    normalised record of plain fields that is ready for its encoder, the
    whole run does not exit and leaves in the output file one line for each
    non-blank line of the substitution file, in order: the scheme-B
    encoding of the normalised record after the substitution of that
    value, trimmed. *)
Theorem main_vless_pipeline
  (tmpl sni out tmp : string) (fs : fsys) (r : dict) (line : string)
  (rest sni_lines : list string) :
  tmp <> tmpl -> sni <> tmpl -> sni <> tmp ->
  forallb (fun kv => plain_value (snd kv)) r = true ->
  vless_ready (normalize_vless_entry r) ->
  encode_vless_url (VDict (normalize_vless_entry r)) = Ok line ->
  fs tmpl = Some (line :: rest) -> fs sni = Some sni_lines ->
  let '(final, _, status) := snd (main tmpl sni out tmp fs) in
  status = None
  /\ exists lines,
       final out = Some lines
       /\ Forall2 (fun rep line =>
                     exists n',
                       vless_subst (VDict (normalize_vless_entry r)) rep = Ok (VDict n')
                       /\ encode_vless_url (VDict n') = Ok line
                       /\ startswith line "vless://" = true)
            (read_lines sni_lines) lines.
Proof.
  intros Hne Hs1 Hs2 Hr Hready Henc Htmpl Hsni.
  pose proof (main_generates_from_first_record_lemma tmpl sni out tmp fs _ sni_lines
                Hne Hs1 Hs2 Htmpl Hsni) as H.
  destruct (snd (main tmpl sni out tmp fs)) as [[final notices] status].
  unfold written_records in H. cbn [flat_map] in H.
  rewrite (process_vless_link r _ line eq_refl Hready Henc) in H. cbn [app] in H.
  destruct H as [Hst [Hout _]]. split; [exact Hst|].
  assert (Hjson : json_loads (json_dumps (VDict (normalize_vless_entry r)))
                  = Ok (VDict (normalize_vless_entry r))).
  { rewrite normalize_vless_normal_form. apply plain_record_round_trips.
    - now apply nodupb_keys_normal_form.
    - now apply normal_form_plain. }
  destruct (vless_lines_of_normalised _ r (read_lines sni_lines) Hjson)
    as [lines [E Hall]].
  exists lines. rewrite Hout, E. split; [reflexivity | exact Hall].
Qed.


(** ** Reading the template and the substitutions *)

(** X21.  The template is the first line of the template file that is not blank,
    with only the newline characters at its end taken off, so that it
    keeps the white space around it; it is the empty text exactly when
    every line is blank. *)
Theorem template_is_first_nonblank_line (lines : list string) :
  (read_first_nonempty_line lines = ""
   <-> forall l, In l lines -> strip (rstrip_chars is_newline l) = "")
  /\ (forall blanks l rest,
        lines = (blanks ++ l :: rest)%list ->
        (forall b, In b blanks -> strip (rstrip_chars is_newline b) = "") ->
        strip (rstrip_chars is_newline l) <> "" ->
        read_first_nonempty_line lines = rstrip_chars is_newline l).
Proof.
  split.
  - induction lines as [|l r IH]; [split; [intros _ x [] | reflexivity]|].
    cbn [read_first_nonempty_line]. cbv zeta.
    destruct (String.eqb (strip (rstrip_chars is_newline l)) "") eqn:E; cbn [negb].
    + apply String.eqb_eq in E. rewrite IH. split.
      * intros H x [<-|Hx]; [exact E | now apply H].
      * intros H x Hx. apply H. now right.
    + apply String.eqb_neq in E. split.
      * intros H. exfalso. apply E. now rewrite H.
      * intros H. exfalso. apply E. apply H. now left.
  - intros blanks l rest -> Hb Hl.
    induction blanks as [|b bs IH]; cbn [app read_first_nonempty_line]; cbv zeta.
    + apply String.eqb_neq in Hl. now rewrite Hl.
    + rewrite (Hb b (or_introl eq_refl)).
      change (String.eqb "" "") with true. cbn [negb].
      apply IH. intros x Hx. apply Hb. now right.
Qed.

(** ** The fallback of scheme A generation *)

Lemma replace_absent (old new s : string) :
  contains s old = false -> replace old new s = s.
Proof.
  unfold replace. induction s as [|c s IH]; [reflexivity|].
  cbn [contains replace_from]. intros H. apply orb_false_iff in H.
  destruct H as [H1 H2]. rewrite H1. now rewrite IH.
Qed.

(** X22.  When the template does not parse as JSON and does not contain the
    legacy host name, scheme-A generation returns the same line for every
    substitution: the link of the template text itself. *)
Theorem fallback_without_legacy_host (template : string) (replacements : list string)
  (e : exn) :
  json_loads template = Raise e ->
  contains template "vk.com" = false ->
  make_vmess_lines template replacements
  = map (fun _ => "vmess://" ++ b64encode template) replacements.
Proof.
  intros H Hc. rewrite make_vmess_lines_map. apply map_ext. intros rep.
  unfold vmess_line, vmess_try. rewrite H. unfold bind, vmess_fallback. cbv zeta.
  now rewrite replace_absent.
Qed.

(** ** Generated scheme A links decode to the substituted record *)

Lemma plain_record_dict_set (k : string) (v : value) (d : dict) :
  utf8_valid k = true -> plain_value v = true -> plain_record d = true ->
  plain_record (dict_set k v d) = true.
Proof.
  intros Hk Hv. unfold plain_record.
  induction d as [|[k' v'] d IH]; cbn [dict_set forallb fst snd].
  - intros _. now rewrite Hk, Hv.
  - intros H. apply andb_true_iff in H. destruct H as [H1 H2].
    destruct (String.eqb k' k); cbn [forallb fst snd].
    + apply andb_true_iff in H1. destruct H1 as [H1 _]. now rewrite H1, Hv, H2.
    + now rewrite H1, IH.
Qed.

(** X23.  For a template that is the batch decoder's output for a scheme-A
    record of plain fields and a substitution value that is well-formed
    text, the generated line decodes to the normalised record with sni and
    host set to the value and the label extended by it in parentheses. *)
Theorem generated_vmess_link_decodes (r : dict) (rep : string) :
  forallb (fun kv => plain_value (snd kv)) r = true ->
  utf8_valid rep = true ->
  let n := normalize_vmess_entry r in
  let n' := dict_set "ps" (VStr (py_str (dict_get_default "ps" VNone n) ++ " (" ++ rep ++ ")"))
              (dict_set "host" (VStr rep) (dict_set "sni" (VStr rep) n)) in
  make_proxy_lines (json_dumps (VDict n)) [rep] = ([vmess_link (VDict n')], [])
  /\ decode_vmess_or_vless_line (vmess_link (VDict n')) = Ok n'
  /\ dict_get "sni" n' = Some (VStr rep)
  /\ dict_get "host" n' = Some (VStr rep).
Proof.
  intros Hr Hrep. cbv zeta.
  pose proof (vmess_lines_of_normalised r [rep] Hr) as Hlines. cbv zeta in Hlines.
  pose proof (normalize_vmess_normal_form r) as Hn.
  revert Hlines Hn. generalize (normalize_vmess_entry r) as n. intros n Hlines Hn.
  split; [exact Hlines|].
  assert (Hnd : nodupb (keys n) = true) by (rewrite Hn; now apply nodupb_keys_normal_form).
  assert (Hp : plain_record n = true) by (rewrite Hn; now apply normal_form_plain).
  assert (Hty : dict_get "_type" n = Some (VStr "vmess")).
  { rewrite Hn. now apply dict_get_normal_form_type. }
  assert (Hold : plain_value (dict_get_default "ps" VNone n) = true).
  { unfold dict_get_default. destruct (dict_get "ps" n) as [v|] eqn:E; [|reflexivity].
    apply (dict_get_plain n "ps" v); [now apply plain_record_values | exact E]. }
  set (label := py_str (dict_get_default "ps" VNone n) ++ " (" ++ rep ++ ")").
  assert (Hlabel : utf8_valid label = true).
  { unfold label. apply utf8_valid_app; [now apply utf8_valid_py_str|].
    apply utf8_valid_app; [reflexivity|]. apply utf8_valid_app; [exact Hrep | reflexivity]. }
  set (n' := dict_set "ps" (VStr label)
               (dict_set "host" (VStr rep) (dict_set "sni" (VStr rep) n))).
  assert (Hnd' : nodupb (keys n') = true) by (unfold n'; now repeat apply nodupb_dict_set).
  assert (Hp' : plain_record n' = true).
  { unfold n'. repeat apply plain_record_dict_set; auto. }
  assert (Hty' : dict_get "_type" n' = Some (VStr "vmess")).
  { unfold n'. now rewrite !dict_get_set_other by discriminate. }
  destruct (plain_record_round_trips n' Hnd' Hp') as [Hutf Hjson].
  split; [|split].
  - rewrite (decode_vmess_link (VDict n') n' Hutf Hjson).
    now rewrite (dict_set_same_value _ _ _ Hty').
  - unfold n'. rewrite (dict_get_set_other "sni" "ps") by discriminate.
    rewrite (dict_get_set_other "sni" "host") by discriminate.
    apply dict_get_set_same.
  - unfold n'. rewrite (dict_get_set_other "host" "ps") by discriminate.
    apply dict_get_set_same.
Qed.

(** ** Links without their base64 padding *)

Lemma repeat_char_snoc (c : ascii) (k : nat) :
  repeat_char c k ++ str1 c = String c (repeat_char c k).
Proof. induction k as [|k IH]; [reflexivity|]. cbn [repeat_char append]. now rewrite IH. Qed.

Lemma srev_repeat_char (c : ascii) (k : nat) : srev (repeat_char c k) = repeat_char c k.
Proof.
  induction k as [|k IH]; [reflexivity|].
  cbn [repeat_char]. rewrite srev_cons, IH. apply repeat_char_snoc.
Qed.

Lemma lstrip_chars_repeat (p : ascii -> bool) (c : ascii) (k : nat) (s : string) :
  p c = true -> lstrip_chars p (repeat_char c k ++ s) = lstrip_chars p s.
Proof.
  intros H. induction k as [|k IH]; [reflexivity|].
  cbn [repeat_char append lstrip_chars]. now rewrite H.
Qed.

Lemma lstrip_chars_none (p : ascii -> bool) (s : string) :
  sforall (fun c => negb (p c)) s = true -> lstrip_chars p s = s.
Proof.
  destruct s as [|c s]; [reflexivity|]. cbn [sforall lstrip_chars]. intros H.
  apply andb_true_iff in H. destruct H as [H _]. apply negb_true_iff in H. now rewrite H.
Qed.

Lemma rstrip_chars_repeat (p : ascii -> bool) (c : ascii) (k : nat) (core : string) :
  p c = true -> sforall (fun x => negb (p x)) core = true ->
  rstrip_chars p (core ++ repeat_char c k) = core.
Proof.
  intros Hc Hcore. unfold rstrip_chars.
  rewrite srev_append, srev_repeat_char, lstrip_chars_repeat by exact Hc.
  rewrite lstrip_chars_none by now rewrite sforall_srev.
  apply srev_involutive.
Qed.

Lemma b64_char_core (n : N) :
  (n < 64)%N ->
  (is_ascii (b64_char n) && negb (is_space (b64_char n))
   && negb (Ascii.eqb (b64_char n) "="%char))%bool = true.
Proof.
  intros H. destruct (b64_char_classes n H) as [_ [Hp Ha]]. now rewrite Ha, Hp.
Qed.

Lemma pad_len_four (c1 c2 c3 c4 : ascii) (s : string) :
  pad_len (String c1 (String c2 (String c3 (String c4 s)))) = pad_len s.
Proof.
  unfold pad_len. cbn [String.length].
  replace (S (S (S (S (String.length s))))) with (String.length s + 1 * 4)%nat by lia.
  now rewrite Nat.Div0.mod_add.
Qed.

Lemma b64encode_core (s : string) :
  exists core,
    b64encode s = core ++ repeat_char "="%char (pad_len core)
    /\ sforall (fun c => is_ascii c && negb (is_space c)
                         && negb (Ascii.eqb c "="%char))%bool core = true.
Proof.
  induction s as [|a|a b|a b c r IH] using string_ind3.
  - exists "". split; reflexivity.
  - pose proof (N_ascii_bounded a) as Ha. fold (code a) in Ha.
    cbn [b64encode]. cbv zeta. eexists (String _ (String _ "")). split; [reflexivity|].
    cbn [sforall]. rewrite !b64_char_core by div_mod_lia. reflexivity.
  - pose proof (N_ascii_bounded a) as Ha. fold (code a) in Ha.
    pose proof (N_ascii_bounded b) as Hb. fold (code b) in Hb.
    cbn [b64encode]. cbv zeta. eexists (String _ (String _ (String _ ""))).
    split; [reflexivity|].
    cbn [sforall]. rewrite !b64_char_core by div_mod_lia. reflexivity.
  - pose proof (N_ascii_bounded a) as Ha. fold (code a) in Ha.
    pose proof (N_ascii_bounded b) as Hb. fold (code b) in Hb.
    pose proof (N_ascii_bounded c) as Hc. fold (code c) in Hc.
    destruct IH as [core [E Hcore]].
    cbn [b64encode]. cbv zeta. rewrite E.
    eexists (String _ (String _ (String _ (String _ core)))). split.
    + rewrite pad_len_four. reflexivity.
    + cbn [sforall]. rewrite !b64_char_core by div_mod_lia. exact Hcore.
Qed.

(** X24.  A scheme-A link whose base64 padding has been taken off decodes like
    the link with its padding: the decoder puts back the padding the
    length asks for. *)
Theorem unpadded_vmess_link_decodes (d : dict) :
  nodupb (keys d) = true ->
  plain_record d = true ->
  decode_vmess_or_vless_line
    ("vmess://" ++ rstrip_chars (fun c => Ascii.eqb c "="%char)
                     (b64encode (json_dumps (VDict d))))
  = Ok (dict_set "_type" (VStr "vmess") d).
Proof.
  intros Hnd Hp. destruct (plain_record_round_trips d Hnd Hp) as [Hutf Hjson].
  revert Hutf Hjson. generalize (json_dumps (VDict d)) as payload. intros payload Hutf Hjson.
  pose proof (b64decode_b64encode payload) as Hb64.
  destruct (b64encode_core payload) as [core [E Hcore]]. rewrite E in *.
  assert (Hnopad : sforall (fun c => negb (Ascii.eqb c "="%char)) core = true).
  { revert Hcore. apply sforall_impl. intros c Hc. now apply andb_true_iff in Hc. }
  assert (Hplain : sforall (fun c => is_ascii c && negb (is_space c))%bool core = true).
  { revert Hcore. apply sforall_impl. intros c Hc. apply andb_true_iff in Hc. tauto. }
  rewrite rstrip_chars_repeat by (reflexivity || exact Hnopad).
  unfold decode_vmess_or_vless_line. cbv zeta.
  assert (Hstrip : strip ("vmess://" ++ core) = "vmess://" ++ core).
  { unfold strip.
    assert (Hl : lstrip ("vmess://" ++ core) = "vmess://" ++ core)
      by now apply (lstrip_ascii_head "v"%char).
    rewrite Hl. apply rstrip_ascii. rewrite sforall_app, Hplain. reflexivity. }
  rewrite Hstrip.
  change (String.eqb ("vmess://" ++ core) "") with false.
  rewrite startswith_app. cbv iota.
  change (drop 8 ("vmess://" ++ core)) with core.
  unfold encode_ascii.
  assert (Hascii : isascii (core ++ repeat_char "="%char (pad_len core)) = true).
  { unfold isascii. rewrite sforall_app.
    assert (Hc : sforall is_ascii core = true).
    { revert Hplain. apply sforall_impl. intros c Hc. now apply andb_true_iff in Hc. }
    rewrite Hc. clear. induction (pad_len core) as [|k IH]; [reflexivity | exact IH]. }
  rewrite Hascii, bind_ok. unfold b64decode in Hb64. unfold b64decode.
  rewrite Hb64, bind_ok.
  unfold decode_utf8. rewrite Hutf, bind_ok, Hjson, bind_ok. reflexivity.
Qed.

End Pipeline.

(** ** Closed instances

    The statements below evaluate the model on inputs that hold no float,
    no bracketed host and no non-ASCII host, so that none of them consults
    the runtime; they are stated at this one. *)

#[local] Instance closed_runtime : Runtime := {|
  float_repr := fun _ => "0.0";
  float_of_literal := fun _ => 0%float;
  bracketed_host_ok := fun _ => false;
  nfkc_netloc_ok := fun _ => false
|}.

(** C4 as the specification words it fails: the normalised empty record has
    a key, the discriminator, that is not in the canonical sequence. *)
Lemma normalized_keys_not_canonical :
  keys (normalize_entry []) <> canonical_order [].
Proof. vm_compute. discriminate. Qed.

Lemma host_substitution_witness :
  let d := [("host", VStr "old.com"); ("type", VStr "ws"); ("sni", VStr "old.com")] in
  (exists d', vmess_subst (VDict d) "a.com" = Ok (VDict d')
              /\ dict_get "host" d' = Some (VStr "a.com"))
  /\ (forall t, dict_get "type" d = Some t ->
        exists d', vless_subst (VDict d) "a.com" = Ok (VDict d')
                   /\ dict_get "host" d'
                      = if host_exempt t then dict_get "host" d else Some (VStr "a.com"))
  /\ (dict_get "type" d = None ->
        vless_subst (VDict d) "a.com" = Raise (KeyError "type")
        /\ forall template replacements,
             json_loads template = Ok (VDict d) ->
             make_vless_lines template replacements
             = ([], map (fun _ => KeyError "type") replacements)).
Proof.
  exact (host_substitution
           [("host", VStr "old.com"); ("type", VStr "ws"); ("sni", VStr "old.com")]
           "a.com" eq_refl).
Defined.


(** C2 as the specification words it fails: the decoded label is not the
    percent-decoded text. *)
Lemma scenario_B_label_not_decoded :
  exists d,
    decode_vmess_or_vless_line
      "vless://user-id@host.example:8443?security=tls&sni=sni.example#My%20Label" = Ok d
    /\ dict_get "ps" (normalize_entry d) = Some (VStr "My%20Label")
    /\ dict_get "ps" (normalize_entry d) <> Some (VStr "My Label").
Proof.
  eexists. split; [vm_compute; reflexivity|].
  split; vm_compute; [reflexivity|discriminate].
Qed.




Lemma vmess_link_decodes_witness :
  let d := [("add", VStr "example.com"); ("port", VInt 443); ("_type", VStr "other");
            ("ps", VStr "Node A")] in
  decode_vmess_or_vless_line (vmess_link (VDict d))
  = Ok [("add", VStr "example.com"); ("port", VInt 443); ("_type", VStr "vmess");
        ("ps", VStr "Node A")].
Proof.
  intros d. exact (vmess_link_decodes d eq_refl eq_refl).
Defined.

Lemma plain_vmess_round_trip_witness :
  let r := [("add", VStr "example.com"); ("port", VInt 443); ("aid", VInt 0);
            ("tls", VNone); ("allowInsecure", VBool false); ("note", VStr "dropped")] in
  round_trip (normalize_vmess_entry r) = Ok (normalize_vmess_entry r).
Proof.
  intros r. exact (plain_vmess_round_trip r eq_refl).
Defined.

Lemma json_line_decodes_witness :
  let d := [("add", VStr "example.com"); ("port", VInt 443); ("ps", VStr "Node A")] in
  decode_vmess_or_vless_line (json_dumps (VDict d))
  = Ok [("add", VStr "example.com"); ("port", VInt 443); ("ps", VStr "Node A");
        ("_type", VStr "vmess")].
Proof.
  intros d. exact (json_line_decodes d eq_refl eq_refl).
Defined.

Lemma decoder_output_stable_witness :
  let r := [("_type", VStr "vless"); ("id", VStr "user-id"); ("add", VStr "host.example");
            ("port", VInt 8443); ("allowInsecure", VStr "0")] in
  let n := normalize_entry r in
  decode_vmess_or_vless_line (json_dumps (VDict n)) = Ok n
  /\ process_line (json_dumps (VDict n))
     = Written (json_dumps (VDict n)) (eq_str (dict_get_default "_type" VNone n) "vmess").
Proof.
  intros r. exact (decoder_output_stable r eq_refl).
Defined.


Lemma decode_file_inplace_idempotent_witness :
  let rs := [[("add", VStr "example.com"); ("port", VInt 443)];
             [("_type", VStr "vless"); ("id", VStr "user-id"); ("port", VInt 8443)]] in
  let fs : fsys :=
    fun p => if String.eqb p "file1.txt"
             then Some (map (fun r => json_dumps (VDict (normalize_entry r))) rs)
             else None in
  run (decode_file_inplace "file1.txt" "tmp0" fs) fs "file1.txt" = fs "file1.txt"
  /\ reports (decode_file_inplace "file1.txt" "tmp0" fs) = [].
Proof.
  intros rs fs.
  apply (decode_file_inplace_idempotent "file1.txt" "tmp0" fs rs).
  - discriminate.
  - intros r [H|[H|[]]]; subst r; reflexivity.
  - reflexivity.
Defined.

Lemma decoded_discriminator_witness :
  let line := "vmess://eyJfdHlwZSI6InZsZXNzIiwiYWRkIjoiZXhhbXBsZS5jb20ifQ==" in
  let d := [("_type", VStr "vmess"); ("add", VStr "example.com")] in
  decode_vmess_or_vless_line line = Ok d
  /\ (exists t, dict_get "_type" d = Some t)
  /\ (startswith (strip line) "vmess://" = true ->
      dict_get "_type" d = Some (VStr "vmess"))
  /\ (startswith (strip line) "vmess://" = false ->
      startswith (strip line) "vless://" = true ->
      dict_get "_type" d = Some (VStr "vless")).
Proof.
  intros line d.
  assert (H : decode_vmess_or_vless_line line = Ok d) by (vm_compute; reflexivity).
  split; [exact H | exact (decoded_discriminator line d H)].
Defined.

Lemma raw_template_lines_witness :
  make_proxy_lines "vless://user-id@vk.com:443#x" ["a.com"; "b.com"]
  = ([], [JSONDecodeError; JSONDecodeError])
  /\ make_proxy_lines "plain vk.com text" ["a.com"]
     = (["vmess://" ++ b64encode "plain a.com text"], []).
Proof.
  split.
  - exact (raw_template_lines "vless://user-id@vk.com:443#x" ["a.com"; "b.com"]
             JSONDecodeError eq_refl).
  - exact (raw_template_lines "plain vk.com text" ["a.com"] JSONDecodeError eq_refl).
Defined.



Lemma main_vmess_pipeline_witness :
  let d := [("add", VStr "example.com"); ("port", VInt 443); ("id", VStr "abc-123");
            ("ps", VStr "Node")] in
  let fs : fsys :=
    fun p => if String.eqb p "file1.txt" then Some [vmess_link (VDict d)]
             else if String.eqb p "SNI.txt" then Some ["a.com"; "  "; " b.com"]
             else None in
  let n := normalize_vmess_entry d in
  let '(final, _, status) := snd (main "file1.txt" "SNI.txt" "file3.txt" "tmp0" fs) in
  status = None
  /\ final "file3.txt"
     = Some (map (fun rep =>
                    vmess_link
                      (VDict (dict_set "ps"
                                (VStr (py_str (dict_get_default "ps" VNone n)
                                       ++ " (" ++ rep ++ ")"))
                                (dict_set "host" (VStr rep)
                                   (dict_set "sni" (VStr rep) n)))))
               (read_lines ["a.com"; "  "; " b.com"])).
Proof.
  intros d fs.
  apply (main_vmess_pipeline "file1.txt" "SNI.txt" "file3.txt" "tmp0" fs d []
           ["a.com"; "  "; " b.com"]); try discriminate; reflexivity.
Defined.

Lemma vless_port_reading_witness :
  parse_vless_url (vless_url ("user-id" ++ "@" ++ "host.example") "" "label")
  = Ok [("id", VStr "user-id"); ("add", VStr "host.example"); ("port", VStr "None");
        ("ps", VStr "label")]
  /\ forall ptxt,
       sforall netloc_char ptxt = true -> ptxt <> "" ->
       parse_vless_url
         (vless_url ("user-id" ++ "@" ++ "host.example" ++ ":" ++ ptxt) "" "label")
       = if (isdigit ptxt && Z.leb (Z_of_digits ptxt) 65535)%bool
         then Ok [("id", VStr "user-id"); ("add", VStr "host.example");
                  ("port", VStr (string_of_Z (Z_of_digits ptxt))); ("ps", VStr "label")]
         else Raise ValueError.
Proof.
  apply (vless_port_reading "user-id" "host.example" "label");
    try reflexivity; discriminate.
Defined.


Lemma main_vless_pipeline_witness :
  let r := [("_type", VStr "vless"); ("id", VStr "user-id"); ("add", VStr "host.example");
            ("port", VInt 8443); ("security", VStr "tls"); ("sni", VStr "sni.example");
            ("ps", VStr "My Label")] in
  let line :=
    "vless://user-id@host.example:8443?type=tcp&encryption=none&security=tls&sni=sni.example&allowInsecure=1#My Label" in
  let fs : fsys :=
    fun p => if String.eqb p "file1.txt" then Some [line]
             else if String.eqb p "SNI.txt" then Some ["a.com"; "b.com "]
             else None in
  let '(final, _, status) := snd (main "file1.txt" "SNI.txt" "file3.txt" "tmp0" fs) in
  status = None
  /\ exists lines,
       final "file3.txt" = Some lines
       /\ Forall2 (fun rep line =>
                     exists n',
                       vless_subst (VDict (normalize_vless_entry r)) rep = Ok (VDict n')
                       /\ encode_vless_url (VDict n') = Ok line
                       /\ startswith line "vless://" = true)
            (read_lines ["a.com"; "b.com "]) lines.
Proof.
  intros r line fs.
  apply (main_vless_pipeline "file1.txt" "SNI.txt" "file3.txt" "tmp0" fs r line []
           ["a.com"; "b.com "]); try discriminate; try reflexivity.
  exists "user-id", "host.example", 8443, "My Label".
  repeat split; try (vm_compute; reflexivity); try discriminate.
  intros k Hk. vm_compute in Hk.
  repeat (destruct Hk as [<-|Hk]); try contradiction; vm_compute;
    first [ reflexivity
          | eexists; split; [reflexivity | intros H; try discriminate H; discriminate] ].
Defined.

Lemma fallback_without_legacy_host_witness :
  make_vmess_lines "not json" ["a.com"; "b.com"]
  = ["vmess://" ++ b64encode "not json"; "vmess://" ++ b64encode "not json"].
Proof.
  exact (fallback_without_legacy_host "not json" ["a.com"; "b.com"] JSONDecodeError
           eq_refl eq_refl).
Defined.

Lemma generated_vmess_link_decodes_witness :
  let r := [("add", VStr "example.com"); ("port", VInt 443); ("ps", VStr "Node")] in
  let n := normalize_vmess_entry r in
  let n' := dict_set "ps" (VStr (py_str (dict_get_default "ps" VNone n) ++ " (" ++ "a.com" ++ ")"))
              (dict_set "host" (VStr "a.com") (dict_set "sni" (VStr "a.com") n)) in
  make_proxy_lines (json_dumps (VDict n)) ["a.com"] = ([vmess_link (VDict n')], [])
  /\ decode_vmess_or_vless_line (vmess_link (VDict n')) = Ok n'
  /\ dict_get "sni" n' = Some (VStr "a.com")
  /\ dict_get "host" n' = Some (VStr "a.com").
Proof.
  intros r.
  exact (generated_vmess_link_decodes r "a.com" eq_refl eq_refl).
Defined.

Lemma unpadded_vmess_link_decodes_witness :
  "vmess://" ++ rstrip_chars (fun c => Ascii.eqb c "="%char)
                  (b64encode (json_dumps (VDict [("add", VStr "a.com"); ("aid", VInt 0)])))
  = "vmess://eyJhZGQiOiJhLmNvbSIsImFpZCI6MH0"
  /\ decode_vmess_or_vless_line
       ("vmess://" ++ rstrip_chars (fun c => Ascii.eqb c "="%char)
                        (b64encode (json_dumps (VDict [("add", VStr "a.com"); ("aid", VInt 0)]))))
     = Ok (dict_set "_type" (VStr "vmess") [("add", VStr "a.com"); ("aid", VInt 0)]).
Proof.
  split; [vm_compute; reflexivity|].
  exact (unpadded_vmess_link_decodes [("add", VStr "a.com"); ("aid", VInt 0)]
           eq_refl eq_refl).
Defined.
